(** * PtyRAD utilities ([ptyrad/utils/common.py]): a shallow embedding

    The module is glue around Python's [logging], [os] and [str.format].
    The embedding follows the source function by function:

    - Python values are an inductive type [value]; a [dict] is an
      association list in insertion order, because the printers iterate
      over it;
    - code that can raise returns a [result];
    - code that touches the process (the shared ['PtyRAD'] logger, the
      [io.StringIO] buffers, the console, the file system, the clock) runs
      in a state-and-error monad over a [World];
    - what the interpreter and the operating system decide (the shortest
      [repr] of a float, the wall clock, whether a system call fails) is an
      [Env] of oracles, over which the general theorems are quantified. *)

From stdpp Require Import base tactics option list strings pretty gmap.
From Stdlib Require Import ZArith Lia Ascii String.

Open Scope string_scope.
Open Scope Z_scope.

(** ** Exceptions and results *)

Inductive exn : Type :=
  | TypeError
  | AttributeError
  | ValueError
  | OverflowError
  | OSError.

Inductive result (A : Type) : Type :=
  | Ok (a : A)
  | Raise (e : exn).
Arguments Ok {A} a.
Arguments Raise {A} e.

Definition result_bind {A B} (r : result A) (k : A → result B) : result B :=
  match r with
  | Ok a => k a
  | Raise e => Raise e
  end.

(** ** Python values *)

#[local] Set Warnings "-register-all".

(** A finite binary64 float, by its exact value [f_mant * 2 ^ f_exp].
    NaN, the infinities and the negative zero are outside the model. *)
Record float : Type := Float { f_mant : Z; f_exp : Z }.

Inductive value : Type :=
  | VNone
  | VBool (b : bool)
  | VInt (n : Z)
  | VFloat (x : float)
  | VStr (s : string)
  | VList (l : list value)
  | VTuple (l : list value)
  | VDict (items : list (string * value)).

(** [isinstance(v, dict)] and [isinstance(v, (dict, list))]. *)
Definition is_dict (v : value) : bool :=
  match v with VDict _ => true | _ => false end.

Definition is_dict_or_list (v : value) : bool :=
  match v with VDict _ | VList _ => true | _ => false end.

Definition is_none (v : value) : bool :=
  match v with VNone => true | _ => false end.

(** [d[key]] on the association list: the entry of [key], if any. *)
Fixpoint dict_lookup (items : list (string * value)) (key : string)
  : option value :=
  match items with
  | [] => None
  | (k, v) :: rest => if String.eqb k key then Some v else dict_lookup rest key
  end.

(** [d.get(key)]: the attribute exists on a [dict] only; a missing key
    gives [None]. *)
Definition py_get (d : value) (key : string) : result value :=
  match d with
  | VDict items => Ok (default VNone (dict_lookup items key))
  | _ => Raise AttributeError
  end.

(** ** [safe_get_nested] *)

(** The [for] loop over [keys], with its two early returns. *)
Fixpoint safe_get_nested (d : value) (keys : list string) (default : value)
  : result value :=
  match keys with
  | [] => Ok d
  | key :: keys' =>
      if negb (is_dict d) then Ok default
      else
        result_bind (py_get d key) (λ d',
          if is_none d' then Ok default
          else safe_get_nested d' keys' default)
  end.

(** What is stored at the end of a key path: defined when every key is
    present and every value passed through is a mapping. *)
Fixpoint stored_at (d : value) (keys : list string) : option value :=
  match keys with
  | [] => Some d
  | key :: keys' =>
      match d with
      | VDict items =>
          match dict_lookup items key with
          | Some d' => stored_at d' keys'
          | None => None
          end
      | _ => None
      end
  end.

(** Whether some value looked up along the path is [None]. *)
Fixpoint null_on_path (d : value) (keys : list string) : bool :=
  match keys with
  | [] => false
  | key :: keys' =>
      match d with
      | VDict items =>
          match dict_lookup items key with
          | Some VNone => true
          | Some d' => null_on_path d' keys'
          | None => false
          end
      | _ => false
      end
  end.

(** ** Strings as Python has them *)

(** A character is a code point below 256; a [str] is a [string] of
    them. *)

(** [s * n] *)
Fixpoint repeat_string (s : string) (n : nat) : string :=
  match n with
  | O => EmptyString
  | S n' => s ++ repeat_string s n'
  end.

(** [str.zfill(width)]: zeros go after a leading sign. *)
Definition zfill (width : nat) (s : string) : string :=
  let len := String.length s in
  if (width <=? len)%nat then s
  else
    let zeros := repeat_string "0" (width - len) in
    match s with
    | String c rest =>
        if (Ascii.eqb c "+" || Ascii.eqb c "-")%bool
        then String c (zeros ++ rest)
        else zeros ++ s
    | EmptyString => zeros
    end.

(** [str.lower()] of one character: the capital letters are those of
    ASCII and, above it, U+00C0 to U+00DE without the sign U+00D7; each has
    its small letter 32 further on. *)
Definition lower_ascii (c : ascii) : ascii :=
  let n := nat_of_ascii c in
  if (((65 <=? n) && (n <=? 90))
      || ((192 <=? n) && (n <=? 222) && negb (n =? 215)))%nat
  then ascii_of_nat (n + 32) else c.

Fixpoint lower (s : string) : string :=
  match s with
  | EmptyString => EmptyString
  | String c rest => String (lower_ascii c) (lower rest)
  end.

(** [s[-2:]] *)
Definition last_two (s : string) : string :=
  substring (String.length s - 2) 2 s.

Fixpoint contains_char (c : ascii) (s : string) : bool :=
  match s with
  | EmptyString => false
  | String c' rest => (Ascii.eqb c c' || contains_char c rest)%bool
  end.

(** The double quote character. *)
Definition dquote : ascii := ascii_of_nat 34.

Definition hex_digit (n : nat) : ascii :=
  match n with
  | 10 => "a" | 11 => "b" | 12 => "c" | 13 => "d" | 14 => "e" | 15 => "f"
  | _ => ascii_of_nat (48 + n)
  end%nat%char.

(** One character of [repr(str)] inside quotes [q]. A character that is
    not printable is written as [\xhh]: below 256 these are the controls
    up to U+001F, U+007F to U+00A0, and the soft hyphen U+00AD. *)
Definition repr_char (q c : ascii) : string :=
  let n := nat_of_ascii c in
  if Ascii.eqb c "\" then "\\"
  else if Ascii.eqb c q then String "\" (String q EmptyString)
  else if (n =? 10)%nat then "\n"
  else if (n =? 13)%nat then "\r"
  else if (n =? 9)%nat then "\t"
  else if ((n <? 32) || ((127 <=? n) && (n <=? 160)) || (n =? 173))%nat
  then "\x" ++ String (hex_digit (n / 16))
                 (String (hex_digit (n mod 16)) EmptyString)
  else String c EmptyString.

Fixpoint repr_chars (q : ascii) (s : string) : string :=
  match s with
  | EmptyString => EmptyString
  | String c rest => repr_char q c ++ repr_chars q rest
  end.

(** [repr(s)] for a [str]: single quotes, unless the text has a single
    quote and no double quote. *)
Definition repr_str (s : string) : string :=
  let q : ascii :=
    if (contains_char "'" s && negb (contains_char dquote s))%bool
    then dquote else "'"%char in
  String q (repr_chars q s ++ String q EmptyString).

(** ** The environment: what the interpreter and the system decide *)

Record date : Type := Date { year : Z; month : Z; day : Z }.

Inductive file_mode : Type := ModeA | ModeW.

Inductive os_call : Type :=
  | Makedirs (path : string)
  | Open (path : string) (mode : file_mode).

(** Directories and the text of the files, by path. *)
Record FS : Type := MkFS { dirs : gset string; files : gmap string string }.

Record Env : Type := MkEnv {
  (** [repr] of a float: the shortest text that reads back as it *)
  repr_float : float → string;
  (** [%(asctime)s] of the record created at the n-th reading of the clock *)
  asctime_at : nat → string;
  (** [date.today()] at the n-th reading of the clock *)
  today_at : nat → date;
  (** whether a system call fails in a state of the file system *)
  os_refuses : FS → os_call → bool
}.

(** ** [repr] and [str] *)

Definition repr_bool (b : bool) : string := if b then "True" else "False".

Fixpoint py_repr (env : Env) (v : value) : string :=
  match v with
  | VNone => "None"
  | VBool b => repr_bool b
  | VInt n => pretty n
  | VFloat x => repr_float env x
  | VStr s => repr_str s
  | VList l => "[" ++ String.concat ", " (map (py_repr env) l) ++ "]"
  | VTuple l =>
      match l with
      | [_] => "(" ++ String.concat ", " (map (py_repr env) l) ++ ",)"
      | _ => "(" ++ String.concat ", " (map (py_repr env) l) ++ ")"
      end
  | VDict items =>
      "{" ++ String.concat ", "
               (map (λ kv, repr_str (fst kv) ++ ": " ++ py_repr env (snd kv))
                    items) ++ "}"
  end.

Definition py_str (env : Env) (v : value) : string :=
  match v with
  | VStr s => s
  | _ => py_repr env v
  end.

(** ** The process: console, [StringIO] objects, files, loggers *)

(** Where a handler writes. *)
Inductive stream : Type :=
  | Stderr
  | Stdout
  | Buffer (id : nat)
  | FileStream (path : string).

(** A [logging.Handler]: its identity, stream, level, and whether its
    formatter is ['%(asctime)s - %(message)s'] or ['%(message)s']. *)
Record handler : Type := Handler {
  h_id : nat;
  h_stream : stream;
  h_level : Z;
  h_timestamp : bool
}.

Record logger : Type := Logger { level : Z; handlers : list handler }.

#[global] Instance stream_eq_dec : EqDecision stream.
Proof. solve_decision. Defined.

#[global] Instance handler_eq_dec : EqDecision handler.
Proof. solve_decision. Defined.

(** [torch.distributed]: [is_available()], [is_initialized()],
    [get_rank()]. *)
Record dist_state : Type := Dist {
  is_available : bool;
  is_initialized : bool;
  get_rank : Z
}.

Record World : Type := MkWorld {
  stdout : string;
  stderr : string;
  (** the text of every [io.StringIO], by object identity *)
  buffers : gmap nat string;
  fs : FS;
  (** [logging.getLogger('PtyRAD')], shared by every [CustomLogger] *)
  ptyrad : logger;
  (** the root logger, to which ['PtyRAD'] propagates *)
  root : logger;
  dist : dist_state;
  (** the next fresh object identity *)
  next_id : nat;
  (** how many times the clock has been read *)
  clock : nat
}.

Definition set_stdout (s : string) (w : World) : World :=
  MkWorld s (stderr w) (buffers w) (fs w) (ptyrad w) (root w) (dist w)
          (next_id w) (clock w).
Definition set_stderr (s : string) (w : World) : World :=
  MkWorld (stdout w) s (buffers w) (fs w) (ptyrad w) (root w) (dist w)
          (next_id w) (clock w).
Definition set_buffers (b : gmap nat string) (w : World) : World :=
  MkWorld (stdout w) (stderr w) b (fs w) (ptyrad w) (root w) (dist w)
          (next_id w) (clock w).
Definition set_fs (f : FS) (w : World) : World :=
  MkWorld (stdout w) (stderr w) (buffers w) f (ptyrad w) (root w) (dist w)
          (next_id w) (clock w).
Definition set_ptyrad (l : logger) (w : World) : World :=
  MkWorld (stdout w) (stderr w) (buffers w) (fs w) l (root w) (dist w)
          (next_id w) (clock w).
Definition set_next_id (n : nat) (w : World) : World :=
  MkWorld (stdout w) (stderr w) (buffers w) (fs w) (ptyrad w) (root w)
          (dist w) n (clock w).
Definition set_clock (n : nat) (w : World) : World :=
  MkWorld (stdout w) (stderr w) (buffers w) (fs w) (ptyrad w) (root w)
          (dist w) (next_id w) n.

(** Code that reads and changes the process, and may raise. *)
Definition M (A : Type) : Type := World → result (A * World).

Definition ret {A} (a : A) : M A := λ w, Ok (a, w).

Definition bind {A B} (c : M A) (k : A → M B) : M B := λ w,
  match c w with
  | Ok (a, w') => k a w'
  | Raise e => Raise e
  end.

Definition raise {A} (e : exn) : M A := λ _, Raise e.

Definition get_world : M World := λ w, Ok (w, w).

Definition modify (f : World → World) : M unit := λ w, Ok (tt, f w).

Notation "'let!' x ':=' c1 'in' c2" := (bind c1 (λ x, c2))
  (at level 10, x name, c1 at level 100, c2 at level 200,
   format "'[v' 'let!'  x  ':='  c1  'in' '/' c2 ']'").
Notation "c1 >> c2" := (bind c1 (λ _, c2))
  (at level 62, right associativity).

(** A fresh object identity. *)
Definition fresh : M nat := λ w, Ok (next_id w, set_next_id (S (next_id w)) w).

(** One reading of the clock. *)
Definition read_clock : M nat := λ w, Ok (clock w, set_clock (S (clock w)) w).

(** ** Logging *)

Definition NOTSET : Z := 0.
Definition INFO : Z := 20.
Definition WARNING : Z := 30.

(** [stream.write(text)]. A [StringIO] and an open file grow at their end;
    writing never brings a path into being. *)
Definition write_stream (s : stream) (text : string) (w : World) : World :=
  match s with
  | Stderr => set_stderr (stderr w ++ text) w
  | Stdout => set_stdout (stdout w ++ text) w
  | Buffer id => set_buffers (alter (λ old, old ++ text) id (buffers w)) w
  | FileStream path =>
      set_fs (MkFS (dirs (fs w))
                   (alter (λ old, old ++ text) path (files (fs w)))) w
  end.

(** [Formatter.format(record)] for the two format strings in use; [created]
    is the reading of the clock the record was made at. *)
Definition format_record (env : Env) (timestamp : bool) (created : nat)
    (msg : string) : string :=
  if timestamp then asctime_at env created ++ " - " ++ msg else msg.

(** The newline *)
Definition nl : string := String (ascii_of_nat 10) EmptyString.

(** [Handler.handle(record)] under the level test of [callHandlers]. *)
Definition handle (env : Env) (levelno : Z) (created : nat) (msg : string)
    (w : World) (h : handler) : World :=
  if h_level h <=? levelno
  then write_stream (h_stream h)
         (format_record env (h_timestamp h) created msg ++ nl) w
  else w.

(** [Logger.callHandlers]: the handlers of ['PtyRAD'], then those of the
    root logger. *)
Definition call_handlers (env : Env) (levelno : Z) (created : nat)
    (msg : string) (w : World) : World :=
  fold_left (handle env levelno created msg) (handlers (root w))
    (fold_left (handle env levelno created msg) (handlers (ptyrad w)) w).

(** [Logger.getEffectiveLevel] and [Logger.isEnabledFor]. *)
Definition effective_level (w : World) : Z :=
  if level (ptyrad w) =? NOTSET then level (root w) else level (ptyrad w).

Definition is_enabled_for (levelno : Z) (w : World) : bool :=
  effective_level w <=? levelno.

(** [Logger.hasHandlers] *)
Definition has_handlers (w : World) : bool :=
  negb (bool_decide (handlers (ptyrad w) = []))
  || negb (bool_decide (handlers (root w) = [])).

(** The keyword arguments [vprint] passes on: [print] knows [sep] and
    [end], [Logger.info] knows neither. *)
Record print_opts : Type := PrintOpts {
  kw_sep : option string;
  kw_end : option string
}.

Definition no_opts : print_opts := PrintOpts None None.

Definition has_opts (kw : print_opts) : bool :=
  bool_decide (is_Some (kw_sep kw)) || bool_decide (is_Some (kw_end kw)).

(** [logger.info(msg)], with the keyword arguments passed on *)
Definition logger_info (env : Env) (msg : string) (kw : print_opts) : M unit :=
  let! w := get_world in
  if is_enabled_for INFO w then
    if has_opts kw then raise TypeError
    else
      let! created := read_clock in
      modify (call_handlers env INFO created msg)
  else ret tt.

(** [print] of the arguments, with its [sep] and [end] *)
Definition py_print (env : Env) (args : list value) (kw : print_opts)
  : M unit :=
  modify (λ w,
    set_stdout (stdout w
                ++ String.concat (default " " (kw_sep kw))
                     (map (py_str env) args)
                ++ default nl (kw_end kw)) w).

(** ** [vprint] *)

Definition vprint (env : Env) (args : list value) (verbose : bool)
    (kw : print_opts) : M unit :=
  let! w := get_world in
  if verbose
     && (negb (is_available (dist w)) || negb (is_initialized (dist w))
         || (get_rank (dist w) =? 0))
  then
    if has_handlers w
    then logger_info env (String.concat " " (map (py_str env) args)) kw
    else py_print env args kw
  else ret tt.

(** [vprint(msg)], as every call inside this module is. *)
Definition vprint1 (env : Env) (msg : string) : M unit :=
  vprint env [VStr msg] true no_opts.

Arguments vprint : simpl never.
Arguments vprint1 : simpl never.
Arguments logger_info : simpl never.

(** ** [vprint_nested_dict] *)

(** [all(not isinstance(v, (dict, list)) for v in ...)] *)
Definition all_scalars (l : list value) : bool :=
  forallb (λ v, negb (is_dict_or_list v)) l.

(** [", ".join(f"{k}: {repr(v)}" for k, v in value.items())] *)
Definition flat_items (env : Env) (items : list (string * value)) : string :=
  String.concat ", " (map (λ kv, fst kv ++ ": " ++ py_repr env (snd kv)) items).

(** The default of the parameter [leaf_inline_threshold]. *)
Definition default_leaf_inline_threshold : Z := 6.

(** The loop over [d.items()]. The recursive call names [indent + 1] and
    [verbose] and leaves [leaf_inline_threshold] to its default. *)
Fixpoint vprint_nested_dict (env : Env) (d : value) (indent : nat)
    (verbose : bool) (leaf_inline_threshold : Z) {struct d} : M unit :=
  match d with
  | VDict items =>
      let indent_str := repeat_string "    " indent in
      (fix loop (items : list (string * value)) : M unit :=
         match items with
         | [] => ret tt
         | (key, value) :: rest =>
             match value with
             | VDict sub =>
                 let is_flat_leaf := all_scalars (map snd sub) in
                 if is_flat_leaf
                    && (Z.of_nat (List.length sub) <=? leaf_inline_threshold)
                 then
                   vprint env
                     [VStr (indent_str ++ key ++ ": {" ++ flat_items env sub
                            ++ "}")] verbose no_opts
                 else
                   vprint env [VStr (indent_str ++ key ++ ":")] verbose no_opts
                   >> vprint_nested_dict env value (indent + 1) verbose
                        default_leaf_inline_threshold
             | VList l =>
                 if all_scalars l
                 then vprint env
                        [VStr (indent_str ++ key ++ ": " ++ py_str env value)]
                        verbose no_opts
                 else vprint env
                        [VStr (indent_str ++ key ++ ": " ++ py_repr env value)]
                        verbose no_opts
             | _ =>
                 vprint env
                   [VStr (indent_str ++ key ++ ": " ++ py_repr env value)]
                   verbose no_opts
             end
             >> loop rest
         end) items
  | _ => raise AttributeError
  end.

(** The printer the specification describes: the same loop, recursing at
    depth + 1 with the same threshold. *)
Fixpoint nested_dict_printer_spec (env : Env) (d : value) (indent : nat)
    (verbose : bool) (threshold : Z) {struct d} : M unit :=
  match d with
  | VDict items =>
      let indent_str := repeat_string "    " indent in
      (fix loop (items : list (string * value)) : M unit :=
         match items with
         | [] => ret tt
         | (key, value) :: rest =>
             match value with
             | VDict sub =>
                 if all_scalars (map snd sub)
                    && (Z.of_nat (List.length sub) <=? threshold)
                 then
                   vprint env
                     [VStr (indent_str ++ key ++ ": {" ++ flat_items env sub
                            ++ "}")] verbose no_opts
                 else
                   vprint env [VStr (indent_str ++ key ++ ":")] verbose no_opts
                   >> nested_dict_printer_spec env value (indent + 1) verbose
                        threshold
             | VList l =>
                 if all_scalars l
                 then vprint env
                        [VStr (indent_str ++ key ++ ": " ++ py_str env value)]
                        verbose no_opts
                 else vprint env
                        [VStr (indent_str ++ key ++ ": " ++ py_repr env value)]
                        verbose no_opts
             | _ =>
                 vprint env
                   [VStr (indent_str ++ key ++ ": " ++ py_repr env value)]
                   verbose no_opts
             end
             >> loop rest
         end) items
  | _ => raise AttributeError
  end.

(** ** Dates and paths *)

(** [strftime('%Y%m%d')] *)
Definition strftime_Ymd (d : date) : string :=
  zfill 4 (pretty (year d)) ++ zfill 2 (pretty (month d))
  ++ zfill 2 (pretty (day d)).

(** [get_date()] with its default format ['%Y%m%d'], which has none of the
    time directives: the branch taken is [date.today().strftime(...)]. *)
Definition get_date (env : Env) : M string :=
  let! t := read_clock in
  ret (strftime_Ymd (today_at env t)).

Definition starts_with_slash (s : string) : bool :=
  match s with
  | String c _ => Ascii.eqb c "/"
  | EmptyString => false
  end.

Fixpoint ends_with_slash (s : string) : bool :=
  match s with
  | EmptyString => false
  | String c EmptyString => Ascii.eqb c "/"
  | String _ rest => ends_with_slash rest
  end.

(** [os.path.join(a, b)] of [posixpath]. *)
Definition os_path_join (a b : string) : string :=
  if starts_with_slash b then b
  else if bool_decide (a = EmptyString) || ends_with_slash a then a ++ b
  else a ++ "/" ++ b.

(** [p[:i], p[i:]] for [i = p.rfind('/') + 1] *)
Fixpoint split_after_last_slash (p : string) : string * string :=
  match p with
  | EmptyString => (EmptyString, EmptyString)
  | String c rest =>
      if contains_char "/" rest then
        let '(head, tail) := split_after_last_slash rest in
        (String c head, tail)
      else if Ascii.eqb c "/" then (String c EmptyString, rest)
      else (EmptyString, p)
  end.

(** [s.rstrip('/')] *)
Fixpoint rstrip_slash (s : string) : string :=
  match s with
  | EmptyString => EmptyString
  | String c rest =>
      match rstrip_slash rest with
      | EmptyString =>
          if Ascii.eqb c "/" then EmptyString else String c EmptyString
      | rest' => String c rest'
      end
  end.

(** [os.path.split(p)] of [posixpath]: the slashes at the end of the head
    go, unless the head is made of slashes only. *)
Definition os_path_split (p : string) : string * string :=
  let '(head, tail) := split_after_last_slash p in
  if bool_decide (rstrip_slash head = EmptyString) then (head, tail)
  else (rstrip_slash head, tail).

(** ** System calls *)

(** [os.path.exists(p)]: a directory or a file goes by the name; and a
    name made of slashes is the root directory, which is always there. *)
Definition os_path_exists (f : FS) (p : string) : bool :=
  (negb (bool_decide (p = EmptyString))
   && bool_decide (rstrip_slash p = EmptyString))
  || bool_decide (p ∈ dirs f) || bool_decide (is_Some (files f !! p)).

(** The names [os.makedirs(name, exist_ok=True)] calls [mkdir] with, in
    order: those of the missing directories above, then [name], which is
    left out after a last component ['.']. The recursion is on the head,
    which is shorter than the name; [fuel] counts its turns. *)
Fixpoint makedirs_names (fuel : nat) (f : FS) (name : string) {struct fuel}
  : list string :=
  let '(head, tail) := os_path_split name in
  let '(head, tail) :=
    if bool_decide (tail = EmptyString) then os_path_split head
    else (head, tail) in
  if negb (bool_decide (head = EmptyString))
     && negb (bool_decide (tail = EmptyString))
     && negb (os_path_exists f head)
  then
    match fuel with
    | O => [name]
    | S fuel' =>
        (makedirs_names fuel' f head
         ++ if bool_decide (tail = ".") then [] else [name])%list
    end
  else [name].

(** The directories after [os.makedirs(path, exist_ok=True)]. *)
Definition dirs_after_makedirs (f : FS) (path : string) : gset string :=
  list_to_set (makedirs_names (String.length path) f path) ∪ dirs f.

Arguments dirs_after_makedirs : simpl never.

(** [os.makedirs(path, exist_ok=True)] *)
Definition os_makedirs (env : Env) (path : string) : M unit :=
  let! w := get_world in
  if os_refuses env (fs w) (Makedirs path) then raise OSError
  else modify (set_fs (MkFS (dirs_after_makedirs (fs w) path)
                            (files (fs w)))).

(** [open(path, mode)]: mode ['w'] empties or creates the file, mode ['a']
    creates it when it is missing. *)
Definition os_open (env : Env) (path : string) (mode : file_mode) : M unit :=
  let! w := get_world in
  if os_refuses env (fs w) (Open path mode) then raise OSError
  else
    let old :=
      match mode with
      | ModeA => default EmptyString (files (fs w) !! path)
      | ModeW => EmptyString
      end in
    modify (set_fs (MkFS (dirs (fs w)) (<[ path := old ]> (files (fs w))))).

(** ** [CustomLogger] *)

(** An attribute of an instance: not yet assigned, or assigned. *)
Inductive attr (A : Type) : Type :=
  | Absent
  | Present (a : A).
Arguments Absent {A}.
Arguments Present {A} a.

Record CustomLogger : Type := MkCustomLogger {
  log_file : option string;
  log_dir : string;
  flush_file : bool;
  prefix_date : bool;
  prefix_jobid : Z;
  append_to_file : bool;
  show_timestamp : bool;
  console_handler : handler;
  log_buffer : nat;
  buffer_handler : handler;
  file_handler : attr (option handler)
}.

Definition set_file_handler (fh : attr (option handler)) (self : CustomLogger)
  : CustomLogger :=
  MkCustomLogger (log_file self) (log_dir self) (flush_file self)
    (prefix_date self) (prefix_jobid self) (append_to_file self)
    (show_timestamp self) (console_handler self) (log_buffer self)
    (buffer_handler self) fh.

(** The arguments of [__init__]. *)
Record config : Type := Config {
  cfg_log_file : option string;
  cfg_log_dir : string;
  cfg_prefix_date : bool;
  cfg_prefix_jobid : Z;
  cfg_append_to_file : bool;
  cfg_show_timestamp : bool
}.

Definition default_config : config :=
  Config (Some "output.log") "auto" true 0 true true.

(** [str(x)] of an optional string. *)
Definition str_opt (o : option string) : string := default "None" o.

(** [Logger.addHandler] *)
Definition add_handler (h : handler) (l : logger) : logger :=
  if bool_decide (h ∈ handlers l) then l
  else Logger (level l) (handlers l ++ [h]).

(** [list.remove]: the first equal element goes. *)
Fixpoint remove_first (h : handler) (hs : list handler) : list handler :=
  match hs with
  | [] => []
  | h' :: rest =>
      if bool_decide (h' = h) then rest else h' :: remove_first h rest
  end.

(** [Logger.removeHandler] *)
Definition remove_handler (h : handler) (l : logger) : logger :=
  Logger (level l) (remove_first h (handlers l)).

(** The lines [__init__] prints. *)
Definition init_notices (env : Env) (self : CustomLogger) : list string :=
  [ "### PtyRAD Logger configuration ###";
    "log_file       = '" ++ str_opt (log_file self)
      ++ "'. If log_file = None, no log file will be created.";
    "log_dir        = '" ++ log_dir self
      ++ "'. If log_dir = 'auto', then log will be saved to `output_path` or 'logs/'.";
    "flush_file     = " ++ repr_bool (flush_file self)
      ++ ". Automatically set to True if `log_file is not None`";
    "prefix_date    = " ++ repr_bool (prefix_date self)
      ++ ". If true, a datetime str is prefixed to the `log_file`.";
    "prefix_jobid   = '" ++ pretty (prefix_jobid self)
      ++ "'. If not 0, it'll be prefixed to the log file. This is used for hypertune mode with multiple GPUs.";
    "append_to_file = " ++ repr_bool (append_to_file self)
      ++ ". If true, logs will be appended to the existing file. If false, the log file will be overwritten.";
    "show_timestamp = " ++ repr_bool (show_timestamp self)
      ++ ". If true, the printed information will contain a timestamp.";
    " " ].

(** [for msg in msgs: vprint(msg)] *)
Fixpoint vprint_all (env : Env) (msgs : list string) : M unit :=
  match msgs with
  | [] => ret tt
  | msg :: rest => vprint1 env msg >> vprint_all env rest
  end.

Arguments init_notices : simpl never.
Arguments vprint_all : simpl never.

(** [CustomLogger.__init__] *)
Definition init (env : Env) (cfg : config) : M CustomLogger :=
  (* self.logger = logging.getLogger('PtyRAD'); setLevel(logging.INFO) *)
  modify (λ w, set_ptyrad (Logger INFO (handlers (ptyrad w))) w) >>
  (* clear all existing handlers *)
  let! w := get_world in
  (if has_handlers w
   then modify (set_ptyrad (Logger (level (ptyrad w)) []))
   else ret tt) >>
  (* console handler: a StreamHandler on sys.stderr *)
  let! cid := fresh in
  let console := Handler cid Stderr INFO (cfg_show_timestamp cfg) in
  (* the buffer and its handler *)
  let! bid := fresh in
  modify (λ w, set_buffers (<[ bid := EmptyString ]> (buffers w)) w) >>
  let! hid := fresh in
  let buffer := Handler hid (Buffer bid) INFO (cfg_show_timestamp cfg) in
  modify (λ w, set_ptyrad (add_handler console (ptyrad w)) w) >>
  modify (λ w, set_ptyrad (add_handler buffer (ptyrad w)) w) >>
  let self :=
    MkCustomLogger (cfg_log_file cfg) (cfg_log_dir cfg)
      (bool_decide (is_Some (cfg_log_file cfg)))
      (cfg_prefix_date cfg) (cfg_prefix_jobid cfg) (cfg_append_to_file cfg)
      (cfg_show_timestamp cfg) console bid buffer Absent in
  vprint_all env (init_notices env self) >>
  ret self.

(** [prefix + '_' + log_file]: [str + None] is a [TypeError]. *)
Definition prepend (prefix : string) (log_file : option string)
  : M (option string) :=
  match log_file with
  | Some f => ret (Some (prefix ++ "_" ++ f))
  | None => raise TypeError
  end.

(** [CustomLogger.flush_to_file] *)
Definition flush_to_file (env : Env) (self : CustomLogger)
    (log_dir_arg : option string) (append_to_file_arg : option bool)
  : M CustomLogger :=
  (* Set log_dir *)
  let log_dir :=
    match log_dir_arg with
    | None => if bool_decide (log_dir self = "auto") then "logs"
              else log_dir self
    | Some d => d
    end in
  (* Set file_mode *)
  let append_to_file := default (append_to_file self) append_to_file_arg in
  let file_mode := if append_to_file then ModeA else ModeW in
  (* Set file name: the local variable log_file of the source *)
  let! file_name :=
    (if bool_decide (prefix_jobid self ≠ 0)
     then prepend (zfill 2 (pretty (prefix_jobid self))) (log_file self)
     else ret (log_file self)) in
  let! file_name :=
    (if prefix_date self
     then let! today := get_date env in prepend today file_name
     else ret file_name) in
  let show_timestamp := show_timestamp self in
  let! self' :=
  (if flush_file self then
     (* Ensure the log directory exists *)
     os_makedirs env log_dir >>
     let! log_file_path :=
       (match file_name with
        | Some f => ret (os_path_join log_dir f)
        | None => raise TypeError
        end) in
     (* Write the buffered logs to the specified file *)
     os_open env log_file_path file_mode >>
     let! w := get_world in
     modify (write_stream (FileStream log_file_path)
               (default EmptyString (buffers w !! log_buffer self))) >>
     (* Clear the buffer *)
     modify (λ w, set_buffers
                    (alter (λ _, EmptyString) (log_buffer self) (buffers w)) w) >>
     (* Set up a file handler for future logging to the file *)
     os_open env log_file_path ModeA >>
     let! fid := fresh in
     let fh := Handler fid (FileStream log_file_path) NOTSET show_timestamp in
     modify (λ w, set_ptyrad (add_handler fh (ptyrad w)) w) >>
     vprint1 env ("### Log file is flushed (created) as " ++ log_file_path
                  ++ " ###") >>
     ret (set_file_handler (Present (Some fh)) self)
   else
     vprint1 env ("### Log file is not flushed (created) because log_file is set to "
                  ++ str_opt (log_file self) ++ " ###") >>
     ret (set_file_handler (Present None) self)) in
  vprint1 env " " >>
  ret self'.

(** [CustomLogger.close]: reading [self.file_handler] needs the attribute. *)
Definition close (self : CustomLogger) : M CustomLogger :=
  match file_handler self with
  | Absent => raise AttributeError
  | Present None => ret self
  | Present (Some fh) =>
      (* flush() and close() of the handler leave the text of the file *)
      modify (λ w, set_ptyrad (remove_handler fh (ptyrad w)) w) >>
      ret (set_file_handler (Present None) self)
  end.

(** ** Numbers: [int] and [float] *)

Inductive number : Type :=
  | NInt (n : Z)
  | NFloat (x : float).

(** [isinstance(value, (int, float))]; a [bool] is an [int]. *)
Definition as_number (v : value) : option number :=
  match v with
  | VBool b => Some (NInt (if b then 1 else 0))
  | VInt n => Some (NInt n)
  | VFloat x => Some (NFloat x)
  | _ => None
  end.

(** The integer nearest to [n / d] for [0 < d], ties to the even one. *)
Definition round_half_even (n d : Z) : Z :=
  let q := n / d in
  let r := n mod d in
  if 2 * r <? d then q
  else if d <? 2 * r then q + 1
  else if Z.even q then q else q + 1.

(** [n / d] over [2 ^ e], as a fraction of integers. *)
Definition scaled (n d e : Z) : Z * Z :=
  if 0 <=? e then (n, d * 2 ^ e) else (n * 2 ^ (- e), d).

(** Round-to-nearest-even of [(n / d) * 2 ^ s], for [0 < d], to a 53-bit
    significand with exponents from -1074: what every arithmetic operation
    on binary64 does to its exact result. *)
Definition round_ratio (n d s : Z) : float :=
  if n =? 0 then Float 0 0
  else
    let e0 := Z.log2 (Z.abs n) - Z.log2 d - 53 in
    let e1 :=
      if 2 ^ 53 * snd (scaled n d e0) <=? Z.abs (fst (scaled n d e0))
      then e0 + 1
      else e0 in
    let e := Z.max e1 (- 1074 - s) in
    Float (round_half_even (fst (scaled n d e)) (snd (scaled n d e))) (e + s).

(** The mantissas of two floats over their common exponent. *)
Definition common_exp (x y : float) : Z := Z.min (f_exp x) (f_exp y).

Definition mant_at (e : Z) (x : float) : Z := f_mant x * 2 ^ (f_exp x - e).

Definition float_add (x y : float) : float :=
  let e := common_exp x y in
  round_ratio (mant_at e x + mant_at e y) 1 e.

Definition float_sub (x y : float) : float :=
  let e := common_exp x y in
  round_ratio (mant_at e x - mant_at e y) 1 e.

(** [x / y] for [y] other than zero. *)
Definition float_div (x y : float) : float :=
  if f_mant y <? 0
  then round_ratio (- f_mant x) (- f_mant y) (f_exp x - f_exp y)
  else round_ratio (f_mant x) (f_mant y) (f_exp x - f_exp y).

(** C's [fmod]: exact, with the sign of [x]. *)
Definition fmod (x y : float) : float :=
  let e := common_exp x y in
  Float (Z.rem (mant_at e x) (mant_at e y)) e.

(** C's [floor]: exact. *)
Definition float_floor (x : float) : float :=
  if 0 <=? f_exp x then x else Float (f_mant x / 2 ^ (- f_exp x)) 0.

Definition float_is_zero (x : float) : bool := f_mant x =? 0.
Definition float_is_neg (x : float) : bool := f_mant x <? 0.

(** [x > y], on the exact values. *)
Definition float_gt (x y : float) : bool :=
  let e := common_exp x y in
  mant_at e y <? mant_at e x.

Definition float_one : float := Float 1 0.
Definition float_half : float := Float 1 (-1).

(** [float(n)] for an [int]: rounded, and an [OverflowError] from 2^1024. *)
Definition float_of_int (n : Z) : result float :=
  let x := round_ratio n 1 0 in
  if 2 ^ 1024 <=? Z.abs (f_mant x) * 2 ^ f_exp x then Raise OverflowError
  else Ok x.

(** [_float_div_mod] of CPython's [floatobject.c], for [wx] other than
    zero: the floor quotient and the remainder. *)
Definition float_div_mod (vx wx : float) : float * float :=
  let mod0 := fmod vx wx in
  let div0 := float_div (float_sub vx mod0) wx in
  let '(mod1, div1) :=
    if negb (float_is_zero mod0) then
      (* ensure the remainder has the same sign as the denominator *)
      if negb (Bool.eqb (float_is_neg wx) (float_is_neg mod0))
      then (float_add mod0 wx, float_sub div0 float_one)
      else (mod0, div0)
    else (Float 0 0, div0) in
  (* snap quotient to nearest integral value *)
  let floordiv :=
    if negb (float_is_zero div1) then
      let fl := float_floor div1 in
      if float_gt (float_sub div1 fl) float_half then float_add fl float_one
      else fl
    else Float 0 0 in
  (floordiv, mod1).

(** [float_rem] of CPython's [floatobject.c], for [wx] other than zero. *)
Definition float_rem (vx wx : float) : float :=
  let mod0 := fmod vx wx in
  if negb (float_is_zero mod0) then
    if negb (Bool.eqb (float_is_neg wx) (float_is_neg mod0))
    then float_add mod0 wx
    else mod0
  else Float 0 0.

(** [x // k] for an [int] literal [k] other than zero. *)
Definition py_floordiv (x : number) (k : Z) : result number :=
  match x with
  | NInt n => Ok (NInt (n / k))
  | NFloat vx =>
      result_bind (float_of_int k) (λ wx,
        Ok (NFloat (fst (float_div_mod vx wx))))
  end.

(** [x % k] for an [int] literal [k] other than zero. *)
Definition py_mod (x : number) (k : Z) : result number :=
  match x with
  | NInt n => Ok (NInt (n mod k))
  | NFloat vx =>
      result_bind (float_of_int k) (λ wx, Ok (NFloat (float_rem vx wx)))
  end.

(** [x > 0] *)
Definition py_gt0 (x : number) : bool :=
  match x with
  | NInt n => 0 <? n
  | NFloat vx => 0 <? f_mant vx
  end.

(** [int(x)]: a float is truncated toward zero. *)
Definition py_int (x : number) : Z :=
  match x with
  | NInt n => n
  | NFloat vx =>
      if 0 <=? f_exp vx then f_mant vx * 2 ^ f_exp vx
      else Z.quot (f_mant vx) (2 ^ (- f_exp vx))
  end.

(** ** [format] with the presentation types [f], [e] and [g] *)

(** A float as an exact fraction with a positive denominator. *)
Definition float_num (x : float) : Z :=
  if 0 <=? f_exp x then f_mant x * 2 ^ f_exp x else f_mant x.

Definition float_den (x : float) : Z :=
  if 0 <=? f_exp x then 1 else 2 ^ (- f_exp x).

Definition sign_text (x : float) : string :=
  if f_mant x <? 0 then "-" else EmptyString.

(** The digits of [n] after a decimal point, [p] of them. *)
Definition fraction_digits (p : nat) (n : Z) : string :=
  zfill p (pretty n).

(** [format(x, '.<p>f')]: the decimal with [p] places nearest to [x]. *)
Definition format_float_f (p : nat) (x : float) : string :=
  let scale := 10 ^ Z.of_nat p in
  let n := round_half_even (Z.abs (float_num x) * scale) (float_den x) in
  sign_text x ++ pretty (n / scale)
  ++ match p with
     | O => EmptyString
     | _ => "." ++ fraction_digits p (n mod scale)
     end.

(** Whether [10 ^ e <= a / d], for positive [a] and [d]. *)
Definition pow10_le (e a d : Z) : bool :=
  if 0 <=? e then 10 ^ e * d <=? a else d <=? a * 10 ^ (- e).

(** The largest [e], searching down from [e], with [10 ^ e <= a / d]. *)
Fixpoint decimal_exponent_from (fuel : nat) (e a d : Z) : Z :=
  if pow10_le e a d then e
  else
    match fuel with
    | O => e
    | S fuel' => decimal_exponent_from fuel' (e - 1) a d
    end.

Definition decimal_exponent (a d : Z) : Z :=
  decimal_exponent_from (Z.to_nat (Z.log2 a + Z.log2 d + 2)) (Z.log2 a + 1)
    a d.

(** [x] other than zero to [p + 1] significant digits: the digits as an
    integer of [p + 1] digits, and the decimal exponent of the first. *)
Definition significant_digits (p : nat) (x : float) : Z * Z :=
  let a := Z.abs (float_num x) in
  let d := float_den x in
  let e := decimal_exponent a d in
  let shift := e - Z.of_nat p in
  let m :=
    if 0 <=? shift then round_half_even a (d * 10 ^ shift)
    else round_half_even (a * 10 ^ (- shift)) d in
  if 10 ^ (Z.of_nat p + 1) <=? m then (10 ^ Z.of_nat p, e + 1) else (m, e).

(** The exponent part: a sign and two digits at least. *)
Definition exponent_text (e : Z) : string :=
  "e" ++ (if e <? 0 then "-" else "+") ++ zfill 2 (pretty (Z.abs e)).

(** [format(x, '.<p>e')] *)
Definition format_float_e (p : nat) (x : float) : string :=
  let '(m, e) :=
    if float_is_zero x then (0, 0) else significant_digits p x in
  let scale := 10 ^ Z.of_nat p in
  sign_text x ++ pretty (m / scale)
  ++ match p with
     | O => EmptyString
     | _ => "." ++ fraction_digits p (m mod scale)
     end
  ++ exponent_text e.

(** [s.rstrip('0')] *)
Fixpoint strip_zeros (s : string) : string :=
  match s with
  | EmptyString => EmptyString
  | String c rest =>
      match strip_zeros rest with
      | EmptyString => if Ascii.eqb c "0" then EmptyString else String c EmptyString
      | rest' => String c rest'
      end
  end.

(** A decimal point and the fraction digits, without trailing zeros; and
    nothing when no digit is left. *)
Definition stripped_fraction (p : nat) (n : Z) : string :=
  match p with
  | O => EmptyString
  | _ =>
      match strip_zeros (fraction_digits p n) with
      | EmptyString => EmptyString
      | digits => "." ++ digits
      end
  end.

(** [format(x, '.<p>g')] for [1 <= p]: [p] significant digits, in fixed
    notation when the exponent is from -4 and below [p], without trailing
    zeros. *)
Definition format_float_g (p : nat) (x : float) : string :=
  if float_is_zero x then "0"
  else
    let '(m, e) := significant_digits (p - 1) x in
    if (-4 <=? e) && (e <? Z.of_nat p) then
      let places := Z.to_nat (Z.of_nat p - 1 - e) in
      let scale := 10 ^ Z.of_nat places in
      (* the value is m * 10 ^ (e - (p - 1)) *)
      sign_text x ++ pretty (m / scale) ++ stripped_fraction places (m mod scale)
    else
      let scale := 10 ^ Z.of_nat (p - 1) in
      sign_text x ++ pretty (m / scale)
      ++ stripped_fraction (p - 1) (m mod scale) ++ exponent_text e.

Inductive presentation : Type := FmtF | FmtE | FmtG.

Definition format_float (t : presentation) (p : nat) (x : float) : string :=
  match t with
  | FmtF => format_float_f p x
  | FmtE => format_float_e p x
  | FmtG => format_float_g p x
  end.

(** [float(value)] as [format] does it for a float presentation type: an
    [int] is converted, with an [OverflowError] beyond the range; a [str]
    does not know the format code ([ValueError]); other objects know no
    format string at all ([TypeError]). *)
Definition to_float (v : value) : result float :=
  match as_number v with
  | Some (NInt n) => float_of_int n
  | Some (NFloat x) => Ok x
  | None =>
      match v with
      | VStr _ => Raise ValueError
      | _ => Raise TypeError
      end
  end.

(** [format(value, '.<p><t>')] *)
Definition py_format (t : presentation) (p : nat) (v : value) : result string :=
  result_bind (to_float v) (λ x, Ok (format_float t p x)).

(** [f"{x:.3f}"] for a number. *)
Definition format_number (t : presentation) (p : nat) (x : number)
  : result string :=
  match x with
  | NInt n => result_bind (float_of_int n) (λ x, Ok (format_float t p x))
  | NFloat x => Ok (format_float t p x)
  end.

(** ** [parse_sec_to_time_str] *)

Definition parse_sec_to_time_str (seconds : value) : result string :=
  match as_number seconds with
  | None => Raise TypeError
  | Some seconds =>
      result_bind (py_floordiv seconds 86400) (λ days,
      result_bind (py_mod seconds 86400) (λ r1,
      result_bind (py_floordiv r1 3600) (λ hours,
      result_bind (py_mod seconds 3600) (λ r2,
      result_bind (py_floordiv r2 60) (λ minutes,
      result_bind (py_mod seconds 60) (λ secs,
        if py_gt0 days then
          result_bind (format_number FmtF 3 secs) (λ secs_text,
            Ok (pretty (py_int days) ++ " day " ++ pretty (py_int hours)
                ++ " hr " ++ pretty (py_int minutes) ++ " min " ++ secs_text
                ++ " sec"))
        else if py_gt0 hours then
          result_bind (format_number FmtF 3 secs) (λ secs_text,
            Ok (pretty (py_int hours) ++ " hr " ++ pretty (py_int minutes)
                ++ " min " ++ secs_text ++ " sec"))
        else if py_gt0 minutes then
          result_bind (format_number FmtF 3 secs) (λ secs_text,
            Ok (pretty (py_int minutes) ++ " min " ++ secs_text ++ " sec"))
        else
          result_bind (format_number FmtF 3 secs) (λ secs_text,
            Ok (secs_text ++ " sec"))))))))
  end.

(** ** [parse_hypertune_params_to_str] *)

(** One turn of the loop: the text added for an entry. *)
Definition hypertune_entry (env : Env) (key : string) (value : value)
  : result string :=
  if String.eqb (lower (last_two key)) "lr" then
    result_bind (py_format FmtE 1 value) (λ text,
      Ok ("_" ++ key ++ "_" ++ text))
  else if bool_decide (is_Some (as_number value)) then
    result_bind (py_format FmtG 3 value) (λ text,
      Ok ("_" ++ key ++ "_" ++ text))
  else Ok ("_" ++ key ++ "_" ++ py_str env value).

(** The loop over [hypertune_params.items()], with the string built so
    far. *)
Fixpoint hypertune_loop (env : Env) (items : list (string * value))
    (hypertune_str : string) : result string :=
  match items with
  | [] => Ok hypertune_str
  | (key, value) :: rest =>
      result_bind (hypertune_entry env key value) (λ text,
        hypertune_loop env rest (hypertune_str ++ text))
  end.

Definition parse_hypertune_params_to_str (env : Env)
    (hypertune_params : value) : result string :=
  match hypertune_params with
  | VDict items => hypertune_loop env items EmptyString
  | _ => Raise AttributeError
  end.

(** ** Concrete inputs *)

(** An environment: a fixed clock and date, and a system that refuses
    nothing. *)
Definition sample_env : Env :=
  MkEnv (λ _, "0.0") (λ _, "2024-01-31 12:00:00,000") (λ _, Date 2024 1 31)
        (λ _ _, false).

(** A process at start: empty console and file system, no handler on any
    logger, the root logger at its default level, no distributed run. *)
Definition fresh_world : World :=
  MkWorld EmptyString EmptyString ∅ (MkFS ∅ ∅) (Logger NOTSET [])
          (Logger WARNING []) (Dist true false 0) 0 0.

(** [{"a": None}] *)
Definition dict_with_null : value := VDict [("a", VNone)].

(** [{"a": {"b": 5}, "c": 1}] *)
Definition dict_nested : value :=
  VDict [("a", VDict [("b", VInt 5)]); ("c", VInt 1)].

(** [{"outer": {"inner": {"x": 1, "y": 2}}}] *)
Definition dict_three_deep : value :=
  VDict [("outer", VDict [("inner", VDict [("x", VInt 1); ("y", VInt 2)])])].

(** ** What handlers write *)

(** The text the handlers [hs] write to the stream [s] for one record. *)
Fixpoint written (env : Env) (s : stream) (levelno : Z) (created : nat)
    (msg : string) (hs : list handler) : string :=
  match hs with
  | [] => EmptyString
  | h :: rest =>
      (if bool_decide (h_stream h = s) && (h_level h <=? levelno)
       then format_record env (h_timestamp h) created msg ++ nl
       else EmptyString)
      ++ written env s levelno created msg rest
  end.

(** The lines of the records [msgs], made at the readings [t], [t + 1], ...
    of the clock. *)
Fixpoint rendered (env : Env) (timestamp : bool) (t : nat)
    (msgs : list string) : string :=
  match msgs with
  | [] => EmptyString
  | msg :: rest =>
      format_record env timestamp t msg ++ nl
      ++ rendered env timestamp (S t) rest
  end.

(** [for msg in msgs: self.logger.info(msg)] *)
Fixpoint log_all (env : Env) (msgs : list string) : M unit :=
  match msgs with
  | [] => ret tt
  | msg :: rest => logger_info env msg no_opts >> log_all env rest
  end.

(** The test of [vprint] on the distributed run. *)
Definition vprint_on (w : World) : bool :=
  negb (is_available (dist w)) || negb (is_initialized (dist w))
  || (get_rank (dist w) =? 0).

(** Handlers that write to the console only. *)
Definition console_only (hs : list handler) : bool :=
  forallb (λ h, match h_stream h with
                | Stderr | Stdout => true
                | _ => false
                end) hs.

(** What no write changes: the loggers, the distributed run, the object
    identities, the directories, and which paths and buffers exist. *)
Definition same_shape (w w' : World) : Prop :=
  ptyrad w' = ptyrad w ∧ root w' = root w ∧ dist w' = dist w
  ∧ next_id w' = next_id w ∧ dirs (fs w') = dirs (fs w)
  ∧ dom (files (fs w')) = dom (files (fs w))
  ∧ dom (buffers w') = dom (buffers w).

(** A map of texts in which every text has only grown. *)
Definition grown {K} `{Countable K} (m m' : gmap K string) : Prop :=
  ∀ k old, m !! k = Some old → ∃ extra, m' !! k = Some (old ++ extra).

(** The instance [__init__] builds from the identity [n] on: the console
    handler is object [n], the buffer [n + 1], its handler [n + 2]. *)
Definition new_logger (cfg : config) (n : nat) : CustomLogger :=
  MkCustomLogger (cfg_log_file cfg) (cfg_log_dir cfg)
    (bool_decide (is_Some (cfg_log_file cfg)))
    (cfg_prefix_date cfg) (cfg_prefix_jobid cfg) (cfg_append_to_file cfg)
    (cfg_show_timestamp cfg)
    (Handler n Stderr INFO (cfg_show_timestamp cfg))
    (S n)
    (Handler (S (S n)) (Buffer (S n)) INFO (cfg_show_timestamp cfg))
    Absent.

(** The process when [__init__] has attached its two handlers and is about
    to print its notices. *)
Definition attached_world (cfg : config) (w : World) : World :=
  let self := new_logger cfg (next_id w) in
  MkWorld (stdout w) (stderr w)
    (<[ S (next_id w) := EmptyString ]> (buffers w)) (fs w)
    (Logger INFO [console_handler self; buffer_handler self]) (root w)
    (dist w) (S (S (S (next_id w)))) (clock w).

(** The directory [flush_to_file] settles on. *)
Definition effective_dir (self : CustomLogger) (log_dir_arg : option string)
  : string :=
  match log_dir_arg with
  | None => if bool_decide (log_dir self = "auto") then "logs"
            else log_dir self
  | Some d => d
  end.

(** The system refuses neither to make the directory [dir] nor to open the
    file [path]. *)
Definition permits (env : Env) (dir path : string) : Prop :=
  ∀ fs, os_refuses env fs (Makedirs dir) = false
        ∧ ∀ mode, os_refuses env fs (Open path mode) = false.

(** [CustomLogger(log_file=None)]: every other argument at its default. *)
Definition config_no_file : config := Config None "auto" true 0 true true.

(** [CustomLogger(log_file=None, prefix_date=False, show_timestamp=False)] *)
Definition config_no_file_no_prefix : config :=
  Config None "auto" false 0 true false.

(** [CustomLogger(prefix_jobid=7, show_timestamp=False)] *)
Definition config_job7 : config :=
  Config (Some "output.log") "auto" true 7 true false.

(** The notice of [flush_to_file] when there is no log file. *)
Definition not_flushed_notice (self : CustomLogger) : string :=
  "### Log file is not flushed (created) because log_file is set to "
  ++ str_opt (log_file self) ++ " ###".

(** The notice of [flush_to_file] when the file is written. *)
Definition flushed_notice (path : string) : string :=
  "### Log file is flushed (created) as " ++ path ++ " ###".

(** The file name [flush_to_file] builds from [base]: the job id is put in
    front first, the date in front of that. [t] is the reading of the
    clock [get_date] makes. *)
Definition prefixed_name (env : Env) (self : CustomLogger) (t : nat)
    (base : string) : string :=
  let with_jobid :=
    if bool_decide (prefix_jobid self ≠ 0)
    then zfill 2 (pretty (prefix_jobid self)) ++ "_" ++ base
    else base in
  if prefix_date self
  then strftime_Ymd (today_at env t) ++ "_" ++ with_jobid
  else with_jobid.

(** The handler [flush_to_file] attaches in the process [w]. *)
Definition new_file_handler (self : CustomLogger) (path : string) (w : World)
  : handler :=
  Handler (next_id w) (FileStream path) NOTSET (show_timestamp self).

(** The process when [flush_to_file] has written the buffer to [path],
    emptied it and attached the file handler, and is about to print its
    notices. *)
Definition flushed_world (self : CustomLogger) (dir path : string)
    (append : bool) (w : World) : World :=
  let prior :=
    if append then default EmptyString (files (fs w) !! path)
    else EmptyString in
  MkWorld (stdout w) (stderr w)
    (alter (λ _, EmptyString) (log_buffer self) (buffers w))
    (MkFS (dirs_after_makedirs (fs w) dir)
          (<[ path := prior
                      ++ default EmptyString (buffers w !! log_buffer self) ]>
             (files (fs w))))
    (add_handler (new_file_handler self path w) (ptyrad w)) (root w)
    (dist w) (S (next_id w))
    (if prefix_date self then S (clock w) else clock w).

(** The text the handlers [hs] write to the stream [s] for the records
    [msgs], made at the readings [t], [t + 1], ... of the clock. *)
Fixpoint transcript (env : Env) (s : stream) (hs : list handler) (t : nat)
    (msgs : list string) : string :=
  match msgs with
  | [] => EmptyString
  | msg :: rest =>
      written env s INFO t msg hs ++ transcript env s hs (S t) rest
  end.

(** The messages [vprint] lets through in the process [w]. *)
Definition shown (w : World) (msgs : list string) : list string :=
  if vprint_on w then msgs else [].

(** Every handler a record of ['PtyRAD'] reaches. *)
Definition reached (w : World) : list handler :=
  (handlers (ptyrad w) ++ handlers (root w))%list.

(** ** The labels and durations of the specification *)

(** Whether a parameter name ends in "lr", in either case. *)
Definition ends_in_lr (key : string) : bool :=
  String.eqb (lower (last_two key)) "lr".

Definition is_numeric (v : value) : bool :=
  bool_decide (is_Some (as_number v)).

(** Whether [format] has a text for the entry: under a name ending in "lr"
    and for a number, the value must convert to [float]. *)
Definition formattable (kv : string * value) : bool :=
  if ends_in_lr (fst kv) || is_numeric (snd kv)
  then match to_float (snd kv) with Ok _ => true | Raise _ => false end
  else true.

Definition float_or_zero (v : value) : float :=
  match to_float v with Ok x => x | Raise _ => Float 0 0 end.

(** The text of an entry: scientific notation with one decimal digit under
    a name ending in "lr", three significant digits for any other number,
    [str] for anything else. *)
Definition entry_text (env : Env) (kv : string * value) : string :=
  "_" ++ fst kv ++ "_"
  ++ (if ends_in_lr (fst kv) then format_float_e 1 (float_or_zero (snd kv))
      else if is_numeric (snd kv)
           then format_float_g 3 (float_or_zero (snd kv))
           else py_str env (snd kv)).

(** The float the literal [0.0001] is read as. *)
Definition float_0_0001 : float := round_ratio 1 10000 0.

(** [{"lr": 0.0001, "batch": 32}] *)
Definition params_lr_batch : value :=
  VDict [("lr", VFloat float_0_0001); ("batch", VInt 32)].

(** [{"lr": "cosine"}] *)
Definition params_lr_text : value := VDict [("lr", VStr "cosine")].

(** A float stands for the fraction [n / d]. *)
Definition represents (x : float) (n d : Z) : Prop :=
  0 < d ∧ float_num x * d = n * float_den x.

(** The exact value of a number, as a fraction. *)
Definition number_num (x : number) : Z :=
  match x with
  | NInt n => n
  | NFloat v => float_num v
  end.

Definition number_den (x : number) : Z :=
  match x with
  | NInt _ => 1
  | NFloat v => float_den v
  end.

Definition number_value (x : number) : value :=
  match x with
  | NInt n => VInt n
  | NFloat v => VFloat v
  end.

Definition number_nonneg (x : number) : bool :=
  match x with
  | NInt n => 0 <=? n
  | NFloat v => 0 <=? f_mant v
  end.


(** The fraction [n / d], not negative, to [p] decimal places. *)
Definition fixed_text (p : nat) (n d : Z) : string :=
  let scale := 10 ^ Z.of_nat p in
  let m := round_half_even (n * scale) d in
  pretty (m / scale) ++ "." ++ fraction_digits p (m mod scale).

(** The units from the largest that is not zero on. *)
Fixpoint from_first_nonzero (units : list (Z * string)) : list (Z * string) :=
  match units with
  | [] => []
  | (v, name) :: rest =>
      if v =? 0 then from_first_nonzero rest else units
  end.

(** A duration, from its largest unit that is not zero down through the
    seconds. *)
Definition duration_text (days hours minutes : Z) (secs : string) : string :=
  String.concat EmptyString
    (map (λ u, pretty (fst u) ++ " " ++ snd u ++ " ")
         (from_first_nonzero
            [(days, "day"); (hours, "hr"); (minutes, "min")]))
  ++ secs ++ " sec".


(** A number stands for the fraction [n / d]. *)
Definition number_represents (x : number) (n d : Z) : Prop :=
  0 < d ∧ number_num x * d = n * number_den x.

(** The divisors of [parse_sec_to_time_str]. *)
Definition is_time_unit (k : Z) : Prop := k = 86400 ∨ k = 3600 ∨ k = 60.

(** [int(x // k)], as Python computes it. *)
Definition python_quotient (x : number) (k : Z) : Z :=
  match py_floordiv x k with
  | Ok q => py_int q
  | Raise _ => 0
  end.



(** ** The loop of [vprint_nested_dict], turn by turn *)

(** One turn of the loop over [d.items()]: what is done for an entry. *)
Definition print_item (env : Env) (indent : nat) (verbose : bool)
    (leaf_inline_threshold : Z) (kv : string * value) : M unit :=
  let indent_str := repeat_string "    " indent in
  let '(key, value) := kv in
  match value with
  | VDict sub =>
      let is_flat_leaf := all_scalars (map snd sub) in
      if is_flat_leaf
         && (Z.of_nat (List.length sub) <=? leaf_inline_threshold)
      then
        vprint env
          [VStr (indent_str ++ key ++ ": {" ++ flat_items env sub ++ "}")]
          verbose no_opts
      else
        vprint env [VStr (indent_str ++ key ++ ":")] verbose no_opts
        >> vprint_nested_dict env value (indent + 1) verbose
             default_leaf_inline_threshold
  | VList l =>
      if all_scalars l
      then vprint env [VStr (indent_str ++ key ++ ": " ++ py_str env value)]
             verbose no_opts
      else vprint env [VStr (indent_str ++ key ++ ": " ++ py_repr env value)]
             verbose no_opts
  | _ =>
      vprint env [VStr (indent_str ++ key ++ ": " ++ py_repr env value)]
        verbose no_opts
  end.

(** The line of an entry whose value is no mapping. *)
Definition entry_line (env : Env) (indent : nat) (kv : string * value)
  : string :=
  repeat_string "    " indent ++ fst kv ++ ": " ++ py_repr env (snd kv).

(** The lines [vprint_nested_dict] hands to [vprint], in order. *)
Fixpoint nested_lines (env : Env) (d : value) (indent : nat)
    (leaf_inline_threshold : Z) {struct d} : list string :=
  match d with
  | VDict items =>
      let indent_str := repeat_string "    " indent in
      (fix loop (items : list (string * value)) : list string :=
         match items with
         | [] => []
         | (key, value) :: rest =>
             app
               match value with
               | VDict sub =>
                   if all_scalars (map snd sub)
                      && (Z.of_nat (List.length sub) <=? leaf_inline_threshold)
                   then [indent_str ++ key ++ ": {" ++ flat_items env sub
                         ++ "}"]
                   else (indent_str ++ key ++ ":")
                        :: nested_lines env value (indent + 1)
                             default_leaf_inline_threshold
               | _ => [indent_str ++ key ++ ": " ++ py_repr env value]
               end
               (loop rest)
         end) items
  | _ => []
  end.

(** ** More concrete inputs *)

(** [CustomLogger(prefix_date=False, show_timestamp=False)] *)
Definition config_plain : config :=
  Config (Some "output.log") "auto" false 0 true false.

(** An environment in which no directory can be made. *)
Definition sealed_env : Env :=
  MkEnv (λ _, "0.0") (λ _, "2024-01-31 12:00:00,000") (λ _, Date 2024 1 31)
        (λ _ call, match call with Makedirs _ => true | Open _ _ => false end).

(** A process in which the root logger has been given a console handler,
    as [logging.getLogger().addHandler(logging.StreamHandler())] does, and
    nothing else: the handler has the format ['%(message)s'] and the root
    logger its level [WARNING]. *)
Definition root_configured_world : World :=
  MkWorld EmptyString EmptyString ∅ (MkFS ∅ ∅) (Logger NOTSET [])
          (Logger WARNING [Handler 0 Stderr NOTSET false]) (Dist true false 0)
          1 0.

(** ** [set_gpu_device] *)

(** A [torch.device]: the CPU, a CUDA device with or without an index, or
    Apple's MPS. *)
Inductive device : Type :=
  | Cpu
  | Cuda (index : option N)
  | Mps.

(** [str(device)] *)
Definition device_str (d : device) : string :=
  match d with
  | Cpu => "cpu"
  | Cuda None => "cuda"
  | Cuda (Some i) => "cuda:" ++ pretty i
  | Mps => "mps"
  end.

(** What [torch] reports of the machine: [torch.cuda.is_available()],
    [torch.cuda.device_count()], [torch.cuda.get_device_name(i)] and
    [torch.backends.mps.is_available()]. *)
Record Torch : Type := MkTorch {
  cuda_is_available : bool;
  cuda_device_count : N;
  cuda_get_device_name : N → string;
  mps_is_available : bool
}.

(** [set_gpu_device(gpuid)] for [gpuid] either [None] or an [int] that is
    not negative. The default device of [torch] is passed along: the
    result is the device returned and the default device at the end. *)
Definition set_gpu_device (env : Env) (torch : Torch) (gpuid : option N)
    (default_device : device) : M (device * device) :=
  vprint1 env "### Setting GPU Device ###" >>
  let! chosen :=
    match gpuid with
    | None =>
        let device := Cpu in
        vprint1 env "Specified to use CPU (gpuid=None)." >>
        ret (device, default_device)
    | Some gpuid =>
        if cuda_is_available torch then
          let num_cuda_devices := cuda_device_count torch in
          if (gpuid <? num_cuda_devices)%N then
            let device := Cuda (Some gpuid) in
            (* torch.set_default_device(device) *)
            let default_device := device in
            vprint1 env ("Selected GPU device: " ++ device_str device ++ " ("
                         ++ cuda_get_device_name torch gpuid ++ ")") >>
            ret (device, default_device)
          else
            let device := Cuda None in
            vprint1 env ("Requested CUDA device cuda:" ++ pretty gpuid
                         ++ " is out of range (only "
                         ++ pretty num_cuda_devices ++ " available)."
                         ++ "Fall back to GPU device: " ++ device_str device) >>
            ret (device, default_device)
        else if mps_is_available torch then
          let device := Mps in
          vprint1 env "Selected GPU device: MPS (Apple Silicon)" >>
          ret (device, default_device)
        else
          let device := Cpu in
          vprint1 env ("GPU ID specifed as " ++ pretty gpuid
                       ++ " but no GPU found. Using CPU instead.") >>
          ret (device, default_device)
    end in
  (* torch.set_default_device(device) *)
  let default_device := fst chosen in
  vprint1 env " " >>
  ret (fst chosen, default_device).

(** A machine with two CUDA devices. *)
Definition two_gpus : Torch := MkTorch true 2 (λ _, "GPU") false.

(** ** Mappings by the shape of their values *)

(** No value of the mapping is a flat mapping, the only kind of value for
    which [vprint_nested_dict] looks at its threshold. *)
Definition no_flat_child (items : list (string * value)) : bool :=
  forallb (λ kv, match snd kv with
                 | VDict sub => negb (all_scalars (map snd sub))
                 | _ => true
                 end) items.

(** A process on rank 1 of a distributed run that has been initialised. *)
Definition rank1_world : World :=
  MkWorld EmptyString EmptyString ∅ (MkFS ∅ ∅) (Logger NOTSET [])
          (Logger WARNING []) (Dist true true 1) 0 0.

(** * Theorems *)

(** ** [safe_get_nested] *)

Lemma py_get_dict (items : list (string * value)) (key : string) :
  py_get (VDict items) key = Ok (default VNone (dict_lookup items key)).
Proof. reflexivity. Qed.

(** One turn of the loop on a mapping. *)
Lemma safe_get_nested_step (items : list (string * value)) (key : string)
    (keys : list string) (dflt : value) :
  safe_get_nested (VDict items) (key :: keys) dflt =
    match dict_lookup items key with
    | Some VNone | None => Ok dflt
    | Some d' => safe_get_nested d' keys dflt
    end.
Proof.
  simpl. destruct (dict_lookup items key) as [[]|]; reflexivity.
Qed.

(** On anything but a mapping the first turn returns the default. *)
Lemma safe_get_nested_not_dict (d : value) (key : string)
    (keys : list string) (dflt : value) :
  is_dict d = false → safe_get_nested d (key :: keys) dflt = Ok dflt.
Proof. intros H. simpl. rewrite H. reflexivity. Qed.

Lemma safe_get_nested_found (keys : list string) :
  ∀ d dflt v,
    stored_at d keys = Some v → null_on_path d keys = false →
    safe_get_nested d keys dflt = Ok v.
Proof.
  induction keys as [|key keys IH]; intros d dflt v Hs Hn.
  - simpl in *. congruence.
  - destruct d; try discriminate Hs.
    rewrite safe_get_nested_step. simpl in Hs, Hn.
    destruct (dict_lookup items key) as [d'|]; [|discriminate].
    destruct d'; try discriminate Hn; apply IH; assumption.
Qed.

Lemma safe_get_nested_broken (keys : list string) :
  ∀ d dflt,
    stored_at d keys = None ∨ null_on_path d keys = true →
    safe_get_nested d keys dflt = Ok dflt.
Proof.
  induction keys as [|key keys IH]; intros d dflt H.
  - simpl in H. destruct H; discriminate.
  - destruct d; try (apply safe_get_nested_not_dict; reflexivity).
    rewrite safe_get_nested_step. simpl in H.
    destruct (dict_lookup items key) as [d'|]; [|reflexivity].
    destruct d'; try reflexivity; apply IH; assumption.
Qed.

Lemma safe_get_nested_total (keys : list string) :
  ∀ d dflt, ∃ v, safe_get_nested d keys dflt = Ok v.
Proof.
  induction keys as [|key keys IH]; intros d dflt.
  - eexists; reflexivity.
  - destruct d; try (eexists; apply safe_get_nested_not_dict; reflexivity).
    rewrite safe_get_nested_step.
    destruct (dict_lookup items key) as [d'|]; [|eexists; reflexivity].
    destruct d'; try (eexists; reflexivity); apply IH.
Qed.

(** C5, as the code has it. On every value [d], key path and default:
    when every key of the path is present, every value passed through is a
    mapping and no value looked up (the last one included) is [None], the
    result is the value stored at the end of the path; when a key is
    missing, a value passed through is not a mapping, or a value looked up
    is [None], the result is the default; and no case raises. *)
Theorem safe_get_nested_correct (d : value) (keys : list string)
    (dflt : value) :
  (∀ v, stored_at d keys = Some v → null_on_path d keys = false →
        safe_get_nested d keys dflt = Ok v)
  ∧ (stored_at d keys = None ∨ null_on_path d keys = true →
     safe_get_nested d keys dflt = Ok dflt)
  ∧ (∃ v, safe_get_nested d keys dflt = Ok v).
Proof.
  split; [|split].
  - intros v. apply safe_get_nested_found.
  - apply safe_get_nested_broken.
  - apply safe_get_nested_total.
Qed.

Lemma safe_get_nested_correct_witness :
  safe_get_nested dict_nested ["a"; "b"] (VInt 0) = Ok (VInt 5)
  ∧ safe_get_nested dict_nested ["c"; "b"] (VInt 0) = Ok (VInt 0)
  ∧ safe_get_nested dict_with_null ["a"] (VInt 0) = Ok (VInt 0).
Proof.
  split; [|split].
  - apply (proj1 (safe_get_nested_correct dict_nested ["a"; "b"] (VInt 0)));
      reflexivity.
  - apply (proj1 (proj2
             (safe_get_nested_correct dict_nested ["c"; "b"] (VInt 0)))).
    left. reflexivity.
  - apply (proj1 (proj2
             (safe_get_nested_correct dict_with_null ["a"] (VInt 0)))).
    right. reflexivity.
Defined.

(** C5 as stated fails where the stored value is [None]: in
    [{"a": None}] the key ["a"] is present and nothing passed through fails
    to be a mapping, yet with the default [0] the result is [0], not the
    stored [None]. *)
Lemma safe_get_nested_stored_null :
  stored_at dict_with_null ["a"] = Some VNone
  ∧ safe_get_nested dict_with_null ["a"] (VInt 0) = Ok (VInt 0)
  ∧ safe_get_nested dict_with_null ["a"] (VInt 0) ≠ Ok VNone.
Proof. split; [|split]; [reflexivity | reflexivity | discriminate]. Qed.

(** C10. With no key the loop body never runs: the result is [d] itself,
    whatever [d] and the default are. *)
Theorem safe_get_nested_empty_path (d dflt : value) :
  safe_get_nested d [] dflt = Ok d.
Proof. reflexivity. Qed.

(** ** [vprint] *)

(** C9. With [verbose=False] the test fails on its first operand: nothing
    is written anywhere and the process is as before, whatever the
    arguments, the handlers, and the distributed run are. *)
Theorem vprint_not_verbose (env : Env) (args : list value) (kw : print_opts)
    (w : World) :
  vprint env args false kw w = Ok (tt, w).
Proof. reflexivity. Qed.

(** ** Strings *)

Lemma string_app_nil_r (s : string) : s ++ EmptyString = s.
Proof.
  induction s as [|a s IH]; [reflexivity|].
  change (String a (s ++ EmptyString) = String a s). by rewrite IH.
Qed.

Lemma string_app_assoc (s1 s2 s3 : string) :
  (s1 ++ s2) ++ s3 = s1 ++ (s2 ++ s3).
Proof.
  induction s1 as [|a s1 IH]; [reflexivity|].
  change (String a ((s1 ++ s2) ++ s3) = String a (s1 ++ (s2 ++ s3))).
  by rewrite IH.
Qed.

(** ** Writes keep the shape of the process *)

Lemma same_shape_refl (w : World) : same_shape w w.
Proof. by repeat split. Qed.

Lemma same_shape_trans (w1 w2 w3 : World) :
  same_shape w1 w2 → same_shape w2 w3 → same_shape w1 w3.
Proof.
  unfold same_shape. intros (?&?&?&?&?&?&?) (?&?&?&?&?&?&?).
  repeat split; congruence.
Qed.

Lemma write_stream_shape (s : stream) (text : string) (w : World) :
  same_shape w (write_stream s text w) ∧ clock (write_stream s text w) = clock w.
Proof.
  destruct s; simpl; repeat split; try reflexivity; apply dom_alter_L.
Qed.

Lemma handle_shape (env : Env) (lvl : Z) (t : nat) (msg : string)
    (w : World) (h : handler) :
  same_shape w (handle env lvl t msg w h)
  ∧ clock (handle env lvl t msg w h) = clock w.
Proof.
  unfold handle. destruct (h_level h <=? lvl).
  - apply write_stream_shape.
  - split; [apply same_shape_refl | reflexivity].
Qed.

Lemma handle_all_shape (env : Env) (lvl : Z) (t : nat) (msg : string)
    (hs : list handler) :
  ∀ w, same_shape w (fold_left (handle env lvl t msg) hs w)
       ∧ clock (fold_left (handle env lvl t msg) hs w) = clock w.
Proof.
  induction hs as [|h hs IH]; intros w; simpl.
  - split; [apply same_shape_refl | reflexivity].
  - destruct (IH (handle env lvl t msg w h)) as [IH1 IH2].
    destruct (handle_shape env lvl t msg w h) as [H1 H2].
    split; [eapply same_shape_trans; eassumption | congruence].
Qed.

Lemma call_handlers_shape (env : Env) (lvl : Z) (t : nat) (msg : string)
    (w : World) :
  same_shape w (call_handlers env lvl t msg w)
  ∧ clock (call_handlers env lvl t msg w) = clock w.
Proof.
  unfold call_handlers.
  destruct (handle_all_shape env lvl t msg (handlers (ptyrad w)) w)
    as [H1 H2].
  destruct (handle_all_shape env lvl t msg (handlers (root w))
              (fold_left (handle env lvl t msg) (handlers (ptyrad w)) w))
    as [H3 H4].
  split; [eapply same_shape_trans; eassumption | congruence].
Qed.

(** [logger.info(msg)] without keyword arguments always returns, and
    changes no more than the text of streams and the clock. *)
Lemma logger_info_shape (env : Env) (msg : string) (w : World) :
  ∃ w', logger_info env msg no_opts w = Ok (tt, w') ∧ same_shape w w'.
Proof.
  unfold logger_info, bind, get_world.
  destruct (is_enabled_for INFO w); simpl.
  - eexists; split; [reflexivity|].
    eapply same_shape_trans;
      [|apply (call_handlers_shape env INFO (clock w) msg)].
    by repeat split.
  - eexists; split; [reflexivity | apply same_shape_refl].
Qed.

(** So does [vprint(msg)]. *)
Lemma vprint1_shape (env : Env) (msg : string) (w : World) :
  ∃ w', vprint1 env msg w = Ok (tt, w') ∧ same_shape w w'.
Proof.
  unfold vprint1, vprint, bind, get_world. simpl.
  destruct (negb (is_available (dist w)) || negb (is_initialized (dist w))
            || (get_rank (dist w) =? 0)); simpl.
  - destruct (has_handlers w).
    + apply logger_info_shape.
    + eexists; split; [reflexivity | by repeat split].
  - eexists; split; [reflexivity | apply same_shape_refl].
Qed.

(** ** What is written, stream by stream *)

Lemma handle_buffer (env : Env) (lvl : Z) (t : nat) (msg : string)
    (w : World) (h : handler) (b : nat) :
  buffers (handle env lvl t msg w h) !! b
  = (λ old, old ++ written env (Buffer b) lvl t msg [h]) <$> buffers w !! b.
Proof.
  unfold handle; simpl. rewrite string_app_nil_r.
  destruct (h_level h <=? lvl); rewrite ?andb_true_r, ?andb_false_r.
  - destruct (h_stream h) as [| |b'|p]; simpl;
      try (destruct (buffers w !! b); simpl; by rewrite ?string_app_nil_r).
    rewrite lookup_alter. case_decide as Hb.
    + subst b'. rewrite bool_decide_eq_true_2 by done. reflexivity.
    + rewrite bool_decide_eq_false_2 by congruence.
      destruct (buffers w !! b); simpl; by rewrite ?string_app_nil_r.
  - destruct (buffers w !! b); simpl; by rewrite ?string_app_nil_r.
Qed.

Lemma handle_all_buffer (env : Env) (lvl : Z) (t : nat) (msg : string)
    (b : nat) (hs : list handler) :
  ∀ w, buffers (fold_left (handle env lvl t msg) hs w) !! b
       = (λ old, old ++ written env (Buffer b) lvl t msg hs)
           <$> buffers w !! b.
Proof.
  induction hs as [|h hs IH]; intros w; simpl.
  - destruct (buffers w !! b); simpl; by rewrite ?string_app_nil_r.
  - rewrite IH, handle_buffer. simpl. rewrite string_app_nil_r.
    destruct (buffers w !! b); simpl; by rewrite ?string_app_assoc.
Qed.

Lemma handle_file (env : Env) (lvl : Z) (t : nat) (msg : string)
    (w : World) (h : handler) (p : string) :
  files (fs (handle env lvl t msg w h)) !! p
  = (λ old, old ++ written env (FileStream p) lvl t msg [h])
      <$> files (fs w) !! p.
Proof.
  unfold handle; simpl. rewrite string_app_nil_r.
  destruct (h_level h <=? lvl); rewrite ?andb_true_r, ?andb_false_r.
  - destruct (h_stream h) as [| |b'|p']; simpl;
      try (destruct (files (fs w) !! p); simpl; by rewrite ?string_app_nil_r).
    rewrite lookup_alter. case_decide as Hp.
    + subst p'. rewrite bool_decide_eq_true_2 by done. reflexivity.
    + rewrite bool_decide_eq_false_2 by congruence.
      destruct (files (fs w) !! p); simpl; by rewrite ?string_app_nil_r.
  - destruct (files (fs w) !! p); simpl; by rewrite ?string_app_nil_r.
Qed.

Lemma handle_all_file (env : Env) (lvl : Z) (t : nat) (msg : string)
    (p : string) (hs : list handler) :
  ∀ w, files (fs (fold_left (handle env lvl t msg) hs w)) !! p
       = (λ old, old ++ written env (FileStream p) lvl t msg hs)
           <$> files (fs w) !! p.
Proof.
  induction hs as [|h hs IH]; intros w; simpl.
  - destruct (files (fs w) !! p); simpl; by rewrite ?string_app_nil_r.
  - rewrite IH, handle_file. simpl. rewrite string_app_nil_r.
    destruct (files (fs w) !! p); simpl; by rewrite ?string_app_assoc.
Qed.

Lemma written_app (env : Env) (s : stream) (lvl : Z) (t : nat) (msg : string)
    (hs1 hs2 : list handler) :
  written env s lvl t msg (hs1 ++ hs2)%list
  = written env s lvl t msg hs1 ++ written env s lvl t msg hs2.
Proof.
  induction hs1 as [|h hs1 IH]; simpl; [reflexivity|].
  by rewrite IH, string_app_assoc.
Qed.

(** One record through every handler: what each buffer and each file
    gains. *)
Lemma call_handlers_buffer (env : Env) (lvl : Z) (t : nat) (msg : string)
    (w : World) (b : nat) :
  buffers (call_handlers env lvl t msg w) !! b
  = (λ old, old ++ written env (Buffer b) lvl t msg
                     (handlers (ptyrad w) ++ handlers (root w))%list)
      <$> buffers w !! b.
Proof.
  unfold call_handlers. rewrite !handle_all_buffer, written_app.
  destruct (buffers w !! b); simpl; by rewrite ?string_app_assoc.
Qed.

Lemma call_handlers_file (env : Env) (lvl : Z) (t : nat) (msg : string)
    (w : World) (p : string) :
  files (fs (call_handlers env lvl t msg w)) !! p
  = (λ old, old ++ written env (FileStream p) lvl t msg
                     (handlers (ptyrad w) ++ handlers (root w))%list)
      <$> files (fs w) !! p.
Proof.
  unfold call_handlers. rewrite !handle_all_file, written_app.
  destruct (files (fs w) !! p); simpl; by rewrite ?string_app_assoc.
Qed.

Lemma written_console_only (env : Env) (lvl : Z) (t : nat) (msg : string)
    (hs : list handler) (s : stream) :
  console_only hs = true → s ≠ Stderr → s ≠ Stdout →
  written env s lvl t msg hs = EmptyString.
Proof.
  intros Hc Hs1 Hs2. induction hs as [|h hs IH]; [reflexivity|].
  simpl in *. apply andb_true_iff in Hc as [Hh Hc].
  rewrite (IH Hc), string_app_nil_r.
  rewrite bool_decide_eq_false_2; [reflexivity|].
  intros <-. destruct (h_stream h); done.
Qed.

(** ** Running the monad *)

Lemma bind_ok {A B} (c : M A) (k : A → M B) (w w' : World) (a : A) :
  c w = Ok (a, w') → bind c k w = k a w'.
Proof. unfold bind. by intros ->. Qed.

Lemma vprint1_off (env : Env) (msg : string) (w : World) :
  vprint_on w = false → vprint1 env msg w = Ok (tt, w).
Proof.
  unfold vprint_on, vprint1, vprint, bind, get_world. simpl.
  by intros ->.
Qed.

Lemma vprint1_logged (env : Env) (msg : string) (w : World) :
  vprint_on w = true → handlers (ptyrad w) ≠ [] →
  vprint1 env msg w = logger_info env msg no_opts w.
Proof.
  unfold vprint_on, vprint1, vprint, bind, get_world, has_handlers. simpl.
  intros -> Hh. by rewrite (bool_decide_eq_false_2 _ Hh).
Qed.

Lemma logger_info_enabled (env : Env) (msg : string) (w : World) :
  level (ptyrad w) = INFO →
  logger_info env msg no_opts w
  = Ok (tt, call_handlers env INFO (clock w) msg (set_clock (S (clock w)) w)).
Proof.
  unfold logger_info, bind, get_world, is_enabled_for, effective_level.
  by intros ->.
Qed.

Lemma vprint_all_cons (env : Env) (msg : string) (msgs : list string) :
  vprint_all env (msg :: msgs) = (vprint1 env msg >> vprint_all env msgs).
Proof. reflexivity. Qed.

Lemma vprint_all_shape (env : Env) (msgs : list string) :
  ∀ w, ∃ w', vprint_all env msgs w = Ok (tt, w') ∧ same_shape w w'.
Proof.
  induction msgs as [|msg msgs IH]; intros w.
  - eexists; split; [reflexivity | apply same_shape_refl].
  - rewrite vprint_all_cons.
    destruct (vprint1_shape env msg w) as (w1 & H1 & S1).
    destruct (IH w1) as (w2 & H2 & S2).
    exists w2. rewrite (bind_ok _ _ _ _ _ H1).
    split; [done | by eapply same_shape_trans].
Qed.

Lemma vprint_all_off (env : Env) (msgs : list string) (w : World) :
  vprint_on w = false → vprint_all env msgs w = Ok (tt, w).
Proof.
  intros Hoff. induction msgs as [|msg msgs IH]; [reflexivity|].
  rewrite vprint_all_cons.
  by rewrite (bind_ok _ _ _ _ _ (vprint1_off env msg w Hoff)).
Qed.

Lemma vprint_all_logged (env : Env) (msgs : list string) :
  ∀ w, vprint_on w = true → handlers (ptyrad w) ≠ [] →
       vprint_all env msgs w = log_all env msgs w.
Proof.
  induction msgs as [|msg msgs IH]; intros w Hon Hh; [reflexivity|].
  rewrite vprint_all_cons. cbn [log_all]. unfold bind. rewrite (vprint1_logged env msg w Hon Hh).
  destruct (logger_info_shape env msg w) as (w1 & -> & S1).
  destruct S1 as (Hp & _ & Hd & _).
  apply IH.
  - unfold vprint_on in *. by rewrite Hd.
  - by rewrite Hp.
Qed.

(** ** [CustomLogger.__init__] *)

(** The constructor attaches its handlers to the shared logger and then
    prints its notices. *)
Lemma init_run (env : Env) (cfg : config) (w : World) :
  init env cfg w
  = match vprint_all env (init_notices env (new_logger cfg (next_id w)))
            (attached_world cfg w) with
    | Ok (_, w') => Ok (new_logger cfg (next_id w), w')
    | Raise e => Raise e
    end.
Proof.
  unfold init, bind, modify, get_world, fresh, ret; simpl.
  assert (Hadd : ∀ l,
    add_handler
      (Handler (S (S (next_id w))) (Buffer (S (next_id w))) INFO
         (cfg_show_timestamp cfg))
      (add_handler (Handler (next_id w) Stderr INFO (cfg_show_timestamp cfg))
         (Logger l []))
    = Logger l [Handler (next_id w) Stderr INFO (cfg_show_timestamp cfg);
                Handler (S (S (next_id w))) (Buffer (S (next_id w))) INFO
                  (cfg_show_timestamp cfg)]).
  { intros l. unfold add_handler; simpl.
    rewrite bool_decide_eq_false_2; [done|].
    intros [=]%list_elem_of_singleton. }
  destruct (has_handlers _) eqn:Hh; simpl.
  - rewrite Hadd. unfold attached_world; simpl.
    destruct (vprint_all _ _ _) as [[[] w']|]; reflexivity.
  - unfold has_handlers in Hh; simpl in Hh.
    apply orb_false_iff in Hh as [Hh _].
    apply negb_false_iff, bool_decide_eq_true_1 in Hh. rewrite Hh, Hadd.
    unfold attached_world; simpl.
    destruct (vprint_all _ _ _) as [[[] w']|]; reflexivity.
Qed.

(** It always returns; the instance has no [file_handler] attribute. *)
Lemma init_ok (env : Env) (cfg : config) (w : World) :
  ∃ w', init env cfg w = Ok (new_logger cfg (next_id w), w')
        ∧ same_shape (attached_world cfg w) w'.
Proof.
  rewrite init_run.
  destruct (vprint_all_shape env
              (init_notices env (new_logger cfg (next_id w)))
              (attached_world cfg w)) as (w' & -> & S).
  by exists w'.
Qed.

(** ** [CustomLogger.close] *)

(** Before any [flush_to_file], [close] stops at reading the attribute. *)
Lemma close_without_attribute (self : CustomLogger) (w : World) :
  file_handler self = Absent → close self w = Raise AttributeError.
Proof. unfold close. by intros ->. Qed.

(** C2, on the code. [CustomLogger().close()] in a process at start: the
    constructor never assigns [self.file_handler], so [close] raises
    [AttributeError] where the claim has a no-op; and this is so for every
    configuration and every process. *)
Theorem close_before_flush_raises :
  (let! self := init sample_env default_config in close self) fresh_world
  = Raise AttributeError
  ∧ ∀ env cfg w self w',
      init env cfg w = Ok (self, w') → close self w' = Raise AttributeError.
Proof.
  split; [by vm_compute|].
  intros env cfg w self w' Hinit.
  destruct (init_ok env cfg w) as (w1 & H1 & _).
  rewrite H1 in Hinit. injection Hinit as <- <-.
  by apply close_without_attribute.
Qed.

(** ** [vprint_nested_dict] *)

(** Below a key whose mapping is not printed inline, the code goes on with
    the default threshold, whatever threshold it was called with. *)
Lemma vprint_nested_dict_recursion (env : Env) (key : string)
    (sub : list (string * value)) (indent : nat) (verbose : bool) (t : Z) :
  all_scalars (map snd sub) = false →
  vprint_nested_dict env (VDict [(key, VDict sub)]) indent verbose t
  = (vprint env [VStr (repeat_string "    " indent ++ key ++ ":")] verbose
       no_opts
     >> vprint_nested_dict env (VDict sub) (indent + 1) verbose
          default_leaf_inline_threshold)
    >> ret tt.
Proof. intros H. simpl. by rewrite H. Qed.

(** C6, on the code. [vprint_nested_dict(d, leaf_inline_threshold=1)] for
    [d = {"outer": {"inner": {"x": 1, "y": 2}}}] in a process at start: the
    mapping under ["inner"] has two entries, more than the threshold 1, and
    the code still prints it inline, because one level down the threshold
    is back at 6; the printer of the claim prints the key alone and then
    the two entries. *)
Theorem nested_threshold_dropped :
  (∃ w, vprint_nested_dict sample_env dict_three_deep 0 true 1 fresh_world
        = Ok (tt, w)
        ∧ stdout w = "outer:" ++ nl ++ "    inner: {x: 1, y: 2}" ++ nl)
  ∧ (∃ w, nested_dict_printer_spec sample_env dict_three_deep 0 true 1
            fresh_world = Ok (tt, w)
          ∧ stdout w = "outer:" ++ nl ++ "    inner:" ++ nl
                       ++ "        x: 1" ++ nl ++ "        y: 2" ++ nl).
Proof. split; eexists; (split; [by vm_compute | by vm_compute]). Qed.

(** ** [flush_to_file] without a log file *)

Lemma grown_refl {K} `{Countable K} (m : gmap K string) : grown m m.
Proof. intros k old Hk. exists EmptyString. by rewrite string_app_nil_r. Qed.

Lemma grown_trans {K} `{Countable K} (m1 m2 m3 : gmap K string) :
  grown m1 m2 → grown m2 m3 → grown m1 m3.
Proof.
  intros H12 H23 k old Hk.
  destruct (H12 k old Hk) as (e1 & H1).
  destruct (H23 k _ H1) as (e2 & H2).
  exists (e1 ++ e2). by rewrite <-string_app_assoc.
Qed.

Lemma logger_info_grown (env : Env) (msg : string) (w w' : World) :
  logger_info env msg no_opts w = Ok (tt, w') →
  grown (buffers w) (buffers w') ∧ grown (files (fs w)) (files (fs w')).
Proof.
  unfold logger_info, bind, get_world.
  destruct (is_enabled_for INFO w); simpl.
  - intros [= <-]. split; intros k old Hk.
    + rewrite call_handlers_buffer; simpl. rewrite Hk. by eexists.
    + rewrite call_handlers_file; simpl. rewrite Hk. by eexists.
  - intros [= <-]. split; apply grown_refl.
Qed.

Lemma vprint1_grown (env : Env) (msg : string) (w w' : World) :
  vprint1 env msg w = Ok (tt, w') →
  grown (buffers w) (buffers w') ∧ grown (files (fs w)) (files (fs w')).
Proof.
  unfold vprint1, vprint, bind, get_world. simpl.
  destruct (negb (is_available (dist w)) || negb (is_initialized (dist w))
            || (get_rank (dist w) =? 0)); simpl.
  - destruct (has_handlers w).
    + apply logger_info_grown.
    + intros [= <-]. split; apply grown_refl.
  - intros [= <-]. split; apply grown_refl.
Qed.

(** Without a log file and without a prefix, [flush_to_file] is its two
    notices. *)
Lemma flush_no_file_run (env : Env) (self : CustomLogger)
    (dir_arg : option string) (app_arg : option bool) (w : World) :
  log_file self = None → flush_file self = false →
  prefix_date self = false → prefix_jobid self = 0 →
  flush_to_file env self dir_arg app_arg w
  = (vprint1 env (not_flushed_notice self) >> vprint1 env " "
     >> ret (set_file_handler (Present None) self)) w.
Proof.
  intros Hf Hff Hd Hj. unfold flush_to_file, not_flushed_notice.
  rewrite Hf, Hff, Hd, Hj. simpl. unfold bind, ret.
  destruct (vprint1 env _ w) as [[[] w1]|]; [|reflexivity].
  destruct (vprint1 env _ w1) as [[[] w2]|]; reflexivity.
Qed.

(** Where the branch for a missing log file is reached: for a logger
    constructed with [log_file=None], [prefix_date=False] and
    [prefix_jobid=0] (any [log_dir], [append_to_file], [show_timestamp]),
    in every state of the process, [flush_to_file] raises nothing and does
    what its two calls of [vprint] do (the notice, then a blank line): it
    assigns [file_handler = None], leaves the loggers and their handlers,
    the directories and the set of files as they are, and changes a buffer
    or a file only by what [vprint] appends to it. *)
Theorem flush_without_log_file (env : Env) (cfg : config) (w0 : World)
    (self : CustomLogger) (w1 : World) (dir_arg : option string)
    (app_arg : option bool) (w : World) :
  init env cfg w0 = Ok (self, w1) →
  cfg_log_file cfg = None → cfg_prefix_date cfg = false →
  cfg_prefix_jobid cfg = 0 →
  ∃ w', flush_to_file env self dir_arg app_arg w
        = Ok (set_file_handler (Present None) self, w')
      ∧ (vprint1 env
           "### Log file is not flushed (created) because log_file is set to None ###"
         >> vprint1 env " ") w = Ok (tt, w')
      ∧ same_shape w w'
      ∧ grown (buffers w) (buffers w')
      ∧ grown (files (fs w)) (files (fs w')).
Proof.
  intros Hinit Hf Hd Hj.
  destruct (init_ok env cfg w0) as (w1' & H1 & _).
  rewrite H1 in Hinit. injection Hinit as <- <-.
  rewrite flush_no_file_run by (simpl; rewrite ?Hf; done).
  assert (not_flushed_notice (new_logger cfg (next_id w0))
    = "### Log file is not flushed (created) because log_file is set to None ###")
    as -> by (unfold not_flushed_notice; simpl; by rewrite Hf).
  destruct (vprint1_shape env
    "### Log file is not flushed (created) because log_file is set to None ###"
    w) as (wa & Ha & Sa).
  destruct (vprint1_shape env " " wa) as (wb & Hb & Sb).
  destruct (vprint1_grown _ _ _ _ Ha) as [Ga Fa].
  destruct (vprint1_grown _ _ _ _ Hb) as [Gb Fb].
  exists wb. unfold bind, ret. rewrite Ha, Hb.
  split; [done|]. split; [done|]. split; [|split].
  - by eapply same_shape_trans.
  - by eapply grown_trans.
  - by eapply grown_trans.
Qed.

Lemma flush_without_log_file_witness :
  ∃ w1 w',
    init sample_env config_no_file_no_prefix fresh_world
    = Ok (new_logger config_no_file_no_prefix 0, w1)
    ∧ flush_to_file sample_env (new_logger config_no_file_no_prefix 0)
        None None w1
      = Ok (set_file_handler (Present None)
              (new_logger config_no_file_no_prefix 0), w')
    ∧ same_shape w1 w'.
Proof.
  eexists. 
  assert (Hinit : init sample_env config_no_file_no_prefix fresh_world
                  = Ok (new_logger config_no_file_no_prefix 0, _))
    by (vm_compute; reflexivity).
  match type of Hinit with
  | _ = Ok (_, ?w1) =>
      destruct (flush_without_log_file sample_env config_no_file_no_prefix
                  fresh_world _ w1 None None w1 Hinit eq_refl eq_refl eq_refl)
        as (w' & Hflush & _ & Hshape & _)
  end.
  exists w'. split; [exact Hinit | split; [exact Hflush | exact Hshape]].
Defined.

(** Two runs. With every argument but [log_file=None] at its default,
    [prefix_date] is true and [flush_to_file] raises [TypeError] at
    [get_date() + '_' + log_file], before it reaches the branch for a
    missing log file. And without prefixes, where that branch is reached,
    the notice goes through the logger into the buffer, which gains the
    two lines. *)
Lemma flush_without_log_file_not_a_noop :
  (let! self := init sample_env config_no_file in
   flush_to_file sample_env self None None) fresh_world = Raise TypeError
  ∧ ∃ self w self' w',
      init sample_env config_no_file_no_prefix fresh_world = Ok (self, w)
      ∧ flush_to_file sample_env self None None w = Ok (self', w')
      ∧ buffers w' !! log_buffer self
        = (λ old, old
             ++ "### Log file is not flushed (created) because log_file is set to None ###"
             ++ nl ++ " " ++ nl) <$> buffers w !! log_buffer self
      ∧ buffers w' !! log_buffer self ≠ buffers w !! log_buffer self.
Proof.
  split; [by vm_compute|].
  eexists _, _, _, _.
  split; [vm_compute; reflexivity|].
  split; [vm_compute; reflexivity|].
  split; [by vm_compute|].
  vm_compute. intros [=].
Qed.

(** C1. [CustomLogger(log_file=None)] has a branch of [flush_to_file] of
    its own, which prints a notice and returns; it is not reached when a
    prefix is asked for. With every other argument at its default,
    [prefix_date] is true, and constructing the logger and flushing it
    raises a [TypeError], at [get_date() + '_' + log_file] with [log_file]
    being [None]. So it is for every logger constructed with
    [log_file=None] and [prefix_date] true or [prefix_jobid] other than 0,
    with any arguments of [flush_to_file] and in every state of the
    process: the flush raises where it was to do nothing. *)
Theorem flush_without_log_file_raises :
  (let! self := init sample_env config_no_file in
   flush_to_file sample_env self None None) fresh_world = Raise TypeError
  ∧ ∀ env cfg w0 self w1 dir_arg app_arg w,
      init env cfg w0 = Ok (self, w1) →
      cfg_log_file cfg = None →
      cfg_prefix_date cfg = true ∨ cfg_prefix_jobid cfg ≠ 0 →
      flush_to_file env self dir_arg app_arg w = Raise TypeError.
Proof.
  split; [by vm_compute|].
  intros env cfg w0 self w1 dir_arg app_arg w Hinit Hf Hpre.
  destruct (init_ok env cfg w0) as (w1' & H1 & _).
  rewrite H1 in Hinit. injection Hinit as <- <-.
  unfold flush_to_file, bind. cbn [new_logger log_file prefix_jobid
                                     prefix_date].
  rewrite Hf. case_bool_decide as Hj; [reflexivity|].
  destruct Hpre as [Hd|Hj']; [|done].
  rewrite Hd. reflexivity.
Qed.

(** ** [flush_to_file] with a log file *)

Lemma files_after_write (m : gmap string string) (path x buf : string) :
  <[ path := default EmptyString
               (alter (λ old, old ++ buf) path (<[ path := x ]> m) !! path) ]>
    (alter (λ old, old ++ buf) path (<[ path := x ]> m))
  = <[ path := x ++ buf ]> m.
Proof.
  rewrite alter_insert_eq, lookup_insert_eq. simpl.
  by rewrite insert_insert_eq.
Qed.

Lemma world_eq (w1 w2 : World) :
  stdout w1 = stdout w2 → stderr w1 = stderr w2 → buffers w1 = buffers w2 →
  fs w1 = fs w2 → ptyrad w1 = ptyrad w2 → root w1 = root w2 →
  dist w1 = dist w2 → next_id w1 = next_id w2 → clock w1 = clock w2 →
  w1 = w2.
Proof. destruct w1, w2; simpl; by intros -> -> -> -> -> -> -> -> ->. Qed.

(** When the system permits, [flush_to_file] is: write, empty, attach, and
    then the two notices. *)
Lemma flush_run (env : Env) (self : CustomLogger) (dir_arg : option string)
    (app_arg : option bool) (w : World) (base : string) :
  log_file self = Some base → flush_file self = true →
  let dir := effective_dir self dir_arg in
  let path := os_path_join dir (prefixed_name env self (clock w) base) in
  let append := default (append_to_file self) app_arg in
  permits env dir path →
  flush_to_file env self dir_arg app_arg w
  = (vprint1 env (flushed_notice path) >> vprint1 env " "
     >> ret (set_file_handler
               (Present (Some (new_file_handler self path w))) self))
      (flushed_world self dir path append w).
Proof.
  intros Hf Hff dir path append Hp.
  unfold flush_to_file. rewrite Hf, Hff.
  fold (effective_dir self dir_arg). fold dir.
  assert (Hmk : ∀ f, os_refuses env f (Makedirs dir) = false)
    by (intros f; apply Hp).
  assert (Hop : ∀ f m, os_refuses env f (Open path m) = false)
    by (intros f m; apply Hp).
  unfold new_file_handler, flushed_notice.
  fold append. clearbody append. clear Hp.
  set (wf := flushed_world self dir path append w).
  unfold prefixed_name in path.
  destruct (bool_decide (prefix_jobid self ≠ 0));
    destruct (prefix_date self) eqn:Hd;
    cbv [bind ret get_date read_clock prepend os_makedirs os_open modify
         get_world fresh raise]; simpl;
    rewrite Hmk; simpl; fold path; rewrite !Hop; simpl;
    (match goal with
     | |- context [vprint1 env _ ?w1] =>
         assert (w1 = wf) as ->;
         [apply world_eq; unfold wf, flushed_world; simpl; rewrite ?Hd;
          try done; rewrite files_after_write; destruct append; reflexivity|]
     end);
    (destruct (vprint1 env _ wf) as [[[] w2]|]; [|reflexivity]);
    destruct (vprint1 env " " w2) as [[[] w3]|]; reflexivity.
Qed.

(** ** Records, one after the other *)

Lemma fmap_app_nil (o : option string) :
  (λ old, old ++ EmptyString) <$> o = o.
Proof. destruct o; simpl; by rewrite ?string_app_nil_r. Qed.

Lemma fmap_app_app (o : option string) (s1 s2 : string) :
  (λ old, old ++ s2) <$> ((λ old, old ++ s1) <$> o)
  = (λ old, old ++ (s1 ++ s2)) <$> o.
Proof. destruct o; simpl; by rewrite ?string_app_assoc. Qed.

Lemma log_all_run (env : Env) (msgs : list string) :
  ∀ w, level (ptyrad w) = INFO →
    ∃ w', log_all env msgs w = Ok (tt, w')
      ∧ same_shape w w'
      ∧ clock w' = (clock w + List.length msgs)%nat
      ∧ (∀ b, buffers w' !! b
              = (λ old, old ++ transcript env (Buffer b) (reached w) (clock w)
                                 msgs) <$> buffers w !! b)
      ∧ (∀ p, files (fs w') !! p
              = (λ old, old ++ transcript env (FileStream p) (reached w)
                                 (clock w) msgs) <$> files (fs w) !! p).
Proof.
  induction msgs as [|msg msgs IH]; intros w Hl.
  - exists w. simpl. split; [done|]. split; [apply same_shape_refl|].
    split; [lia|]. split; intros; by rewrite fmap_app_nil.
  - cbn [log_all]. unfold bind. rewrite (logger_info_enabled env msg w Hl).
    set (w1 := call_handlers env INFO (clock w) msg
                 (set_clock (S (clock w)) w)).
    destruct (call_handlers_shape env INFO (clock w) msg
                (set_clock (S (clock w)) w)) as [S1 C1].
    fold w1 in S1, C1. simpl in C1.
    assert (S1' : same_shape w w1).
    { eapply same_shape_trans; [|exact S1]. by repeat split. }
    assert (Hr : reached w1 = reached w).
    { unfold reached. destruct S1' as (-> & -> & _). done. }
    destruct (IH w1) as (w' & Hrun & S2 & C2 & B2 & F2).
    { destruct S1' as (-> & _). done. }
    exists w'. split; [done|]. split; [by eapply same_shape_trans|].
    split; [simpl; lia|].
    split.
    + intros b. rewrite B2, Hr, C1. unfold w1.
      rewrite call_handlers_buffer. simpl. by rewrite fmap_app_app.
    + intros p. rewrite F2, Hr, C1. unfold w1.
      rewrite call_handlers_file. simpl. by rewrite fmap_app_app.
Qed.

Lemma vprint_all_run (env : Env) (msgs : list string) (w : World) :
  level (ptyrad w) = INFO → handlers (ptyrad w) ≠ [] →
  ∃ w', vprint_all env msgs w = Ok (tt, w')
    ∧ same_shape w w'
    ∧ clock w' = (clock w + List.length (shown w msgs))%nat
    ∧ (∀ b, buffers w' !! b
            = (λ old, old ++ transcript env (Buffer b) (reached w) (clock w)
                               (shown w msgs)) <$> buffers w !! b)
    ∧ (∀ p, files (fs w') !! p
            = (λ old, old ++ transcript env (FileStream p) (reached w)
                               (clock w) (shown w msgs))
                <$> files (fs w) !! p).
Proof.
  intros Hl Hh. unfold shown. destruct (vprint_on w) eqn:Hon.
  - rewrite vprint_all_logged by done. by apply log_all_run.
  - rewrite vprint_all_off by done. exists w. simpl.
    split; [done|]. split; [apply same_shape_refl|].
    split; [lia|]. split; intros; by rewrite fmap_app_nil.
Qed.

Lemma transcript_rendered (env : Env) (s : stream) (hs : list handler)
    (timestamp : bool) (msgs : list string) :
  (∀ t msg, written env s INFO t msg hs
            = format_record env timestamp t msg ++ nl) →
  ∀ t, transcript env s hs t msgs = rendered env timestamp t msgs.
Proof.
  intros H. induction msgs as [|msg msgs IH]; intros t; simpl; [done|].
  by rewrite H, IH, string_app_assoc.
Qed.

Lemma transcript_silent (env : Env) (s : stream) (hs : list handler)
    (msgs : list string) :
  (∀ t msg, written env s INFO t msg hs = EmptyString) →
  ∀ t, transcript env s hs t msgs = EmptyString.
Proof.
  intros H. induction msgs as [|msg msgs IH]; intros t; simpl; [done|].
  by rewrite H, IH.
Qed.

Lemma rendered_app (env : Env) (timestamp : bool) (l1 l2 : list string) :
  ∀ t, rendered env timestamp t (l1 ++ l2)%list
       = rendered env timestamp t l1
         ++ rendered env timestamp (t + List.length l1) l2.
Proof.
  induction l1 as [|m l1 IH]; intros t; simpl.
  - by rewrite Nat.add_0_r.
  - rewrite IH, !string_app_assoc.
    by replace (S t + List.length l1)%nat
         with (t + S (List.length l1))%nat by lia.
Qed.

(** ** What the handlers of a [CustomLogger] write *)

Section Handlers.
Variable env : Env.
Variables (n k : nat) (timestamp : bool) (path : string).
Variable root_handlers : list handler.
Hypothesis root_console : console_only root_handlers = true.

Let console := Handler n Stderr INFO timestamp.
Let buffer := Handler (S (S n)) (Buffer (S n)) INFO timestamp.
Let file := Handler k (FileStream path) NOTSET timestamp.

Lemma written_buffer_unflushed (t : nat) (msg : string) :
  written env (Buffer (S n)) INFO t msg
    ([console; buffer] ++ root_handlers)%list
  = format_record env timestamp t msg ++ nl.
Proof.
  simpl. rewrite bool_decide_eq_true_2 by done.
  rewrite written_console_only by done. simpl.
  by rewrite string_app_nil_r.
Qed.

Lemma written_file_unflushed (p : string) (t : nat) (msg : string) :
  written env (FileStream p) INFO t msg
    ([console; buffer] ++ root_handlers)%list
  = EmptyString.
Proof.
  simpl. by rewrite written_console_only.
Qed.

Lemma written_buffer_flushed (t : nat) (msg : string) :
  written env (Buffer (S n)) INFO t msg
    ([console; buffer; file] ++ root_handlers)%list
  = format_record env timestamp t msg ++ nl.
Proof.
  simpl. rewrite bool_decide_eq_true_2 by done.
  rewrite written_console_only by done. simpl.
  by rewrite string_app_nil_r.
Qed.

Lemma written_file_flushed (t : nat) (msg : string) :
  written env (FileStream path) INFO t msg
    ([console; buffer; file] ++ root_handlers)%list
  = format_record env timestamp t msg ++ nl.
Proof.
  simpl. rewrite bool_decide_eq_true_2 by done.
  rewrite written_console_only by done. simpl.
  by rewrite string_app_nil_r.
Qed.
End Handlers.

Lemma add_handler_elem (h : handler) (l : logger) :
  h ∈ handlers (add_handler h l).
Proof.
  unfold add_handler. case_bool_decide; [done|].
  simpl. apply elem_of_app. right. by apply list_elem_of_singleton.
Qed.

Lemma add_handler_level (h : handler) (l : logger) :
  level (add_handler h l) = level l.
Proof. unfold add_handler. by case_bool_decide. Qed.

Lemma add_handler_not_nil (h : handler) (l : logger) :
  handlers (add_handler h l) ≠ [].
Proof.
  intros Hnil. pose proof (add_handler_elem h l) as He.
  rewrite Hnil in He. by apply elem_of_nil in He.
Qed.

(** ** The shape of a path *)

Lemma pretty_N_go_no_slash (x : N) :
  ∀ s, starts_with_slash s = false →
       starts_with_slash (pretty_N_go x s) = false.
Proof.
  induction (N.lt_wf_0 x) as [x _ IH]; intros s Hs.
  destruct (decide (x = 0)%N) as [->|Hx].
  - by rewrite pretty_N_go_0.
  - rewrite pretty_N_go_step by lia. apply IH.
    + apply N.div_lt; lia.
    + simpl. unfold pretty_N_char. by repeat case_match.
Qed.

Lemma pretty_Z_no_slash (z : Z) : starts_with_slash (pretty z) = false.
Proof.
  destruct z as [|p|p]; [done| |done].
  unfold pretty, pretty_Z, pretty, pretty_positive, pretty, pretty_N.
  case_decide; [done|]. by apply pretty_N_go_no_slash.
Qed.

Lemma starts_with_slash_app (s1 s2 : string) :
  s1 ≠ EmptyString →
  starts_with_slash (s1 ++ s2) = starts_with_slash s1.
Proof. by destruct s1. Qed.

Lemma zfill_4_no_slash (s : string) :
  starts_with_slash s = false →
  zfill 4 s ≠ EmptyString ∧ starts_with_slash (zfill 4 s) = false.
Proof.
  intros Hs. unfold zfill.
  destruct s as [|c1 [|c2 [|c3 [|c4 rest]]]]; simpl in *;
    repeat case_match; done.
Qed.

Lemma strftime_Ymd_no_slash (d : date) (rest : string) :
  starts_with_slash (strftime_Ymd d ++ rest) = false.
Proof.
  unfold strftime_Ymd.
  destruct (zfill_4_no_slash (pretty (year d)) (pretty_Z_no_slash _))
    as [Hne Hs].
  rewrite !string_app_assoc, starts_with_slash_app by done. exact Hs.
Qed.

Lemma os_path_join_plain (a b : string) :
  a ≠ EmptyString → ends_with_slash a = false → starts_with_slash b = false →
  os_path_join a b = a ++ "/" ++ b.
Proof.
  intros Ha He Hb. unfold os_path_join. rewrite Hb, He.
  by rewrite bool_decide_eq_false_2.
Qed.

(** ** The path of the log file *)

(** C3, as the code has it. For a logger constructed with a log file
    [base], [prefix_jobid] other than 0 and [prefix_date] true, when the
    system permits, [flush_to_file] attaches a handler on the file
    [os.path.join(dir, <YYYYMMDD>_<jobid>_<base>)], which is there
    afterwards: the date, put in front last, is leftmost, and the job id,
    filled with zeros to two digits, follows it. [dir] is the directory
    given, else the configured one, else ['logs']; the join is
    [<dir>/<name>] for a [dir] that is not empty and has no slash at its
    end. *)
Theorem flush_path_date_first (env : Env) (cfg : config) (w0 : World)
    (self : CustomLogger) (w1 : World) (base : string)
    (dir_arg : option string) (app_arg : option bool) (w : World) :
  init env cfg w0 = Ok (self, w1) →
  cfg_log_file cfg = Some base → cfg_prefix_jobid cfg ≠ 0 →
  cfg_prefix_date cfg = true →
  let dir := effective_dir self dir_arg in
  let name := strftime_Ymd (today_at env (clock w)) ++ "_"
              ++ zfill 2 (pretty (cfg_prefix_jobid cfg)) ++ "_" ++ base in
  permits env dir (os_path_join dir name) →
  ∃ fh w',
    flush_to_file env self dir_arg app_arg w
    = Ok (set_file_handler (Present (Some fh)) self, w')
    ∧ h_stream fh = FileStream (os_path_join dir name)
    ∧ fh ∈ handlers (ptyrad w')
    ∧ is_Some (files (fs w') !! os_path_join dir name)
    ∧ (dir ≠ EmptyString → ends_with_slash dir = false →
       os_path_join dir name = dir ++ "/" ++ name).
Proof.
  intros Hinit Hf Hj Hd dir name Hp.
  destruct (init_ok env cfg w0) as (w1' & H1 & _).
  rewrite H1 in Hinit. injection Hinit as <- <-.
  set (self := new_logger cfg (next_id w0)) in *.
  assert (Hname : prefixed_name env self (clock w) base = name).
  { unfold prefixed_name, self; simpl.
    by rewrite Hd, bool_decide_eq_true_2. }
  pose proof (flush_run env self dir_arg app_arg w base) as Hrun.
  simpl in Hrun. rewrite Hname in Hrun. fold dir in Hrun.
  rewrite Hrun; [|done|by unfold self; simpl; rewrite Hf|done].
  set (wf := flushed_world _ _ _ _ _).
  destruct (vprint1_shape env (flushed_notice (os_path_join dir name)) wf)
    as (wa & Ha & Sa).
  destruct (vprint1_shape env " " wa) as (wb & Hb & Sb).
  destruct (vprint1_grown _ _ _ _ Ha) as [_ Fa].
  destruct (vprint1_grown _ _ _ _ Hb) as [_ Fb].
  exists (new_file_handler self (os_path_join dir name) w), wb.
  unfold bind, ret. rewrite Ha, Hb.
  split; [done|]. split; [done|]. split; [|split].
  - destruct (same_shape_trans _ _ _ Sa Sb) as (-> & _).
    apply add_handler_elem.
  - destruct (grown_trans _ _ _ Fa Fb (os_path_join dir name)
                (files (fs wf) !!! os_path_join dir name)) as (extra & ->).
    + unfold wf, flushed_world; simpl.
      rewrite lookup_total_insert_eq. apply lookup_insert_eq.
    + by eexists.
  - intros Hne He. apply os_path_join_plain; [done..|].
    apply strftime_Ymd_no_slash.
Qed.

Lemma flush_path_date_first_witness :
  ∃ w1 fh w',
    init sample_env config_job7 fresh_world
    = Ok (new_logger config_job7 0, w1)
    ∧ flush_to_file sample_env (new_logger config_job7 0) None None w1
      = Ok (set_file_handler (Present (Some fh)) (new_logger config_job7 0),
            w')
    ∧ h_stream fh = FileStream "logs/20240131_07_output.log".
Proof.
  eexists.
  assert (Hinit : init sample_env config_job7 fresh_world
                  = Ok (new_logger config_job7 0, _))
    by (vm_compute; reflexivity).
  match type of Hinit with
  | _ = Ok (_, ?w1) =>
      destruct (flush_path_date_first sample_env config_job7 fresh_world _ w1
                  "output.log" None None w1 Hinit eq_refl)
        as (fh & w' & Hflush & Hstream & _)
  end.
  - discriminate.
  - reflexivity.
  - intros f. split; [reflexivity | intros m; reflexivity].
  - exists fh, w'. split; [exact Hinit | split; [exact Hflush|]].
    rewrite Hstream. by vm_compute.
Defined.

(** C3 as stated fails on the order: with job id 7 on 31 January 2024, the
    file of the default configuration is
    [logs/20240131_07_output.log]; the path of the claim,
    [logs/07_20240131_output.log], is not the handler's and is not
    created. *)
Lemma flush_path_jobid_not_leftmost :
  ∃ self w self' w' fh,
    init sample_env config_job7 fresh_world = Ok (self, w)
    ∧ flush_to_file sample_env self None None w = Ok (self', w')
    ∧ file_handler self' = Present (Some fh)
    ∧ h_stream fh = FileStream "logs/20240131_07_output.log"
    ∧ h_stream fh
      ≠ FileStream ("logs" ++ "/" ++ zfill 2 (pretty 7) ++ "_"
                    ++ strftime_Ymd (Date 2024 1 31) ++ "_" ++ "output.log")
    ∧ files (fs w') !! "logs/07_20240131_output.log" = None.
Proof.
  eexists _, _, _, _, _.
  split; [vm_compute; reflexivity|].
  split; [vm_compute; reflexivity|].
  split; [vm_compute; reflexivity|].
  split; [by vm_compute|].
  split; [vm_compute; intros [=] | by vm_compute].
Qed.

(** ** From the buffer to the file *)

Lemma two_notices_run {A} (env : Env) (m1 m2 : string) (a : A) (w : World) :
  (vprint1 env m1 >> vprint1 env m2 >> ret a) w
  = match vprint_all env [m1; m2] w with
    | Ok (_, w') => Ok (a, w')
    | Raise e => Raise e
    end.
Proof.
  rewrite !vprint_all_cons. unfold bind, ret.
  destruct (vprint1 env m1 w) as [[[] w1]|]; [|done].
  destruct (vprint1 env m2 w1) as [[[] w2]|]; [|done].
  reflexivity.
Qed.

Lemma fs_eq (f1 f2 : FS) :
  dirs f1 = dirs f2 → (∀ p, files f1 !! p = files f2 !! p) → f1 = f2.
Proof.
  destruct f1, f2; simpl. intros -> Hf. f_equal. by apply map_eq.
Qed.

(** C4, as the code has it. A logger is constructed with a log file [base]
    in a process whose root logger has console handlers only; [msgs] are
    logged; the buffer is flushed; [msg] is logged. Then: before the flush
    the buffer holds, in order, the lines of the notices the constructor
    printed (none where [vprint] is silent) and then the lines of [msgs],
    and the file system is as it was; after the flush the file holds what
    it held before (in append mode; nothing in truncate mode), then those
    lines, then the lines of the two notices of the flush, and the buffer
    holds the lines of these two notices only; and the line of [msg] comes
    at the end of the file with no further flush. *)
Theorem buffer_then_file (env : Env) (cfg : config) (w0 : World)
    (base : string) (msgs : list string) (dir_arg : option string)
    (app_arg : option bool) (msg : string) :
  cfg_log_file cfg = Some base →
  console_only (handlers (root w0)) = true →
  let self := new_logger cfg (next_id w0) in
  let ts := cfg_show_timestamp cfg in
  let before := (shown w0 (init_notices env self) ++ msgs)%list in
  let t_flush := (clock w0 + List.length before)%nat in
  let dir := effective_dir self dir_arg in
  let path := os_path_join dir (prefixed_name env self t_flush base) in
  let append := default (cfg_append_to_file cfg) app_arg in
  let prior :=
    if append then default EmptyString (files (fs w0) !! path)
    else EmptyString in
  let t_notice := if cfg_prefix_date cfg then S t_flush else t_flush in
  let notices := shown w0 [flushed_notice path; " "] in
  permits env dir path →
  ∃ w1 w2 self' w3 w4,
    init env cfg w0 = Ok (self, w1)
    ∧ log_all env msgs w1 = Ok (tt, w2)
    ∧ buffers w2 !! log_buffer self
      = Some (rendered env ts (clock w0) before)
    ∧ fs w2 = fs w0
    ∧ flush_to_file env self dir_arg app_arg w2 = Ok (self', w3)
    ∧ files (fs w3) !! path
      = Some (prior ++ rendered env ts (clock w0) before
              ++ rendered env ts t_notice notices)
    ∧ buffers w3 !! log_buffer self = Some (rendered env ts t_notice notices)
    ∧ logger_info env msg no_opts w3 = Ok (tt, w4)
    ∧ files (fs w4) !! path
      = Some (prior ++ rendered env ts (clock w0) before
              ++ rendered env ts t_notice notices
              ++ format_record env ts (t_notice + List.length notices) msg
              ++ nl).
Proof.
  intros Hf Hroot self ts before t_flush dir path append prior t_notice
    notices Hp.
  set (n := next_id w0) in *.
  set (aw := attached_world cfg w0).
  (* the constructor *)
  destruct (vprint_all_run env (init_notices env self) aw)
    as (w1 & Hinit & S1 & C1 & B1 & F1); [done|done|].
  assert (Hshown : ∀ l, shown aw l = shown w0 l) by done.
  assert (Hraw : reached aw
                 = ([Handler n Stderr INFO ts;
                     Handler (S (S n)) (Buffer (S n)) INFO ts]
                    ++ handlers (root w0))%list) by done.
  rewrite Hshown in C1.
  (* the records *)
  destruct (log_all_run env msgs w1) as (w2 & Hlog & S2 & C2 & B2 & F2).
  { destruct S1 as (-> & _). done. }
  assert (Hrw1 : reached w1 = reached aw).
  { unfold reached. destruct S1 as (-> & -> & _). done. }
  assert (S12 : same_shape aw w2) by (by eapply same_shape_trans).
  assert (Hbuf2 : buffers w2 !! S n = Some (rendered env ts (clock w0) before)).
  { rewrite B2, B1, Hrw1, Hraw, Hshown, C1.
    rewrite !(transcript_rendered env _ _ ts)
      by (intros; by apply written_buffer_unflushed).
    unfold aw, attached_world; simpl. rewrite lookup_insert_eq. simpl.
    unfold before. by rewrite rendered_app. }
  assert (Hfs2 : fs w2 = fs w0).
  { apply fs_eq.
    - destruct S12 as (_ & _ & _ & _ & -> & _). done.
    - intros p. rewrite F2, F1, Hrw1, Hraw.
      rewrite !transcript_silent
        by (intros; by apply written_file_unflushed).
      by rewrite !fmap_app_nil. }
  assert (Hc2 : clock w2 = t_flush).
  { rewrite C2, C1. unfold t_flush, before. rewrite length_app.
    simpl. lia. }
  (* the flush *)
  pose proof (flush_run env self dir_arg app_arg w2 base) as Hrun.
  simpl in Hrun. rewrite Hc2 in Hrun. fold dir path in Hrun.
  specialize (Hrun Hf).
  rewrite bool_decide_eq_true_2 in Hrun by (rewrite Hf; by eexists).
  specialize (Hrun eq_refl Hp).
  rewrite two_notices_run in Hrun. fold append in Hrun.
  set (fh := new_file_handler self path w2) in *.
  set (wf := flushed_world self dir path append w2) in *.
  assert (Hpw2 : ptyrad w2
                 = Logger INFO [Handler n Stderr INFO ts;
                                Handler (S (S n)) (Buffer (S n)) INFO ts]).
  { destruct S12 as (-> & _). done. }
  assert (Hpwf : ptyrad wf
                 = Logger INFO [Handler n Stderr INFO ts;
                                Handler (S (S n)) (Buffer (S n)) INFO ts; fh]).
  { unfold wf, flushed_world; simpl. rewrite Hpw2.
    unfold add_handler; simpl. rewrite bool_decide_eq_false_2; [done|].
    intros Hin. apply elem_of_cons in Hin as [[=]|Hin].
    apply list_elem_of_singleton in Hin. discriminate Hin. }
  destruct (vprint_all_run env [flushed_notice path; " "] wf)
    as (w3 & Hnot & S3 & C3 & B3 & F3).
  { by rewrite Hpwf. }
  { by rewrite Hpwf. }
  rewrite Hnot in Hrun.
  assert (Hshown3 : ∀ l, shown wf l = shown w0 l).
  { intros l. unfold shown, vprint_on, wf, flushed_world; simpl.
    destruct S12 as (_ & _ & -> & _). done. }
  assert (Hrwf : reached wf
                 = ([Handler n Stderr INFO ts;
                     Handler (S (S n)) (Buffer (S n)) INFO ts; fh]
                    ++ handlers (root w0))%list).
  { unfold reached. rewrite Hpwf. simpl.
    destruct S12 as (_ & -> & _). done. }
  assert (Hcwf : clock wf = t_notice).
  { unfold wf, flushed_world, t_notice; simpl. by rewrite Hc2. }
  rewrite Hshown3 in C3. fold notices in C3.
  assert (Hfile3 : files (fs w3) !! path
                   = Some (prior ++ rendered env ts (clock w0) before
                           ++ rendered env ts t_notice notices)).
  { rewrite F3, Hrwf, Hshown3, Hcwf. fold notices.
    rewrite (transcript_rendered env _ _ ts)
      by (intros; by apply written_file_flushed).
    unfold wf, flushed_world; simpl. rewrite lookup_insert_eq. simpl.
    rewrite Hbuf2, Hfs2. simpl. by rewrite string_app_assoc. }
  assert (Hbuf3 : buffers w3 !! S n
                  = Some (rendered env ts t_notice notices)).
  { rewrite B3, Hrwf, Hshown3, Hcwf. fold notices.
    rewrite (transcript_rendered env _ _ ts)
      by (intros; by apply written_buffer_flushed).
    unfold wf, flushed_world; simpl. rewrite lookup_alter.
    rewrite decide_True by done. by rewrite Hbuf2. }
  (* one more record *)
  assert (Hl3 : level (ptyrad w3) = INFO).
  { destruct S3 as (-> & _). by rewrite Hpwf. }
  assert (Hrw3 : reached w3 = reached wf).
  { unfold reached. destruct S3 as (-> & -> & _). done. }
  exists w1, w2, (set_file_handler (Present (Some fh)) self), w3,
    (call_handlers env INFO (clock w3) msg (set_clock (S (clock w3)) w3)).
  split.
  { rewrite init_run. fold n. fold self. fold aw. by rewrite Hinit. }
  split; [done|]. split; [done|]. split; [done|]. split; [done|].
  split; [done|]. split; [done|].
  split; [by apply logger_info_enabled|].
  assert (Hw : written env (FileStream path) INFO (clock w3) msg (reached w3)
               = format_record env ts (clock w3) msg ++ nl).
  { rewrite Hrw3, Hrwf. by apply written_file_flushed. }
  rewrite call_handlers_file.
  change (files (fs (set_clock (S (clock w3)) w3))) with (files (fs w3)).
  change (handlers (ptyrad (set_clock (S (clock w3)) w3))
          ++ handlers (root (set_clock (S (clock w3)) w3)))%list
    with (reached w3).
  change (clock (set_clock (S (clock w3)) w3)) with (S (clock w3)).
  rewrite Hfile3. cbn [fmap option_fmap option_map].
  rewrite Hw, C3, Hcwf. by rewrite !string_app_assoc.
Qed.

Lemma buffer_then_file_witness :
  ∃ w1 w2 self' w3 w4,
    init sample_env config_job7 fresh_world
    = Ok (new_logger config_job7 0, w1)
    ∧ log_all sample_env ["hello"] w1 = Ok (tt, w2)
    ∧ fs w2 = fs fresh_world
    ∧ flush_to_file sample_env (new_logger config_job7 0) None None w2
      = Ok (self', w3)
    ∧ logger_info sample_env "after" no_opts w3 = Ok (tt, w4)
    ∧ is_Some (files (fs w4) !! "logs/20240131_07_output.log").
Proof.
  destruct (buffer_then_file sample_env config_job7 fresh_world "output.log"
              ["hello"] None None "after" eq_refl eq_refl)
    as (w1 & w2 & self' & w3 & w4 & H1 & H2 & _ & H4 & H5 & _ & _ & H8 & H9).
  - intros f. split; [reflexivity | intros m; reflexivity].
  - exists w1, w2, self', w3, w4.
    repeat (split; [assumption|]).
    eexists. exact H9.
Defined.

(** C4 as stated fails on the buffer. With job id 7, no timestamps and the
    one record ["hello"], the buffer before
    the flush is not that one line: the lines the constructor printed come
    first. And after the flush the buffer is not empty: it holds the two
    notices of the flush. *)
Lemma buffer_holds_notices :
  ∃ self w1 w2 self' w3,
    init sample_env config_job7 fresh_world = Ok (self, w1)
    ∧ log_all sample_env ["hello"] w1 = Ok (tt, w2)
    ∧ buffers w2 !! log_buffer self ≠ Some ("hello" ++ nl)
    ∧ fs w2 = fs fresh_world
    ∧ flush_to_file sample_env self None None w2 = Ok (self', w3)
    ∧ buffers w3 !! log_buffer self
      = Some ("### Log file is flushed (created) as logs/20240131_07_output.log ###"
              ++ nl ++ " " ++ nl)
    ∧ buffers w3 !! log_buffer self ≠ Some EmptyString.
Proof.
  eexists _, _, _, _, _.
  split; [vm_compute; reflexivity|].
  split; [vm_compute; reflexivity|].
  split; [vm_compute; intros [=]|].
  split; [by vm_compute|].
  split; [vm_compute; reflexivity|].
  split; [by vm_compute | vm_compute; intros [=]].
Qed.

(** ** [parse_hypertune_params_to_str] *)

Lemma hypertune_entry_text (env : Env) (key : string) (v : value) :
  formattable (key, v) = true →
  hypertune_entry env key v = Ok (entry_text env (key, v)).
Proof.
  unfold formattable, hypertune_entry, entry_text, ends_in_lr, is_numeric,
    py_format, float_or_zero; simpl.
  destruct (String.eqb (lower (last_two key)) "lr"); simpl.
  - destruct (to_float v); [done | discriminate].
  - destruct (bool_decide (is_Some (as_number v))); [|done].
    destruct (to_float v); [done | discriminate].
Qed.

Lemma hypertune_loop_concat (env : Env) (items : list (string * value)) :
  forallb formattable items = true →
  ∀ acc, hypertune_loop env items acc
         = Ok (acc ++ String.concat EmptyString (map (entry_text env) items)).
Proof.
  induction items as [|[key v] items IH]; intros Hall acc.
  - simpl. by rewrite string_app_nil_r.
  - simpl in Hall. apply andb_true_iff in Hall as [Hkv Hall].
    cbn [hypertune_loop]. rewrite (hypertune_entry_text env key v Hkv).
    cbn [result_bind]. rewrite (IH Hall). f_equal.
    rewrite string_app_assoc. f_equal.
    destruct items; [by rewrite string_app_nil_r | reflexivity].
Qed.

(** C8, as the code has it. For every mapping in which each value under a
    name ending case-insensitively in "lr", and each other number, converts
    to [float], the result is the concatenation, in iteration order, of
    ["_<name>_<text>"], where the text is the value in scientific notation
    with one decimal digit under a name ending in "lr", the number to
    three significant digits otherwise, and [str] of any other value; and
    [{"lr": 0.0001, "batch": 32}] gives ["_lr_1.0e-04_batch_32"]. *)
Theorem hypertune_label (env : Env) (items : list (string * value)) :
  (forallb formattable items = true →
   parse_hypertune_params_to_str env (VDict items)
   = Ok (String.concat EmptyString (map (entry_text env) items)))
  ∧ parse_hypertune_params_to_str env params_lr_batch
    = Ok "_lr_1.0e-04_batch_32".
Proof.
  split; [|by vm_compute].
  intros Hall. unfold parse_hypertune_params_to_str.
  by rewrite (hypertune_loop_concat env items Hall).
Qed.

Lemma hypertune_label_witness :
  parse_hypertune_params_to_str sample_env
    (VDict [("LR", VInt 123456); ("opt", VStr "adam"); ("n", VInt 1234)])
  = Ok "_LR_1.2e+05_opt_adam_n_1.23e+03".
Proof.
  rewrite (proj1 (hypertune_label sample_env _)) by (by vm_compute).
  by vm_compute.
Defined.

(** C8 as stated fails where a value under a name ending in "lr" is not a
    number: for [{"lr": "cosine"}] no text is returned, the format code [e]
    is refused with a [ValueError]. *)
Lemma hypertune_label_text_under_lr :
  parse_hypertune_params_to_str sample_env params_lr_text = Raise ValueError
  ∧ ∀ text, parse_hypertune_params_to_str sample_env params_lr_text ≠ Ok text.
Proof. split; [by vm_compute | intros text; by vm_compute]. Qed.
Lemma round_half_even_exact (q d : Z) : 0 < d → round_half_even (q * d) d = q.
Proof.
  intros Hd. unfold round_half_even.
  rewrite Z.div_mul, Z.mod_mul by lia.
  rewrite (proj2 (Z.ltb_lt _ _)) by lia. reflexivity.
Qed.

Lemma round_half_even_scale (c n d : Z) :
  0 < c → 0 < d → round_half_even (c * n) (c * d) = round_half_even n d.
Proof.
  intros Hc Hd. unfold round_half_even.
  rewrite Z.div_mul_cancel_l by lia.
  rewrite Z.mul_mod_distr_l by lia.
  assert (H1 : (2 * (c * (n mod d)) <? c * d) = (2 * (n mod d) <? d)).
  { destruct (Z.ltb_spec (2 * (n mod d)) d),
      (Z.ltb_spec (2 * (c * (n mod d))) (c * d)); try reflexivity; nia. }
  assert (H2 : (c * d <? 2 * (c * (n mod d))) = (d <? 2 * (n mod d))).
  { destruct (Z.ltb_spec d (2 * (n mod d))),
      (Z.ltb_spec (c * d) (2 * (c * (n mod d)))); try reflexivity; nia. }
  by rewrite H1, H2.
Qed.

Lemma pow2_pos (e : Z) : 0 ≤ e → 0 < 2 ^ e.
Proof. intros. apply Z.pow_pos_nonneg; lia. Qed.

Lemma scaled_exact (n d s V e : Z) :
  0 < d → e ≤ - s →
  n * 2 ^ Z.max s 0 = V * d * 2 ^ Z.max (- s) 0 →
  fst (scaled n d e) = V * 2 ^ (- s - e) * snd (scaled n d e)
  ∧ 0 < snd (scaled n d e).
Proof.
  intros Hd He Hn. unfold scaled.
  destruct (Z.leb_spec 0 e) as [H0e|He0]; simpl.
  - rewrite Z.max_r, Z.max_l in Hn by lia. simpl in Hn.
    rewrite Z.mul_1_r in Hn. pose proof (pow2_pos e H0e). split; [|nia].
    replace (- s) with ((- s - e) + e) in Hn by lia.
    rewrite Z.pow_add_r in Hn by lia. rewrite Hn. ring.
  - split; [|done].
    destruct (Z.le_gt_cases s 0) as [Hs|Hs].
    + rewrite Z.max_r, Z.max_l in Hn by lia. simpl in Hn.
      rewrite Z.mul_1_r in Hn. rewrite Hn.
      replace (- s - e) with ((- s) + (- e)) by lia.
      rewrite Z.pow_add_r by lia. ring.
    + rewrite Z.max_l, Z.max_r in Hn by lia. simpl in Hn.
      rewrite Z.mul_1_r in Hn.
      replace (- e) with ((- s - e) + s) by lia.
      rewrite Z.pow_add_r by lia.
      replace (n * (2 ^ (- s - e) * 2 ^ s)) with (n * 2 ^ s * 2 ^ (- s - e))
        by ring.
      rewrite Hn. ring.
Qed.

(** Rounding is exact on an integer below 2^53: the result is that integer
    over a power of two. *)
Lemma round_ratio_exact (n d s V : Z) :
  0 < d → 0 < V < 2 ^ 53 →
  n * 2 ^ Z.max s 0 = V * d * 2 ^ Z.max (- s) 0 →
  ∃ t, 0 ≤ t ∧ round_ratio n d s = Float (V * 2 ^ t) (- t).
Proof.
  intros Hd HV Hn.
  pose proof (pow2_pos (Z.max s 0) ltac:(lia)) as Hp1.
  pose proof (pow2_pos (Z.max (- s) 0) ltac:(lia)) as Hp2.
  assert (Hnpos : 0 < n) by nia.
  unfold round_ratio.
  rewrite (proj2 (Z.eqb_neq n 0)) by lia.
  rewrite (Z.abs_eq n) by lia.
  set (e0 := Z.log2 n - Z.log2 d - 53).
  assert (He0 : e0 ≤ - s).
  { assert (Hlog : Z.log2 (n * 2 ^ Z.max s 0) = Z.max s 0 + Z.log2 n)
      by (apply Z.log2_mul_pow2; lia).
    assert (Hlog2 : Z.log2 (V * d * 2 ^ Z.max (- s) 0)
                    = Z.max (- s) 0 + Z.log2 (V * d))
      by (apply Z.log2_mul_pow2; nia).
    pose proof (Z.log2_mul_above V d ltac:(lia) ltac:(lia)) as Hmul.
    assert (HV52 : Z.log2 V < 53) by (apply Z.log2_lt_pow2; lia).
    rewrite Hn, Hlog2 in Hlog. unfold e0. lia. }
  set (e1 := if 2 ^ 53 * snd (scaled n d e0) <=? Z.abs (fst (scaled n d e0))
             then e0 + 1 else e0).
  assert (He1 : e1 ≤ - s).
  { unfold e1. destruct (Z.leb_spec (2 ^ 53 * snd (scaled n d e0))
                           (Z.abs (fst (scaled n d e0)))) as [Hc|Hc]; [|lia].
    destruct (Z.eq_dec e0 (- s)) as [Heq|]; [|lia].
    exfalso. destruct (scaled_exact n d s V e0 Hd He0 Hn) as [Hf Hs].
    rewrite Hf in Hc. replace (- s - e0) with 0 in Hc by lia.
    rewrite Z.abs_eq in Hc by nia. simpl in Hc. nia. }
  cbv zeta. fold e1.
  set (e := Z.max e1 (- 1074 - s)).
  assert (He : e ≤ - s) by (unfold e; lia).
  destruct (scaled_exact n d s V e Hd He Hn) as [Hf Hs].
  rewrite Hf, round_half_even_exact by done.
  exists (- s - e). split; [lia|]. f_equal. lia.
Qed.

Lemma round_half_even_cross (a d a' d' : Z) :
  0 < d → 0 < d' → a * d' = a' * d →
  round_half_even a d = round_half_even a' d'.
Proof.
  intros Hd Hd' H.
  rewrite <-(round_half_even_scale d' a d), <-(round_half_even_scale d a' d')
    by done.
  f_equal; lia.
Qed.

Lemma div_cross (a d a' d' k : Z) :
  0 < d → 0 < d' → 0 < k → a * d' = a' * d →
  a / (d * k) = a' / (d' * k).
Proof.
  intros Hd Hd' Hk H.
  rewrite <-(Z.div_mul_cancel_r a (d * k) d'),
    <-(Z.div_mul_cancel_r a' (d' * k) d) by nia.
  f_equal; lia.
Qed.

Lemma mod_cross (a d a' d' k : Z) :
  0 < d → 0 < d' → 0 < k → a * d' = a' * d →
  (a mod (d * k)) * d' = (a' mod (d' * k)) * d.
Proof.
  intros Hd Hd' Hk H.
  rewrite <-!Z.mul_mod_distr_r by nia.
  f_equal; lia.
Qed.

Lemma round_half_even_nonneg (n d : Z) :
  0 ≤ n → 0 < d → 0 ≤ round_half_even n d.
Proof.
  intros Hn Hd. unfold round_half_even.
  pose proof (Z.div_pos n d Hn Hd).
  repeat case_match; lia.
Qed.

Lemma round_half_even_le (n d c : Z) :
  0 < d → n ≤ c * d → round_half_even n d ≤ c.
Proof.
  intros Hd Hn. unfold round_half_even.
  pose proof (Z.div_mod n d ltac:(lia)) as Hdm.
  pose proof (Z.mod_pos_bound n d Hd) as Hm.
  destruct (Z.ltb_spec (2 * (n mod d)) d); [nia|].
  destruct (Z.ltb_spec d (2 * (n mod d))); [nia|].
  destruct (Z.even (n / d)); nia.
Qed.

(** The quotient [n / d] over [2 ^ e] shrinks as [e] grows. *)
Lemma scaled_bound_mono (n d e e' c : Z) :
  0 ≤ n → 0 < d → e ≤ e' → 0 ≤ c →
  fst (scaled n d e) ≤ c * snd (scaled n d e) →
  fst (scaled n d e') ≤ c * snd (scaled n d e')
  ∧ 0 < snd (scaled n d e').
Proof.
  intros Hn Hd He Hc. unfold scaled.
  destruct (Z.leb_spec 0 e), (Z.leb_spec 0 e'); simpl; try lia.
  - pose proof (pow2_pos e ltac:(lia)). pose proof (pow2_pos (e' - e) ltac:(lia)).
    replace e' with (e + (e' - e)) at 1 2 by lia.
    rewrite Z.pow_add_r by lia. nia.
  - pose proof (pow2_pos (- e) ltac:(lia)). pose proof (pow2_pos e' ltac:(lia)).
    nia.
  - pose proof (pow2_pos (- e') ltac:(lia)).
    pose proof (pow2_pos (e' - e) ltac:(lia)).
    replace (- e) with ((- e') + (e' - e)) by lia.
    rewrite Z.pow_add_r by lia. nia.
Qed.

(** A rounded result is not negative when the fraction is not, and has a
    significand of 2^53 at most. *)
Lemma round_ratio_mant_bounds (n d s : Z) :
  0 ≤ n → 0 < d → 0 ≤ f_mant (round_ratio n d s) ≤ 2 ^ 53.
Proof.
  intros Hn Hd. unfold round_ratio.
  destruct (Z.eqb_spec n 0) as [->|Hn0]; [simpl; lia|].
  rewrite (Z.abs_eq n) by lia.
  set (e0 := Z.log2 n - Z.log2 d - 53).
  set (e1 := if 2 ^ 53 * snd (scaled n d e0) <=? Z.abs (fst (scaled n d e0))
             then e0 + 1 else e0).
  cbv zeta. fold e1. set (e := Z.max e1 (- 1074 - s)). simpl.
  assert (H54 : fst (scaled n d e0) ≤ 2 ^ 54 * snd (scaled n d e0)).
  { destruct (Z.log2_spec n ltac:(lia)) as [_ Hn2].
    destruct (Z.log2_spec d Hd) as [Hd1 _].
    pose proof (Z.log2_nonneg n). pose proof (Z.log2_nonneg d).
    unfold scaled. destruct (Z.leb_spec 0 e0); simpl.
    - assert (2 ^ Z.succ (Z.log2 n) = 2 ^ 54 * 2 ^ Z.log2 d * 2 ^ e0) as Heq.
      { rewrite <-!Z.pow_add_r by lia. f_equal. unfold e0. lia. }
      pose proof (pow2_pos e0 ltac:(lia)). nia.
    - assert (2 ^ Z.succ (Z.log2 n) * 2 ^ (- e0) = 2 ^ 54 * 2 ^ Z.log2 d)
        as Heq.
      { rewrite <-!Z.pow_add_r by lia. f_equal. unfold e0. lia. }
      pose proof (pow2_pos (- e0) ltac:(lia)). nia. }
  assert (H53 : fst (scaled n d e1) ≤ 2 ^ 53 * snd (scaled n d e1)).
  { unfold e1.
    destruct (Z.leb_spec (2 ^ 53 * snd (scaled n d e0))
                (Z.abs (fst (scaled n d e0)))) as [Hc|Hc].
    - clear Hc. revert H54. unfold scaled.
      destruct (Z.leb_spec 0 e0), (Z.leb_spec 0 (e0 + 1)); simpl; try lia.
      + rewrite Z.pow_add_r by lia. intros. change (2 ^ 54) with (2 ^ 53 * 2) in *.
        simpl (2 ^ 1). nia.
      + replace e0 with (-1) by lia. simpl (2 ^ _)%Z. intros. lia.
      + replace (- e0) with ((- (e0 + 1)) + 1) by lia.
        rewrite Z.pow_add_r by lia. intros. change (2 ^ 54) with (2 ^ 53 * 2) in *.
        simpl (2 ^ 1) in *. nia.
    - assert (0 ≤ fst (scaled n d e0)).
      { unfold scaled. destruct (0 <=? e0); simpl; [lia|].
        destruct (Z.le_gt_cases 0 (- e0)).
        - pose proof (pow2_pos (- e0) ltac:(lia)). nia.
        - rewrite Z.pow_neg_r by lia. lia. }
      rewrite Z.abs_eq in Hc by done. lia. }
  destruct (scaled_bound_mono n d e1 e (2 ^ 53) Hn Hd ltac:(unfold e; lia)
              ltac:(lia) H53) as [Hle Hpos].
  split.
  - apply round_half_even_nonneg; [|done].
    unfold scaled. destruct (0 <=? e); simpl; [lia|].
    destruct (Z.le_gt_cases 0 (- e)).
    + pose proof (pow2_pos (- e) ltac:(lia)). nia.
    + rewrite Z.pow_neg_r by lia. lia.
  - by apply round_half_even_le.
Qed.

(** ** Floats that stand for fractions *)

Lemma float_den_pos (x : float) : 0 < float_den x.
Proof.
  unfold float_den. destruct (0 <=? f_exp x) eqn:He; [lia|].
  apply pow2_pos. apply Z.leb_gt in He. lia.
Qed.

Lemma float_num_nonneg (x : float) : 0 ≤ f_mant x → 0 ≤ float_num x.
Proof.
  intros Hm. unfold float_num. destruct (0 <=? f_exp x) eqn:He; [|done].
  apply Z.leb_le in He. pose proof (pow2_pos _ He). nia.
Qed.

Lemma represents_self (x : float) :
  represents x (float_num x) (float_den x).
Proof. split; [apply float_den_pos | reflexivity]. Qed.

(** An integer over a power of two stands for the integer. *)
Lemma represents_int (V t : Z) :
  0 ≤ t → represents (Float (V * 2 ^ t) (- t)) V 1.
Proof.
  intros Ht. split; [lia|]. unfold float_num, float_den; simpl.
  destruct (Z.leb_spec 0 (- t)).
  - replace t with 0 by lia. simpl. lia.
  - rewrite Z.opp_involutive. lia.
Qed.

(** The floor of a quotient that is an integer already is that integer:
    the snap to the nearest integral value changes nothing. *)
Lemma snap_exact (Q u : Z) :
  0 ≤ Q → 0 ≤ u →
  let div := Float (Q * 2 ^ u) (- u) in
  let floordiv :=
    if negb (float_is_zero div) then
      let fl := float_floor div in
      if float_gt (float_sub div fl) float_half then float_add fl float_one
      else fl
    else Float 0 0 in
  py_int (NFloat floordiv) = Q ∧ py_gt0 (NFloat floordiv) = (0 <? Q).
Proof.
  intros HQ Hu div floordiv. unfold floordiv, div, float_is_zero; simpl.
  pose proof (pow2_pos u Hu) as Hpu.
  destruct (Z.eqb_spec (Q * 2 ^ u) 0) as [Hz|Hz]; simpl.
  { assert (Q = 0) as -> by nia. done. }
  assert (Hfl : float_floor (Float (Q * 2 ^ u) (- u))
                = if u =? 0 then Float (Q * 2 ^ u) (- u) else Float Q 0).
  { unfold float_floor; simpl.
    destruct (Z.eqb_spec u 0) as [->|Hu0]; [done|].
    rewrite (proj2 (Z.leb_gt 0 (- u))) by lia.
    by rewrite Z.opp_involutive, Z.div_mul by lia. }
  rewrite Hfl.
  assert (Hzero : float_sub (Float (Q * 2 ^ u) (- u))
                    (if u =? 0 then Float (Q * 2 ^ u) (- u) else Float Q 0)
                  = Float 0 0).
  { unfold float_sub, common_exp, mant_at.
    destruct (Z.eqb_spec u 0) as [->|Hu0]; simpl.
    - by rewrite Z.sub_diag.
    - rewrite Z.min_l by lia.
      replace (- u - - u) with 0 by lia.
      replace (0 - - u) with u by lia.
      by replace (Q * 2 ^ u * 2 ^ 0 - Q * 2 ^ u) with 0 by (simpl; lia). }
  rewrite Hzero.
  change (float_gt (Float 0 0) float_half) with false; cbv iota.
  destruct (Z.eqb_spec u 0) as [->|Hu0]; simpl; rewrite ?Z.mul_1_r.
  - by split.
  - split; [lia | done].
Qed.

(** The floor quotient, snapped, is an integer that is not negative: it is
    positive exactly when its integer part is. *)
Lemma snap_integral (div : float) :
  0 ≤ f_mant div ≤ 2 ^ 53 →
  let floordiv :=
    if negb (float_is_zero div) then
      let fl := float_floor div in
      if float_gt (float_sub div fl) float_half then float_add fl float_one
      else fl
    else Float 0 0 in
  0 ≤ py_int (NFloat floordiv)
  ∧ py_gt0 (NFloat floordiv) = (0 <? py_int (NFloat floordiv)).
Proof.
  intros Hm floordiv. unfold floordiv.
  destruct (negb (float_is_zero div)); [|by simpl].
  destruct div as [m e]. simpl in Hm. unfold float_floor. simpl.
  destruct (Z.leb_spec 0 e) as [He|He].
  - (* an integer already *)
    assert (Hzero : float_sub (Float m e) (Float m e) = Float 0 0).
    { unfold float_sub. by rewrite Z.sub_diag. }
    rewrite Hzero. change (float_gt (Float 0 0) float_half) with false.
    cbv iota. simpl. rewrite (proj2 (Z.leb_le 0 e)) by done.
    pose proof (pow2_pos e He). split; [nia|].
    destruct (Z.ltb_spec 0 m), (Z.ltb_spec 0 (m * 2 ^ e)); try done; nia.
  - (* a fraction: the floor has exponent 0 *)
    set (F := m / 2 ^ (- e)).
    pose proof (pow2_pos (- e) ltac:(lia)) as Hp.
    assert (HF : 0 ≤ F ≤ 2 ^ 52).
    { unfold F. split; [apply Z.div_pos; lia|].
      apply Z.div_le_upper_bound; [lia|].
      assert (2 ^ 1 ≤ 2 ^ (- e)) by (apply Z.pow_le_mono_r; lia).
      change (2 ^ 53) with (2 ^ 1 * 2 ^ 52) in Hm. nia. }
    destruct (float_gt _ float_half).
    + unfold float_add, common_exp, mant_at; simpl.
      change (Z.min 0 0) with 0. change (0 - 0) with 0.
      change (2 ^ 0) with 1.
      destruct (round_ratio_exact (F * 1 + 1 * 1) 1 0 (F + 1))
        as (t & Ht & ->);
        [lia | lia
         | change (Z.max 0 0) with 0; change (Z.max (- 0) 0) with 0;
           change (2 ^ 0) with 1; lia |].
      pose proof (pow2_pos t Ht) as Hpt. simpl.
      destruct (Z.leb_spec 0 (- t)).
      * replace t with 0 by lia. simpl. split; [lia|].
        destruct (Z.ltb_spec 0 ((F + 1) * 1)); lia.
      * rewrite Z.opp_involutive, Z.quot_mul by lia. split; [lia|].
        destruct (Z.ltb_spec 0 ((F + 1) * 2 ^ t)), (Z.ltb_spec 0 (F + 1));
          try done; nia.
    + simpl. split; [lia|].
      destruct (Z.ltb_spec 0 F), (Z.ltb_spec 0 (F * 1)); try done; lia.
Qed.

Section DivMod.
Variables (x : float) (k j : Z).
Hypothesis x_nonneg : 0 ≤ f_mant x.
Hypothesis k_pos : 0 < k.
Hypothesis j_nonneg : 0 ≤ j.

Let wx := Float (k * 2 ^ j) (- j).
Let s := common_exp x wx.
Let N := float_num x.
Let D := float_den x.

Lemma common_exp_nonpos : s ≤ 0 ∧ s ≤ f_exp x ∧ s ≤ - j.
Proof. unfold s, common_exp; simpl. lia. Qed.

Lemma mant_at_divisor : mant_at s wx = k * 2 ^ (- s).
Proof.
  destruct common_exp_nonpos as (H1 & H2 & H3).
  unfold mant_at; simpl.
  rewrite <-Z.mul_assoc, <-Z.pow_add_r by lia. do 2 f_equal; lia.
Qed.

Lemma mant_at_dividend : mant_at s x * D = N * 2 ^ (- s).
Proof.
  destruct common_exp_nonpos as (H1 & H2 & H3).
  unfold mant_at, D, N, float_den, float_num.
  destruct (Z.leb_spec 0 (f_exp x)).
  - rewrite Z.mul_1_r, <-Z.mul_assoc, <-Z.pow_add_r by lia.
    do 2 f_equal; lia.
  - rewrite <-Z.mul_assoc, <-Z.pow_add_r by lia. do 2 f_equal; lia.
Qed.

Lemma mant_at_dividend_nonneg : 0 ≤ mant_at s x.
Proof.
  destruct common_exp_nonpos as (H1 & H2 & H3).
  unfold mant_at. pose proof (pow2_pos (f_exp x - s) ltac:(lia)). nia.
Qed.

(** The quotient and the remainder of the mantissas are those of the
    value. *)
Lemma mant_quotient : mant_at s x / mant_at s wx = N / (D * k).
Proof.
  destruct common_exp_nonpos as (H1 & H2 & H3).
  pose proof (pow2_pos (- s) ltac:(lia)) as Hc.
  pose proof (float_den_pos x) as HD. fold D in HD.
  rewrite mant_at_divisor.
  rewrite <-(Z.div_mul_cancel_r (mant_at s x) (k * 2 ^ (- s)) D) by nia.
  rewrite mant_at_dividend.
  rewrite <-(Z.div_mul_cancel_r N (D * k) (2 ^ (- s))) by nia.
  f_equal; lia.
Qed.

Lemma mant_remainder :
  (mant_at s x mod mant_at s wx) * D = (N mod (D * k)) * 2 ^ (- s).
Proof.
  destruct common_exp_nonpos as (H1 & H2 & H3).
  pose proof (pow2_pos (- s) ltac:(lia)) as Hc.
  pose proof (float_den_pos x) as HD. fold D in HD.
  rewrite mant_at_divisor.
  rewrite <-!Z.mul_mod_distr_r by nia.
  rewrite mant_at_dividend. f_equal; lia.
Qed.

Lemma fmod_value :
  fmod x wx = Float (mant_at s x mod mant_at s wx) s.
Proof.
  unfold fmod. fold s. f_equal.
  apply Z.rem_mod_nonneg; [apply mant_at_dividend_nonneg|].
  rewrite mant_at_divisor. destruct common_exp_nonpos.
  pose proof (pow2_pos (- s) ltac:(lia)). nia.
Qed.

Lemma fmod_represents :
  represents (fmod x wx) (N mod (D * k)) D
  ∧ 0 ≤ f_mant (fmod x wx).
Proof.
  destruct common_exp_nonpos as (H1 & H2 & H3).
  pose proof (pow2_pos (- s) ltac:(lia)) as Hc.
  rewrite fmod_value. split.
  - split; [apply float_den_pos|].
    unfold float_num, float_den; simpl.
    destruct (Z.leb_spec 0 s).
    + pose proof mant_remainder as Hr.
      replace s with 0 in * by lia. simpl in *. lia.
    + rewrite mant_remainder. reflexivity.
  - simpl. apply Z.mod_pos_bound. rewrite mant_at_divisor. nia.
Qed.

Lemma wx_not_neg : float_is_neg wx = false.
Proof.
  unfold float_is_neg; simpl. apply Z.ltb_ge.
  pose proof (pow2_pos j j_nonneg). nia.
Qed.

Lemma fmod_not_neg : float_is_neg (fmod x wx) = false.
Proof.
  unfold float_is_neg. apply Z.ltb_ge. apply fmod_represents.
Qed.

(** [x % k]: the exact remainder. *)
Lemma float_rem_represents :
  represents (float_rem x wx) (N mod (D * k)) D
  ∧ 0 ≤ f_mant (float_rem x wx).
Proof.
  unfold float_rem. rewrite wx_not_neg, fmod_not_neg. simpl.
  destruct (float_is_zero (fmod x wx)) eqn:Hz; simpl.
  - split; [|simpl; lia]. split; [apply float_den_pos|].
    unfold float_is_zero in Hz. rewrite fmod_value in Hz. simpl in Hz.
    apply Z.eqb_eq in Hz. pose proof mant_remainder as Hr.
    rewrite Hz in Hr. destruct common_exp_nonpos as (H1 & _).
    pose proof (pow2_pos (- s) ltac:(lia)).
    assert (N mod (D * k) = 0) as -> by nia.
    unfold float_num, float_den; simpl. lia.
  - apply fmod_represents.
Qed.

(** [x // k] is an integer that is not negative, whatever the size of
    [x]. *)
Lemma float_div_mod_integral :
  0 ≤ py_int (NFloat (fst (float_div_mod x wx)))
  ∧ py_gt0 (NFloat (fst (float_div_mod x wx)))
    = (0 <? py_int (NFloat (fst (float_div_mod x wx)))).
Proof.
  destruct common_exp_nonpos as (H1 & H2 & H3).
  pose proof (pow2_pos j j_nonneg) as Hj.
  assert (Hdiv : 0 ≤ f_mant (float_div (float_sub x (fmod x wx)) wx)
                 ≤ 2 ^ 53).
  { unfold float_div. simpl.
    rewrite (proj2 (Z.ltb_ge (k * 2 ^ j) 0)) by nia.
    apply round_ratio_mant_bounds; [|nia].
    unfold float_sub. apply round_ratio_mant_bounds; [|lia].
    rewrite fmod_value.
    assert (Hce : common_exp x (Float (mant_at s x mod mant_at s wx) s) = s)
      by (unfold common_exp; simpl; lia).
    rewrite Hce.
    replace (mant_at s (Float (mant_at s x mod mant_at s wx) s))
      with (mant_at s x mod mant_at s wx)
      by (unfold mant_at; simpl; rewrite Z.sub_diag; simpl; lia).
    pose proof mant_at_dividend_nonneg as HX.
    pose proof (Z.mod_le (mant_at s x) (mant_at s wx) HX) as Hle.
    rewrite mant_at_divisor in *.
    pose proof (pow2_pos (- s) ltac:(lia)). specialize (Hle ltac:(nia)).
    lia. }
  unfold float_div_mod. rewrite wx_not_neg, fmod_not_neg. simpl.
  destruct (negb (float_is_zero (fmod x wx))); simpl;
    apply (snap_integral _ Hdiv).
Qed.

Hypothesis quotient_small : k * (N / (D * k)) < 2 ^ 53.

Let Q := N / (D * k).

Lemma quotient_nonneg : 0 ≤ Q.
Proof.
  unfold Q. apply Z.div_pos; [apply float_num_nonneg; done|].
  pose proof (float_den_pos x). fold D in H. nia.
Qed.

(** [x - fmod(x, k)], then the division by [k]: both exact. *)
Lemma quotient_before_floor :
  ∃ u, 0 ≤ u
    ∧ float_div (float_sub x (fmod x wx)) wx = Float (Q * 2 ^ u) (- u).
Proof.
  destruct common_exp_nonpos as (H1 & H2 & H3).
  pose proof (pow2_pos (- s) ltac:(lia)) as Hc.
  pose proof (pow2_pos j j_nonneg) as Hj.
  pose proof quotient_nonneg as HQ.
  assert (Hsub : mant_at s x - mant_at s x mod mant_at s wx
                 = k * Q * 2 ^ (- s)).
  { unfold Q. rewrite <-mant_quotient.
    pose proof (Z.div_mod (mant_at s x) (mant_at s wx)) as Hdm.
    rewrite mant_at_divisor in *. specialize (Hdm ltac:(nia)). lia. }
  unfold float_sub. rewrite fmod_value.
  assert (Hce : common_exp x (Float (mant_at s x mod mant_at s wx) s) = s).
  { unfold common_exp; simpl. lia. }
  rewrite Hce.
  replace (mant_at s (Float (mant_at s x mod mant_at s wx) s))
    with (mant_at s x mod mant_at s wx)
    by (unfold mant_at; simpl; rewrite Z.sub_diag; simpl; lia).
  rewrite Hsub.
  destruct (Z.eq_dec Q 0) as [HQ0|HQ0].
  - exists 0. split; [lia|]. rewrite HQ0. simpl.
    rewrite Z.mul_0_r. simpl. unfold float_div; simpl.
    destruct (k * 2 ^ j <? 0); reflexivity.
  - destruct (round_ratio_exact (k * Q * 2 ^ (- s)) 1 s (k * Q))
      as (t & Ht & ->); [lia|unfold Q in *; nia| |].
    { rewrite Z.max_r, Z.max_l by lia. simpl. lia. }
    unfold float_div. simpl.
    rewrite (proj2 (Z.ltb_ge (k * 2 ^ j) 0)) by nia.
    destruct (round_ratio_exact (k * Q * 2 ^ t) (k * 2 ^ j) (- t - - j) Q)
      as (u & Hu & ->); [nia|unfold Q in *; nia| |by exists u].
    pose proof (pow2_pos t Ht).
    destruct (Z.le_gt_cases t j).
    + rewrite Z.max_l, Z.max_r by lia. simpl.
      replace (- t - - j) with (j - t) by lia.
      replace (2 ^ j) with (2 ^ t * 2 ^ (j - t))
        by (rewrite <-Z.pow_add_r by lia; f_equal; lia).
      ring.
    + rewrite Z.max_r, Z.max_l by lia. simpl.
      replace (- (- t - - j)) with (t - j) by lia.
      replace (2 ^ t) with (2 ^ j * 2 ^ (t - j))
        by (rewrite <-Z.pow_add_r by lia; f_equal; lia).
      ring.
Qed.

(** [x // k]: the exact quotient. *)
Lemma float_div_mod_exact :
  py_int (NFloat (fst (float_div_mod x wx))) = Q
  ∧ py_gt0 (NFloat (fst (float_div_mod x wx))) = (0 <? Q).
Proof.
  destruct quotient_before_floor as (u & Hu & Hdiv).
  unfold float_div_mod. rewrite Hdiv, wx_not_neg, fmod_not_neg. simpl.
  destruct (negb (float_is_zero (fmod x wx))); simpl;
    apply (snap_exact Q u quotient_nonneg Hu).
Qed.
End DivMod.

(** ** [//], [%] and [.3f] on numbers that stand for fractions *)

Lemma float_of_int_time_unit (k : Z) :
  is_time_unit k →
  ∃ j, 0 ≤ j ∧ float_of_int k = Ok (Float (k * 2 ^ j) (- j)).
Proof.
  intros [->|[->| ->]]; [exists 36 | exists 41 | exists 47];
    (split; [lia | by vm_compute]).
Qed.

Lemma float_of_int_small (r : Z) :
  0 ≤ r < 2 ^ 53 →
  ∃ x, float_of_int r = Ok x ∧ represents x r 1 ∧ 0 ≤ f_mant x.
Proof.
  intros Hr. unfold float_of_int.
  destruct (Z.eq_dec r 0) as [->|Hr0].
  - exists (Float 0 0). split; [by vm_compute|]. split; [|simpl; lia].
    split; [lia | reflexivity].
  - destruct (round_ratio_exact r 1 0 r) as (t & Ht & ->);
      [lia | lia | change (Z.max 0 0) with 0; change (Z.max (- 0) 0) with 0;
                   rewrite Z.pow_0_r; lia |].
    pose proof (pow2_pos t Ht) as Hpt.
    exists (Float (r * 2 ^ t) (- t)).
    split; [|split; [by apply represents_int | simpl; nia]].
    simpl. rewrite (proj2 (Z.leb_gt _ _)); [done|].
    assert (H53 : 2 ^ 53 < 2 ^ 1024) by (apply Z.pow_lt_mono_r; lia).
    destruct (Z.eq_dec t 0) as [->|Ht0].
    + simpl. rewrite Z.abs_eq by lia. lia.
    + rewrite (Z.pow_neg_r 2 (- t)) by lia. lia.
Qed.

Lemma py_floordiv_exact (s : number) (n d k : Z) :
  number_nonneg s = true → number_represents s n d → is_time_unit k →
  (∀ x, s = NFloat x → k * (n / (d * k)) < 2 ^ 53) →
  ∃ q, py_floordiv s k = Ok q
     ∧ py_int q = n / (d * k)
     ∧ py_gt0 q = (0 <? n / (d * k)).
Proof.
  intros Hs [Hd Hr] Hk Hsmall.
  assert (Hk0 : 0 < k) by (destruct Hk as [->|[->| ->]]; lia).
  destruct s as [z|x]; simpl in *.
  - exists (NInt (z / k)). split; [done|].
    assert (z / k = n / (d * k)) as ->; [|done].
    rewrite <-(Z.div_mul_cancel_l z k d) by lia. f_equal. lia.
  - apply Z.leb_le in Hs.
    destruct (float_of_int_time_unit k Hk) as (j & Hj & ->). simpl.
    pose proof (float_den_pos x) as HD.
    assert (Hq : float_num x / (float_den x * k) = n / (d * k))
      by (by apply div_cross).
    exists (NFloat (fst (float_div_mod x (Float (k * 2 ^ j) (- j))))).
    split; [done|]. rewrite <-Hq.
    apply float_div_mod_exact; try done.
    rewrite Hq. by apply (Hsmall x).
Qed.

Lemma py_floordiv_integral (s : number) (k : Z) :
  number_nonneg s = true → is_time_unit k →
  ∃ q, py_floordiv s k = Ok q
     ∧ 0 ≤ py_int q
     ∧ py_gt0 q = (0 <? py_int q).
Proof.
  intros Hs Hk.
  assert (Hk0 : 0 < k) by (destruct Hk as [->|[->| ->]]; lia).
  destruct s as [z|x]; simpl in *.
  - exists (NInt (z / k)). split; [done|]. apply Z.leb_le in Hs.
    split; [apply Z.div_pos; lia | done].
  - apply Z.leb_le in Hs.
    destruct (float_of_int_time_unit k Hk) as (j & Hj & ->). simpl.
    exists (NFloat (fst (float_div_mod x (Float (k * 2 ^ j) (- j))))).
    split; [done|]. by apply float_div_mod_integral.
Qed.

Lemma py_mod_exact (s : number) (n d k : Z) :
  number_nonneg s = true → number_represents s n d → is_time_unit k →
  ∃ r, py_mod s k = Ok r
     ∧ number_nonneg r = true
     ∧ number_represents r (n mod (d * k)) d.
Proof.
  intros Hs [Hd Hr] Hk.
  assert (Hk0 : 0 < k) by (destruct Hk as [->|[->| ->]]; lia).
  destruct s as [z|x]; simpl in *.
  - exists (NInt (z mod k)). split; [done|].
    split; [apply Z.leb_le, Z.mod_pos_bound; lia|].
    split; [done|]. simpl.
    replace n with (d * z) by lia.
    rewrite Z.mul_mod_distr_l by lia. lia.
  - apply Z.leb_le in Hs.
    destruct (float_of_int_time_unit k Hk) as (j & Hj & ->). simpl.
    pose proof (float_den_pos x) as HD.
    destruct (float_rem_represents x k j Hs Hk0 Hj) as [[_ Hrep] Hnn].
    exists (NFloat (float_rem x (Float (k * 2 ^ j) (- j)))).
    split; [done|]. split; [by apply Z.leb_le|].
    split; [done|]. simpl.
    pose proof (mod_cross (float_num x) (float_den x) n d k HD Hd Hk0 Hr)
      as Hcross.
    apply (Z.mul_reg_r _ _ (float_den x)); [lia|].
    set (y := float_rem x (Float (k * 2 ^ j) (- j))) in *.
    replace (float_num y * d * float_den x)
      with (float_num y * float_den x * d) by ring.
    rewrite Hrep.
    replace (float_num x mod (float_den x * k) * float_den y * d)
      with (float_num x mod (float_den x * k) * d * float_den y) by ring.
    rewrite Hcross. ring.
Qed.

Lemma format_float_f_represents (p : nat) (x : float) (n d : Z) :
  0 ≤ f_mant x → represents x n d →
  format_float_f (S p) x = fixed_text (S p) n d.
Proof.
  intros Hm [Hd Hr]. unfold format_float_f, fixed_text, sign_text.
  rewrite (proj2 (Z.ltb_ge (f_mant x) 0)) by lia.
  rewrite Z.abs_eq by (by apply float_num_nonneg).
  rewrite (round_half_even_cross (float_num x * 10 ^ Z.of_nat (S p))
             (float_den x) (n * 10 ^ Z.of_nat (S p)) d);
    [reflexivity | apply float_den_pos | done | nia].
Qed.

Lemma format_number_fixed (p : nat) (r : number) (n d : Z) :
  number_nonneg r = true → number_represents r n d →
  (∀ z, r = NInt z → z < 2 ^ 53) →
  format_number FmtF (S p) r = Ok (fixed_text (S p) n d).
Proof.
  intros Hnn [Hd Hr] Hsmall. destruct r as [z|x]; simpl in *.
  - apply Z.leb_le in Hnn.
    destruct (float_of_int_small z) as (x & -> & [_ Hx] & Hm).
    { split; [done | by apply Hsmall]. }
    simpl. f_equal. apply format_float_f_represents; [done|].
    split; [done|]. nia.
  - apply Z.leb_le in Hnn. f_equal.
    by apply format_float_f_represents.
Qed.

(** ** [parse_sec_to_time_str] *)

Lemma duration_text_cases (d h m : Z) (secs : string) :
  0 ≤ d → 0 ≤ h → 0 ≤ m →
  duration_text d h m secs
  = if 0 <? d then
      pretty d ++ " day " ++ pretty h ++ " hr " ++ pretty m ++ " min "
      ++ secs ++ " sec"
    else if 0 <? h then
      pretty h ++ " hr " ++ pretty m ++ " min " ++ secs ++ " sec"
    else if 0 <? m then pretty m ++ " min " ++ secs ++ " sec"
    else secs ++ " sec".
Proof.
  intros Hd Hh Hm. unfold duration_text; simpl.
  destruct (Z.eqb_spec d 0) as [->|Hd0]; simpl.
  - destruct (Z.eqb_spec h 0) as [->|Hh0]; simpl.
    + destruct (Z.eqb_spec m 0) as [->|Hm0]; simpl; [reflexivity|].
      rewrite (proj2 (Z.ltb_lt 0 m)) by lia.
      rewrite !string_app_assoc. reflexivity.
    + rewrite (proj2 (Z.ltb_lt 0 h)) by lia.
      rewrite !string_app_assoc. reflexivity.
  - rewrite (proj2 (Z.ltb_lt 0 d)) by lia.
    rewrite !string_app_assoc. reflexivity.
Qed.

Lemma number_represents_self (s : number) :
  number_represents s (number_num s) (number_den s).
Proof.
  split; [|reflexivity]. destruct s; simpl; [lia | apply float_den_pos].
Qed.

Lemma number_num_nonneg (s : number) :
  number_nonneg s = true → 0 ≤ number_num s.
Proof.
  destruct s; simpl; intros H%Z.leb_le; [done | by apply float_num_nonneg].
Qed.


Lemma parse_sec_to_time_str_units (seconds : number) :
  number_nonneg seconds = true →
  let n := number_num seconds in
  let d := number_den seconds in
  parse_sec_to_time_str (number_value seconds)
  = Ok (duration_text (python_quotient seconds 86400)
          (n mod (d * 86400) / (d * 3600))
          (n mod (d * 3600) / (d * 60)) (fixed_text 3 (n mod (d * 60)) d)).
Proof.
  intros Hnn n d.
  pose proof (number_represents_self seconds) as Hrep. fold n d in Hrep.
  pose proof (number_num_nonneg seconds Hnn) as Hn. fold n in Hn.
  assert (Hd : 0 < d) by apply Hrep.
  assert (Hm1 : 0 ≤ n mod (d * 86400) < d * 86400)
    by (apply Z.mod_pos_bound; lia).
  assert (Hm2 : 0 ≤ n mod (d * 3600) < d * 3600)
    by (apply Z.mod_pos_bound; lia).
  assert (Hm3 : 0 ≤ n mod (d * 60) < d * 60)
    by (apply Z.mod_pos_bound; lia).
  assert (Hq1 : 0 ≤ n mod (d * 86400) / (d * 3600))
    by (apply Z.div_pos; lia).
  assert (Hq2 : 0 ≤ n mod (d * 3600) / (d * 60)) by (apply Z.div_pos; lia).
  pose proof (Z.mul_div_le (n mod (d * 86400)) (d * 3600) ltac:(lia)) as Hle1.
  pose proof (Z.mul_div_le (n mod (d * 3600)) (d * 60) ltac:(lia)) as Hle2.
  (* days *)
  destruct (py_floordiv_integral seconds 86400 Hnn)
    as (days & Hdays & Hdi & Hdg); [by left|].
  assert (Hpq : python_quotient seconds 86400 = py_int days)
    by (unfold python_quotient; by rewrite Hdays).
  (* hours *)
  destruct (py_mod_exact seconds n d 86400 Hnn Hrep)
    as (r1 & Hr1 & Hr1n & Hr1r); [by left|].
  destruct (py_floordiv_exact r1 _ d 3600 Hr1n Hr1r)
    as (hours & Hhours & Hhi & Hhg); [by right; left| |].
  { intros x _. nia. }
  (* minutes *)
  destruct (py_mod_exact seconds n d 3600 Hnn Hrep)
    as (r2 & Hr2 & Hr2n & Hr2r); [by right; left|].
  destruct (py_floordiv_exact r2 _ d 60 Hr2n Hr2r)
    as (minutes & Hminutes & Hmi & Hmg); [by right; right| |].
  { intros x _. nia. }
  (* seconds *)
  destruct (py_mod_exact seconds n d 60 Hnn Hrep)
    as (secs & Hsecs & Hsn & Hsr); [by right; right|].
  assert (Hfmt : format_number FmtF 3 secs
                 = Ok (fixed_text 3 (n mod (d * 60)) d)).
  { apply format_number_fixed; [done..|].
    intros z ->. destruct Hsr as [_ Hz]. simpl in Hz.
    assert (z < 60) by nia. lia. }
  unfold parse_sec_to_time_str.
  assert (as_number (number_value seconds) = Some seconds) as ->
    by (by destruct seconds).
  rewrite Hdays; cbn [result_bind]. rewrite Hr1; cbn [result_bind].
  rewrite Hhours; cbn [result_bind]. rewrite Hr2; cbn [result_bind].
  rewrite Hminutes; cbn [result_bind]. rewrite Hsecs; cbn [result_bind].
  rewrite Hfmt, Hdg, Hhg, Hmg, Hhi, Hmi, Hpq; cbn [result_bind].
  rewrite duration_text_cases by done.
  by repeat case_match.
Qed.





(** ** [safe_get_nested]: paths, defaults and nulls *)

(** X1. A lookup along a path that ends on a value other than [None] can be
    continued from that value: looking up the concatenation of two paths is
    looking up the second path in what the first one gives. The first
    lookup is made with the default [None], so that its result tells a hit
    from a miss. *)
Theorem safe_get_nested_app (ks1 : list string) :
  ∀ (d : value) (ks2 : list string) (dflt v : value),
    safe_get_nested d ks1 VNone = Ok v → v ≠ VNone →
    safe_get_nested d (ks1 ++ ks2)%list dflt = safe_get_nested v ks2 dflt.
Proof.
  induction ks1 as [|key ks1 IH]; intros d ks2 dflt v Hv Hn.
  - simpl in Hv. by injection Hv as ->.
  - destruct d as [| | | | | | |items];
      try (simpl in Hv; injection Hv as <-; done).
    change ((key :: ks1) ++ ks2)%list with (key :: (ks1 ++ ks2))%list.
    rewrite safe_get_nested_step in Hv. rewrite safe_get_nested_step.
    destruct (dict_lookup items key) as [d'|];
      [|injection Hv as <-; done].
    destruct d'; try (by apply IH); injection Hv as <-; done.
Qed.

Lemma safe_get_nested_app_witness :
  safe_get_nested dict_nested (["a"] ++ ["b"])%list (VInt 0)
  = safe_get_nested (VDict [("b", VInt 5)]) ["b"] (VInt 0).
Proof.
  apply (safe_get_nested_app ["a"] dict_nested ["b"] (VInt 0)
           (VDict [("b", VInt 5)])); [reflexivity | discriminate].
Defined.

(** X2. With a path that is not empty and a default other than [None], the
    result is never [None]: a stored [None] is replaced by the default
    like a missing key. *)
Theorem safe_get_nested_never_null (keys : list string) :
  ∀ (d : value) (key : string) (dflt : value),
    dflt ≠ VNone → safe_get_nested d (key :: keys) dflt ≠ Ok VNone.
Proof.
  induction keys as [|key' keys IH]; intros d key dflt Hd.
  - destruct d as [| | | | | | |items]; try (simpl; congruence).
    rewrite safe_get_nested_step.
    destruct (dict_lookup items key) as [d'|]; [|congruence].
    destruct d'; simpl; congruence.
  - destruct d as [| | | | | | |items]; try (simpl; congruence).
    rewrite safe_get_nested_step.
    destruct (dict_lookup items key) as [d'|]; [|congruence].
    destruct d'; try (by apply IH); congruence.
Qed.

Lemma safe_get_nested_never_null_witness :
  safe_get_nested dict_with_null ["a"] (VInt 0) ≠ Ok VNone
  ∧ safe_get_nested dict_nested ["a"; "b"] (VInt 0) ≠ Ok VNone.
Proof.
  split.
  - apply (safe_get_nested_never_null [] dict_with_null "a" (VInt 0)).
    discriminate.
  - apply (safe_get_nested_never_null ["b"] dict_nested "a" (VInt 0)).
    discriminate.
Defined.

(** X3. A result that differs from the default given does not depend on the
    default: it is what the path leads to, and every other default gives
    it too. *)
Theorem safe_get_nested_default_independent (keys : list string) :
  ∀ (d d1 d2 v : value),
    safe_get_nested d keys d1 = Ok v → v ≠ d1 →
    safe_get_nested d keys d2 = Ok v.
Proof.
  induction keys as [|key keys IH]; intros d d1 d2 v Hv Hn.
  - done.
  - destruct d as [| | | | | | |items];
      try (simpl in Hv; injection Hv as <-; done).
    rewrite safe_get_nested_step in Hv. rewrite safe_get_nested_step.
    destruct (dict_lookup items key) as [d'|];
      [|injection Hv as <-; done].
    destruct d'; try (by eapply IH); injection Hv as <-; done.
Qed.

Lemma safe_get_nested_default_independent_witness :
  safe_get_nested dict_nested ["a"; "b"] VNone = Ok (VInt 5).
Proof.
  apply (safe_get_nested_default_independent ["a"; "b"] dict_nested (VInt 0)
           VNone (VInt 5)); [reflexivity | discriminate].
Defined.

(** ** Where [vprint] writes *)

Lemma handle_stderr (env : Env) (lvl : Z) (t : nat) (msg : string)
    (w : World) (h : handler) :
  stderr (handle env lvl t msg w h)
  = stderr w ++ written env Stderr lvl t msg [h].
Proof.
  unfold handle; simpl. rewrite string_app_nil_r.
  destruct (h_level h <=? lvl); rewrite ?andb_true_r, ?andb_false_r.
  - destruct (h_stream h); simpl; by rewrite ?string_app_nil_r.
  - by rewrite string_app_nil_r.
Qed.

Lemma handle_stdout (env : Env) (lvl : Z) (t : nat) (msg : string)
    (w : World) (h : handler) :
  stdout (handle env lvl t msg w h)
  = stdout w ++ written env Stdout lvl t msg [h].
Proof.
  unfold handle; simpl. rewrite string_app_nil_r.
  destruct (h_level h <=? lvl); rewrite ?andb_true_r, ?andb_false_r.
  - destruct (h_stream h); simpl; by rewrite ?string_app_nil_r.
  - by rewrite string_app_nil_r.
Qed.

Lemma handle_all_stderr (env : Env) (lvl : Z) (t : nat) (msg : string)
    (hs : list handler) :
  ∀ w, stderr (fold_left (handle env lvl t msg) hs w)
       = stderr w ++ written env Stderr lvl t msg hs.
Proof.
  induction hs as [|h hs IH]; intros w; simpl.
  - by rewrite string_app_nil_r.
  - rewrite IH, handle_stderr. simpl.
    by rewrite string_app_nil_r, string_app_assoc.
Qed.

Lemma handle_all_stdout (env : Env) (lvl : Z) (t : nat) (msg : string)
    (hs : list handler) :
  ∀ w, stdout (fold_left (handle env lvl t msg) hs w)
       = stdout w ++ written env Stdout lvl t msg hs.
Proof.
  induction hs as [|h hs IH]; intros w; simpl.
  - by rewrite string_app_nil_r.
  - rewrite IH, handle_stdout. simpl.
    by rewrite string_app_nil_r, string_app_assoc.
Qed.

(** One record through every handler: what the console gains. *)
Lemma call_handlers_stderr (env : Env) (lvl : Z) (t : nat) (msg : string)
    (w : World) :
  stderr (call_handlers env lvl t msg w)
  = stderr w ++ written env Stderr lvl t msg (reached w).
Proof.
  unfold call_handlers, reached.
  by rewrite !handle_all_stderr, written_app, string_app_assoc.
Qed.

Lemma call_handlers_stdout (env : Env) (lvl : Z) (t : nat) (msg : string)
    (w : World) :
  stdout (call_handlers env lvl t msg w)
  = stdout w ++ written env Stdout lvl t msg (reached w).
Proof.
  unfold call_handlers, reached.
  by rewrite !handle_all_stdout, written_app, string_app_assoc.
Qed.

(** A record reaches no stream for which no handler is there. *)
Lemma written_other_stream (env : Env) (s : stream) (lvl : Z) (t : nat)
    (msg : string) (hs : list handler) :
  Forall (λ h, h_stream h ≠ s) hs → written env s lvl t msg hs = EmptyString.
Proof.
  induction 1 as [|h hs Hh _ IH]; [reflexivity|].
  simpl. by rewrite IH, bool_decide_eq_false_2.
Qed.

(** The process a constructor leaves: the shared logger holds its two
    handlers and no other, at level [INFO]. *)
Lemma init_state (env : Env) (cfg : config) (w : World) :
  ∃ w', init env cfg w = Ok (new_logger cfg (next_id w), w')
    ∧ same_shape (attached_world cfg w) w'
    ∧ ptyrad w'
      = Logger INFO [console_handler (new_logger cfg (next_id w));
                     buffer_handler (new_logger cfg (next_id w))]
    ∧ root w' = root w ∧ dist w' = dist w
    ∧ next_id w' = S (S (S (next_id w))).
Proof.
  destruct (init_ok env cfg w) as (w' & Hi & S).
  exists w'. split; [done|]. split; [done|].
  destruct S as (Hp & Hr & Hd & Hn & _).
  by rewrite Hp, Hr, Hd, Hn.
Qed.

(** [vprint] in a process where it is let through. *)
Lemma vprint_shown (env : Env) (args : list value) (kw : print_opts)
    (w : World) :
  vprint_on w = true →
  vprint env args true kw w
  = if has_handlers w
    then logger_info env (String.concat " " (map (py_str env) args)) kw w
    else py_print env args kw w.
Proof.
  unfold vprint_on, vprint, bind, get_world. simpl. intros ->.
  by destruct (has_handlers w).
Qed.

(** X4. Once a [CustomLogger] has been constructed, [vprint] hands its keyword
    arguments to [Logger.info], which knows neither [sep] nor [end]: the
    call raises a [TypeError] where the same call printed before. *)
Theorem vprint_keywords_after_init (env : Env) (cfg : config) (w0 : World)
    (self : CustomLogger) (w1 : World) (args : list value) (kw : print_opts) :
  init env cfg w0 = Ok (self, w1) →
  vprint_on w0 = true → has_opts kw = true →
  vprint env args true kw w1 = Raise TypeError.
Proof.
  intros Hinit Hon Hkw.
  destruct (init_state env cfg w0) as (w1' & H1 & _ & Hp & _ & Hd & _).
  rewrite H1 in Hinit. injection Hinit as <- <-.
  rewrite vprint_shown by (unfold vprint_on in *; by rewrite Hd).
  unfold has_handlers. rewrite Hp. simpl.
  unfold logger_info, bind, get_world, is_enabled_for, effective_level.
  rewrite Hp. simpl. by rewrite Hkw.
Qed.

Lemma vprint_keywords_after_init_witness :
  ∃ w1,
    init sample_env default_config fresh_world
    = Ok (new_logger default_config 0, w1)
    ∧ vprint sample_env [VStr "a"; VStr "b"] true
        (PrintOpts (Some "-") None) w1 = Raise TypeError
    ∧ vprint sample_env [VStr "a"; VStr "b"] true
        (PrintOpts (Some "-") None) fresh_world
      = Ok (tt, set_stdout ("a-b" ++ nl) fresh_world).
Proof.
  destruct (init_ok sample_env default_config fresh_world) as (w1 & H1 & _).
  exists w1. split; [exact H1|]. split; [|reflexivity].
  exact (vprint_keywords_after_init sample_env default_config fresh_world
           _ w1 [VStr "a"; VStr "b"] (PrintOpts (Some "-") None) H1
           eq_refl eq_refl).
Defined.

(** X5. When only the root logger has handlers and ['PtyRAD'] has no level of
    its own, the record takes the level of the root logger; above [INFO],
    as the root logger is by default, the message is dropped: nothing is
    written, printed or raised. *)
Theorem vprint_dropped_under_root (env : Env) (args : list value)
    (kw : print_opts) (w : World) :
  handlers (root w) ≠ [] → level (ptyrad w) = NOTSET →
  INFO < level (root w) →
  vprint env args true kw w = Ok (tt, w).
Proof.
  intros Hr Hl Hlt.
  unfold vprint, bind, get_world. simpl.
  destruct (negb (is_available (dist w)) || negb (is_initialized (dist w))
            || (get_rank (dist w) =? 0)); [|reflexivity].
  unfold has_handlers. rewrite (bool_decide_eq_false_2 _ Hr). simpl.
  rewrite orb_true_r.
  unfold logger_info, bind, get_world, is_enabled_for, effective_level.
  rewrite Hl. simpl.
  destruct (level (root w) <=? INFO) eqn:He; [|reflexivity].
  apply Z.leb_le in He. lia.
Qed.

Lemma vprint_dropped_under_root_witness :
  vprint sample_env [VStr "lost"] true no_opts root_configured_world
  = Ok (tt, root_configured_world).
Proof.
  apply (vprint_dropped_under_root sample_env [VStr "lost"] no_opts
           root_configured_world);
    [discriminate | reflexivity | reflexivity].
Defined.

(** X6. After a [CustomLogger] has been constructed in a process where
    [vprint] is let through (it is not a rank other than 0 of a distributed
    run) and whose root logger has no handler, [vprint] writes one line,
    the arguments joined by a space in the format of the logger, to the
    standard error stream and to the buffer of the instance; the standard
    output and the file system stay as they are. *)
Theorem vprint_after_init (env : Env) (cfg : config) (w0 : World)
    (args : list value) :
  vprint_on w0 = true → handlers (root w0) = [] →
  let self := new_logger cfg (next_id w0) in
  ∃ w1 w2,
    init env cfg w0 = Ok (self, w1)
    ∧ vprint env args true no_opts w1 = Ok (tt, w2)
    ∧ let line :=
        format_record env (cfg_show_timestamp cfg) (clock w1)
          (String.concat " " (map (py_str env) args)) ++ nl in
      stderr w2 = stderr w1 ++ line
      ∧ buffers w2 !! log_buffer self
        = (λ old, old ++ line) <$> buffers w1 !! log_buffer self
      ∧ stdout w2 = stdout w1
      ∧ fs w2 = fs w1.
Proof.
  intros Hon Hroot self.
  destruct (init_state env cfg w0) as (w1 & H1 & _ & Hp & Hr & Hd & _).
  fold self in H1, Hp.
  set (msg := String.concat " " (map (py_str env) args)).
  set (ws := set_clock (S (clock w1)) w1).
  exists w1, (call_handlers env INFO (clock w1) msg ws).
  split; [done|].
  assert (Hreach : reached ws
                   = [console_handler self; buffer_handler self]).
  { unfold reached, ws; simpl. by rewrite Hp, Hr, Hroot. }
  split.
  { rewrite vprint_shown by (unfold vprint_on in *; by rewrite Hd).
    unfold has_handlers. rewrite Hp. simpl.
    apply logger_info_enabled. by rewrite Hp. }
  simpl. split; [|split; [|split]].
  - rewrite call_handlers_stderr, Hreach. simpl.
    by rewrite string_app_nil_r.
  - rewrite call_handlers_buffer.
    change (handlers (ptyrad ws) ++ handlers (root ws))%list
      with (reached ws).
    rewrite Hreach. simpl. rewrite bool_decide_eq_true_2 by done.
    simpl. by rewrite string_app_nil_r.
  - rewrite call_handlers_stdout, Hreach. simpl.
    by rewrite string_app_nil_r.
  - apply fs_eq.
    + by destruct (call_handlers_shape env INFO (clock w1) msg ws)
        as [(_ & _ & _ & _ & -> & _) _].
    + intros p. rewrite call_handlers_file.
      change (handlers (ptyrad ws) ++ handlers (root ws))%list
        with (reached ws).
      rewrite Hreach. simpl. apply fmap_app_nil.
Qed.

Lemma vprint_after_init_witness :
  ∃ w1 w2,
    init sample_env config_job7 fresh_world
    = Ok (new_logger config_job7 0, w1)
    ∧ vprint sample_env [VStr "epoch"; VInt 3] true no_opts w1 = Ok (tt, w2)
    ∧ stderr w2 = stderr w1 ++ "epoch 3" ++ nl
    ∧ stdout w2 = stdout w1.
Proof.
  destruct (vprint_after_init sample_env config_job7 fresh_world
              [VStr "epoch"; VInt 3] eq_refl eq_refl)
    as (w1 & w2 & H1 & H2 & H3 & _ & H4 & _).
  exists w1, w2. split; [exact H1|]. split; [exact H2|].
  split; [exact H3 | exact H4].
Defined.

(** ** [vprint_nested_dict] on every mapping *)

(** Induction on a value through the values of a mapping. *)
Lemma value_dict_ind (P : value → Prop) :
  (∀ v, is_dict v = false → P v) →
  (∀ items, Forall (λ kv, P (snd kv)) items → P (VDict items)) →
  ∀ v, P v.
Proof.
  intros Hleaf Hdict. fix IH 1.
  intros [| | | | | | |items]; try (by apply Hleaf).
  apply Hdict. induction items as [|[k v] items IHitems]; constructor.
  - apply IH.
  - apply IHitems.
Qed.

Lemma vprint_nested_dict_nil (env : Env) (indent : nat) (verbose : bool)
    (t : Z) :
  vprint_nested_dict env (VDict []) indent verbose t = ret tt.
Proof. reflexivity. Qed.

Lemma vprint_nested_dict_cons (env : Env) (kv : string * value)
    (rest : list (string * value)) (indent : nat) (verbose : bool) (t : Z) :
  vprint_nested_dict env (VDict (kv :: rest)) indent verbose t
  = (print_item env indent verbose t kv
     >> vprint_nested_dict env (VDict rest) indent verbose t).
Proof. destruct kv as [key v]. reflexivity. Qed.

(** [vprint] of one text that is not shown. *)
Lemma vprint_hidden (env : Env) (args : list value) (verbose : bool)
    (kw : print_opts) (w : World) :
  verbose = false ∨ vprint_on w = false →
  vprint env args verbose kw w = Ok (tt, w).
Proof.
  unfold vprint_on, vprint, bind, get_world. simpl.
  intros [-> | ->]; [reflexivity|]. by rewrite andb_false_r.
Qed.

(** X7. With [verbose=False], and on every rank but 0 of a distributed run,
    [vprint_nested_dict] does nothing on a mapping, however deep: it
    returns and leaves the process as it is. *)
Theorem vprint_nested_dict_silent (env : Env) (items : list (string * value))
    (indent : nat) (verbose : bool) (t : Z) (w : World) :
  verbose = false ∨ vprint_on w = false →
  vprint_nested_dict env (VDict items) indent verbose t w = Ok (tt, w).
Proof.
  intros Hq. revert indent t.
  change (∀ indent t,
            match VDict items with
            | VDict _ =>
                vprint_nested_dict env (VDict items) indent verbose t w
                = Ok (tt, w)
            | _ => True
            end).
  generalize (VDict items). clear items.
  apply (value_dict_ind (λ d, ∀ indent t,
            match d with
            | VDict _ => vprint_nested_dict env d indent verbose t w
                         = Ok (tt, w)
            | _ => True
            end)).
  - intros v Hv indent t. by destruct v.
  - intros items Hall. induction Hall as [|[key v] items Hv _ IH];
      intros indent t.
    + reflexivity.
    + rewrite vprint_nested_dict_cons. unfold bind.
      assert (Hitem : print_item env indent verbose t (key, v) w
                      = Ok (tt, w)).
      { unfold print_item.
        destruct v as [| | | | |l| |sub]; try (by apply vprint_hidden).
        - destruct (all_scalars l); by apply vprint_hidden.
        - destruct (_ && _); [by apply vprint_hidden|].
          unfold bind. rewrite vprint_hidden by done.
          apply (Hv (indent + 1)%nat default_leaf_inline_threshold). }
      rewrite Hitem. apply IH.
Qed.

Lemma vprint_nested_dict_silent_witness :
  vprint_nested_dict sample_env dict_three_deep 0 false 6 fresh_world
  = Ok (tt, fresh_world).
Proof.
  apply (vprint_nested_dict_silent sample_env
           [("outer", VDict [("inner", VDict [("x", VInt 1); ("y", VInt 2)])])]
           0 false 6 fresh_world).
  left. reflexivity.
Defined.

(** [vprint] of one text, without keyword arguments: it returns, and only
    texts grow. *)
Lemma vprint_text_grown (env : Env) (s : string) (verbose : bool) (w : World) :
  ∃ w', vprint env [VStr s] verbose no_opts w = Ok (tt, w')
    ∧ same_shape w w'
    ∧ grown (buffers w) (buffers w')
    ∧ grown (files (fs w)) (files (fs w')).
Proof.
  destruct verbose.
  - destruct (vprint1_shape env s w) as (w' & H & S).
    exists w'. split; [exact H|]. split; [exact S|].
    exact (vprint1_grown env s w w' H).
  - exists w. split; [by apply vprint_hidden; left|].
    split; [apply same_shape_refl|]. split; apply grown_refl.
Qed.

(** X8. On a mapping, however deep and whatever its values, the printer
    returns: no turn of the loop raises. The loggers, the directories and
    the set of files and buffers stay as they are; the text of a buffer or
    file only grows. *)
Theorem vprint_nested_dict_returns (env : Env)
    (items : list (string * value)) (indent : nat) (verbose : bool) (t : Z)
    (w : World) :
  ∃ w', vprint_nested_dict env (VDict items) indent verbose t w = Ok (tt, w')
    ∧ same_shape w w'
    ∧ grown (buffers w) (buffers w')
    ∧ grown (files (fs w)) (files (fs w')).
Proof.
  revert indent t w.
  change (∀ indent t w,
            match VDict items with
            | VDict _ =>
                ∃ w', vprint_nested_dict env (VDict items) indent verbose t w
                      = Ok (tt, w')
                  ∧ same_shape w w'
                  ∧ grown (buffers w) (buffers w')
                  ∧ grown (files (fs w)) (files (fs w'))
            | _ => True
            end).
  generalize (VDict items). clear items.
  apply (value_dict_ind (λ d, ∀ indent t w,
            match d with
            | VDict _ =>
                ∃ w', vprint_nested_dict env d indent verbose t w
                      = Ok (tt, w')
                  ∧ same_shape w w'
                  ∧ grown (buffers w) (buffers w')
                  ∧ grown (files (fs w)) (files (fs w'))
            | _ => True
            end)).
  - intros v Hv indent t w. by destruct v.
  - intros items Hall. induction Hall as [|[key v] items Hv _ IH];
      intros indent t w.
    + exists w. split; [reflexivity|]. split; [apply same_shape_refl|].
      split; apply grown_refl.
    + rewrite vprint_nested_dict_cons. unfold bind.
      assert (Hitem : ∃ w1, print_item env indent verbose t (key, v) w
                            = Ok (tt, w1)
                        ∧ same_shape w w1
                        ∧ grown (buffers w) (buffers w1)
                        ∧ grown (files (fs w)) (files (fs w1))).
      { unfold print_item.
        destruct v as [| | | | |l| |sub]; try apply vprint_text_grown.
        - destruct (all_scalars l); apply vprint_text_grown.
        - destruct (_ && _); [apply vprint_text_grown|].
          unfold bind.
          destruct (vprint_text_grown env
                      (repeat_string "    " indent ++ key ++ ":") verbose w)
            as (wa & -> & Sa & Ba & Fa).
          cbn [snd] in Hv.
          destruct (Hv (indent + 1)%nat default_leaf_inline_threshold wa)
            as (wb & -> & Sb & Bb & Fb).
          exists wb. split; [reflexivity|].
          split; [by eapply same_shape_trans|].
          split; by eapply grown_trans. }
      destruct Hitem as (w1 & -> & S1 & B1 & F1).
      destruct (IH indent t w1) as (w2 & -> & S2 & B2 & F2).
      exists w2. split; [reflexivity|].
      split; [by eapply same_shape_trans|].
      split; by eapply grown_trans.
Qed.

(** [vprint] of a run of lines, one after the other. *)
Lemma vprint_all_app (env : Env) (l1 l2 : list string) :
  ∀ w, vprint_all env (l1 ++ l2)%list w
       = (vprint_all env l1 >> vprint_all env l2) w.
Proof.
  induction l1 as [|msg l1 IH]; intros w; [reflexivity|].
  change ((msg :: l1) ++ l2)%list with (msg :: (l1 ++ l2))%list.
  rewrite !vprint_all_cons. unfold bind.
  destruct (vprint1 env msg w) as [[[] w1]|]; [|reflexivity].
  rewrite IH. reflexivity.
Qed.

Lemma nested_lines_cons (env : Env) (key : string) (v : value)
    (rest : list (string * value)) (indent : nat) (t : Z) :
  nested_lines env (VDict ((key, v) :: rest)) indent t
  = (nested_lines env (VDict [(key, v)]) indent t
     ++ nested_lines env (VDict rest) indent t)%list.
Proof.
  cbn [nested_lines]. by rewrite app_nil_r.
Qed.

(** The printer as [vprint] of its lines. *)
Lemma nested_dict_as_lines (env : Env) (items : list (string * value))
    (indent : nat) (t : Z) (w : World) :
  vprint_nested_dict env (VDict items) indent true t w
  = vprint_all env (nested_lines env (VDict items) indent t) w.
Proof.
  revert indent t w.
  change (∀ indent t w,
            match VDict items with
            | VDict _ =>
                vprint_nested_dict env (VDict items) indent true t w
                = vprint_all env (nested_lines env (VDict items) indent t) w
            | _ => True
            end).
  generalize (VDict items). clear items.
  apply (value_dict_ind (λ d, ∀ indent t w,
            match d with
            | VDict _ =>
                vprint_nested_dict env d indent true t w
                = vprint_all env (nested_lines env d indent t) w
            | _ => True
            end)).
  - intros v Hv indent t w. by destruct v.
  - intros items Hall. induction Hall as [|[key v] items Hv _ IH];
      intros indent t w.
    + reflexivity.
    + rewrite vprint_nested_dict_cons, nested_lines_cons, vprint_all_app.
      unfold bind.
      assert (Hitem : print_item env indent true t (key, v) w
                      = vprint_all env
                          (nested_lines env (VDict [(key, v)]) indent t) w).
      { unfold print_item. cbn [nested_lines].
        assert (Hone : ∀ s w, vprint env [VStr s] true no_opts w
                              = vprint_all env [s] w).
        { intros s w0. rewrite vprint_all_cons. unfold bind.
          change (vprint env [VStr s] true no_opts w0)
            with (vprint1 env s w0).
          destruct (vprint1 env s w0) as [[[] w1]|]; reflexivity. }
        destruct v as [| | | | |l| |sub]; try apply Hone.
        - destruct (all_scalars l); apply Hone.
        - destruct (_ && _); [apply Hone|].
          rewrite app_nil_r, vprint_all_cons. unfold bind.
          change (vprint env [VStr (repeat_string "    " indent ++ key ++ ":")]
                    true no_opts w)
            with (vprint1 env (repeat_string "    " indent ++ key ++ ":") w).
          destruct (vprint1 env _ w) as [[[] w1]|]; [|reflexivity].
          apply (Hv (indent + 1)%nat default_leaf_inline_threshold w1). }
      rewrite Hitem.
      destruct (vprint_all env _ w) as [[[] w1]|]; [|reflexivity].
      apply IH.
Qed.

(** X9. What [vprint_nested_dict] does on a mapping is [vprint] of a list of
    lines, one call for each, in order: one line for an entry that is no
    mapping or a mapping printed inline, and for any other mapping a line
    with its key and then its own lines, one level deeper and with the
    threshold at its default. *)
Theorem vprint_nested_dict_lines (env : Env) (items : list (string * value))
    (indent : nat) (t : Z) (w : World) :
  vprint_nested_dict env (VDict items) indent true t w
  = vprint_all env (nested_lines env (VDict items) indent t) w.
Proof. apply nested_dict_as_lines. Qed.

(** X10. A mapping none of whose values is a mapping is printed entry by entry,
    one line [key: repr(value)] each, in the order of the entries: the
    threshold plays no part, and the branch for a list of scalars prints
    what the last branch prints. *)
Theorem vprint_nested_dict_flat (env : Env) (items : list (string * value))
    (indent : nat) (t : Z) (w : World) :
  forallb (λ kv, negb (is_dict (snd kv))) items = true →
  vprint_nested_dict env (VDict items) indent true t w
  = vprint_all env (map (entry_line env indent) items) w.
Proof.
  revert w. induction items as [|[key v] items IH]; intros w Hflat.
  - reflexivity.
  - simpl in Hflat. apply andb_true_iff in Hflat as [Hv Hflat].
    rewrite vprint_nested_dict_cons. cbn [map]. rewrite vprint_all_cons.
    unfold bind.
    assert (Hitem : print_item env indent true t (key, v) w
                    = vprint1 env (entry_line env indent (key, v)) w).
    { unfold print_item, entry_line.
      destruct v as [| | | | |l| |sub]; try reflexivity; [|done].
      by destruct (all_scalars l). }
    rewrite Hitem.
    destruct (vprint1 env _ w) as [[[] w1]|]; [|reflexivity].
    by apply IH.
Qed.

Lemma vprint_nested_dict_flat_witness :
  vprint_nested_dict sample_env
    (VDict [("a", VInt 1); ("b", VList [VInt 2; VStr "x"]);
            ("c", VList [VList []])]) 1 true 0 fresh_world
  = vprint_all sample_env ["    a: 1"; "    b: [2, 'x']"; "    c: [[]]"]
      fresh_world.
Proof.
  apply (vprint_nested_dict_flat sample_env
           [("a", VInt 1); ("b", VList [VInt 2; VStr "x"]);
            ("c", VList [VList []])] 1 0 fresh_world).
  reflexivity.
Defined.

(** ** The life of a [CustomLogger] *)

Section Streams.
Variable env : Env.
Variables (a b k : nat) (timestamp : bool).
Variable root_handlers : list handler.
Hypothesis root_console : console_only root_handlers = true.

(** The two handlers of an instance write to no buffer but its own. *)
Lemma written_buffer_other (k' : nat) (t : nat) (msg : string) :
  k' ≠ k →
  written env (Buffer k') INFO t msg
    ([Handler a Stderr INFO timestamp;
      Handler b (Buffer k) INFO timestamp] ++ root_handlers)%list
  = EmptyString.
Proof.
  intros Hk. simpl. rewrite bool_decide_eq_false_2 by congruence.
  simpl. by rewrite written_console_only.
Qed.
End Streams.

(** The constructor, with the reading of the clock it ends at. *)
Lemma init_clock (env : Env) (cfg : config) (w : World) :
  let self := new_logger cfg (next_id w) in
  ∃ w', init env cfg w = Ok (self, w')
    ∧ same_shape (attached_world cfg w) w'
    ∧ clock w' = (clock w + List.length (shown w (init_notices env self)))%nat
    ∧ (∀ b, buffers w' !! b
            = (λ old, old ++ transcript env (Buffer b)
                               (reached (attached_world cfg w)) (clock w)
                               (shown w (init_notices env self)))
                <$> buffers (attached_world cfg w) !! b)
    ∧ (∀ p, files (fs w') !! p
            = (λ old, old ++ transcript env (FileStream p)
                               (reached (attached_world cfg w)) (clock w)
                               (shown w (init_notices env self)))
                <$> files (fs w) !! p).
Proof.
  intros self.
  destruct (vprint_all_run env (init_notices env self) (attached_world cfg w))
    as (w' & Hinit & S & C & B & F); [done|done|].
  exists w'. rewrite init_run. fold self. rewrite Hinit.
  split; [done|]. split; [done|]. split; [exact C|]. split; [exact B|exact F].
Qed.

(** [flush_to_file] with a log file, in a process where the shared logger
    is at level [INFO]: it returns, and what it leaves. *)
Lemma flush_ok (env : Env) (self : CustomLogger) (dir_arg : option string)
    (app_arg : option bool) (w : World) (base : string) :
  log_file self = Some base → flush_file self = true →
  level (ptyrad w) = INFO →
  let dir := effective_dir self dir_arg in
  let path := os_path_join dir (prefixed_name env self (clock w) base) in
  let append := default (append_to_file self) app_arg in
  let wf := flushed_world self dir path append w in
  let notices := shown w [flushed_notice path; " "] in
  permits env dir path →
  ∃ w',
    flush_to_file env self dir_arg app_arg w
    = Ok (set_file_handler (Present (Some (new_file_handler self path w))) self,
          w')
    ∧ same_shape wf w'
    ∧ clock w' = (clock wf + List.length notices)%nat
    ∧ (∀ b, buffers w' !! b
            = (λ old, old ++ transcript env (Buffer b) (reached wf) (clock wf)
                               notices) <$> buffers wf !! b)
    ∧ (∀ p, files (fs w') !! p
            = (λ old, old ++ transcript env (FileStream p) (reached wf)
                               (clock wf) notices) <$> files (fs wf) !! p).
Proof.
  intros Hf Hflush Hl dir path append wf notices Hp.
  pose proof (flush_run env self dir_arg app_arg w base Hf Hflush) as Hrun.
  simpl in Hrun. fold dir path append wf in Hrun.
  specialize (Hrun Hp). rewrite two_notices_run in Hrun.
  destruct (vprint_all_run env [flushed_notice path; " "] wf)
    as (w' & Hnot & S & C & B & F).
  { unfold wf, flushed_world; simpl. by rewrite add_handler_level. }
  { unfold wf, flushed_world; simpl. apply add_handler_not_nil. }
  rewrite Hnot in Hrun. exists w'.
  split; [exact Hrun|]. split; [exact S|].
  split; [exact C|]. split; [exact B|exact F].
Qed.

(** X11. With no log file, a prefix cannot be put in front of the name: where
    [prefix_date] is true, as it is by default, or [prefix_jobid] is not
    0, [flush_to_file] raises a [TypeError] before it looks at
    [flush_file], in every process. *)
Theorem flush_null_name_prefixed (env : Env) (self : CustomLogger)
    (dir_arg : option string) (app_arg : option bool) (w : World) :
  log_file self = None →
  prefix_date self = true ∨ prefix_jobid self ≠ 0 →
  flush_to_file env self dir_arg app_arg w = Raise TypeError.
Proof.
  intros Hf Hpre. unfold flush_to_file, bind. rewrite Hf.
  case_bool_decide as Hj; [reflexivity|].
  destruct Hpre as [Hd|Hj']; [|done].
  rewrite Hd. reflexivity.
Qed.

Lemma flush_null_name_prefixed_witness :
  flush_to_file sample_env (new_logger config_no_file 0) None None fresh_world
  = Raise TypeError.
Proof.
  apply (flush_null_name_prefixed sample_env (new_logger config_no_file 0)
           None None fresh_world); [reflexivity | left; reflexivity].
Defined.

(** X12. An error of the system is not caught: with a log file to write,
    where the directory cannot be made, [flush_to_file] raises the
    [OSError]. *)
Theorem flush_refused (env : Env) (self : CustomLogger)
    (dir_arg : option string) (app_arg : option bool) (w : World)
    (base : string) :
  log_file self = Some base → flush_file self = true →
  os_refuses env (fs w) (Makedirs (effective_dir self dir_arg)) = true →
  flush_to_file env self dir_arg app_arg w = Raise OSError.
Proof.
  intros Hf Hflush Hno.
  unfold flush_to_file, os_makedirs, get_date, bind, get_world, read_clock,
    prepend, ret.
  rewrite Hf, Hflush. unfold effective_dir in Hno.
  destruct (bool_decide (prefix_jobid self ≠ 0)); destruct (prefix_date self);
    simpl; by rewrite Hno.
Qed.

Lemma flush_refused_witness :
  flush_to_file sealed_env (new_logger default_config 0) None None fresh_world
  = Raise OSError.
Proof.
  apply (flush_refused sealed_env (new_logger default_config 0) None None
           fresh_world "output.log"); reflexivity.
Defined.

(** The fields an instance has from its configuration. *)
Lemma new_logger_flush_file (cfg : config) (n : nat) (base : string) :
  cfg_log_file cfg = Some base →
  log_file (new_logger cfg n) = Some base
  ∧ flush_file (new_logger cfg n) = true.
Proof.
  intros Hf. simpl. rewrite Hf. split; [done|].
  by apply bool_decide_eq_true_2.
Qed.

(** X13. [close] after a [flush_to_file]. A logger is constructed with a log
    file in a process whose root logger has console handlers only, flushed
    and closed. Then [close] takes the file handler off the shared logger,
    which keeps the two handlers of the constructor, and sets the
    attribute to [None]; a second [close] does nothing; and a record logged
    afterwards goes to the buffer and leaves the file system as the flush
    left it. *)
Theorem close_after_flush (env : Env) (cfg : config) (w0 : World)
    (base : string) (dir_arg : option string) (app_arg : option bool)
    (msg : string) :
  cfg_log_file cfg = Some base →
  console_only (handlers (root w0)) = true →
  let self := new_logger cfg (next_id w0) in
  let t_flush :=
    (clock w0 + List.length (shown w0 (init_notices env self)))%nat in
  let dir := effective_dir self dir_arg in
  let path := os_path_join dir (prefixed_name env self t_flush base) in
  permits env dir path →
  ∃ w1 self1 w2 self2 w3 w4,
    init env cfg w0 = Ok (self, w1)
    ∧ flush_to_file env self dir_arg app_arg w1 = Ok (self1, w2)
    ∧ close self1 w2 = Ok (self2, w3)
    ∧ file_handler self2 = Present None
    ∧ handlers (ptyrad w3) = [console_handler self; buffer_handler self]
    ∧ close self2 w3 = Ok (self2, w3)
    ∧ logger_info env msg no_opts w3 = Ok (tt, w4)
    ∧ fs w4 = fs w2
    ∧ buffers w4 !! log_buffer self
      = (λ old, old ++ format_record env (cfg_show_timestamp cfg) (clock w3)
                         msg ++ nl) <$> buffers w2 !! log_buffer self.
Proof.
  intros Hf Hroot self t_flush dir path Hp.
  set (n := next_id w0) in *. set (ts := cfg_show_timestamp cfg).
  destruct (new_logger_flush_file cfg n base Hf) as [Hlf Hff].
  fold self in Hlf, Hff.
  (* the constructor *)
  destruct (init_clock env cfg w0) as (w1 & H1 & S1 & C1 & _ & _).
  fold n self t_flush in H1, C1.
  destruct S1 as (Hp1 & Hr1 & Hd1 & Hn1 & _).
  assert (Hpw1 : ptyrad w1
                 = Logger INFO [Handler n Stderr INFO ts;
                                Handler (S (S n)) (Buffer (S n)) INFO ts])
    by (by rewrite Hp1).
  (* the flush *)
  pose proof (flush_ok env self dir_arg app_arg w1 base Hlf Hff) as Hfl.
  cbv zeta in Hfl. rewrite C1 in Hfl. fold dir path in Hfl.
  destruct Hfl as (w2 & H2 & S2 & _); [by rewrite Hpw1|done|].
  set (fh := new_file_handler self path w1) in *.
  set (wf := flushed_world _ _ _ _ _) in *.
  assert (Hpwf : ptyrad wf
                 = Logger INFO [Handler n Stderr INFO ts;
                                Handler (S (S n)) (Buffer (S n)) INFO ts; fh]).
  { unfold wf, flushed_world; simpl. fold fh. rewrite Hpw1.
    unfold add_handler; simpl. rewrite bool_decide_eq_false_2; [done|].
    intros Hin. apply elem_of_cons in Hin as [[=]|Hin].
    apply list_elem_of_singleton in Hin. discriminate Hin. }
  destruct S2 as (Hp2 & Hr2 & _).
  (* the close *)
  set (w3 := set_ptyrad (remove_handler fh (ptyrad w2)) w2).
  assert (Hpw3 : ptyrad w3
                 = Logger INFO [Handler n Stderr INFO ts;
                                Handler (S (S n)) (Buffer (S n)) INFO ts]).
  { unfold w3; simpl. rewrite Hp2, Hpwf. unfold remove_handler; simpl.
    rewrite !bool_decide_eq_false_2 by discriminate.
    by rewrite bool_decide_eq_true_2. }
  set (ws := set_clock (S (clock w3)) w3).
  assert (Hreach : reached ws
                   = ([Handler n Stderr INFO ts;
                       Handler (S (S n)) (Buffer (S n)) INFO ts]
                      ++ handlers (root w0))%list).
  { unfold reached.
    change (ptyrad ws) with (ptyrad w3). change (root ws) with (root w2).
    rewrite Hpw3, Hr2. unfold wf, flushed_world; simpl. by rewrite Hr1. }
  exists w1, (set_file_handler (Present (Some fh)) self), w2,
    (set_file_handler (Present None) self), w3,
    (call_handlers env INFO (clock w3) msg ws).
  split; [exact H1|]. split; [exact H2|]. split; [reflexivity|].
  split; [reflexivity|]. split; [by rewrite Hpw3|]. split; [reflexivity|].
  split; [apply logger_info_enabled; by rewrite Hpw3|].
  split.
  - apply fs_eq.
    + by destruct (call_handlers_shape env INFO (clock w3) msg ws)
        as [(_ & _ & _ & _ & -> & _) _].
    + intros p. rewrite call_handlers_file.
      change (handlers (ptyrad ws) ++ handlers (root ws))%list
        with (reached ws).
      rewrite Hreach, written_file_unflushed by done. apply fmap_app_nil.
  - change (log_buffer self) with (S n). rewrite call_handlers_buffer.
    change (handlers (ptyrad ws) ++ handlers (root ws))%list
      with (reached ws).
    by rewrite Hreach, written_buffer_unflushed.
Qed.

Lemma close_after_flush_witness :
  ∃ w1 self1 w2 self2 w3 w4,
    init sample_env config_job7 fresh_world
    = Ok (new_logger config_job7 0, w1)
    ∧ flush_to_file sample_env (new_logger config_job7 0) None None w1
      = Ok (self1, w2)
    ∧ close self1 w2 = Ok (self2, w3)
    ∧ close self2 w3 = Ok (self2, w3)
    ∧ logger_info sample_env "late" no_opts w3 = Ok (tt, w4)
    ∧ fs w4 = fs w2.
Proof.
  assert (Hp : permits sample_env
                 (effective_dir (new_logger config_job7 0) None)
                 (os_path_join (effective_dir (new_logger config_job7 0) None)
                    (prefixed_name sample_env (new_logger config_job7 0)
                       (0 + List.length
                              (shown fresh_world
                                 (init_notices sample_env
                                    (new_logger config_job7 0))))%nat
                       "output.log"))) by done.
  destruct (close_after_flush sample_env config_job7 fresh_world "output.log"
              None None "late" eq_refl eq_refl Hp)
    as (w1 & self1 & w2 & self2 & w3 & w4 & H1 & H2 & H3 & _ & _ & H4 & H5
        & H6 & _).
  exists w1, self1, w2, self2, w3, w4.
  split; [exact H1|]. split; [exact H2|]. split; [exact H3|].
  split; [exact H4|]. split; [exact H5|exact H6].
Defined.

(** X14. [flush_to_file] twice. A logger is constructed with a log file in a
    process whose root logger has console handlers only, and flushed twice
    on one day without a [close] in between, the system permitting the
    directory and the file. Then the second flush attaches
    a second handler on the same file and leaves the first one attached:
    every record logged afterwards is written to the file twice. The
    instance remembers the second handler only, so [close] takes off that
    one and the first stays on the shared logger. *)
Theorem flush_twice_writes_twice (env : Env) (cfg : config) (w0 : World)
    (base : string) (dir_arg : option string) (app_arg : option bool)
    (msg : string) :
  cfg_log_file cfg = Some base →
  console_only (handlers (root w0)) = true →
  (∀ t t', today_at env t = today_at env t') →
  let self := new_logger cfg (next_id w0) in
  let dir := effective_dir self dir_arg in
  let path := os_path_join dir (prefixed_name env self 0 base) in
  permits env dir path →
  ∃ w1 self1 w2 self2 w3 fh1 fh2 w4 self3 w5,
    init env cfg w0 = Ok (self, w1)
    ∧ flush_to_file env self dir_arg app_arg w1 = Ok (self1, w2)
    ∧ file_handler self1 = Present (Some fh1)
    ∧ flush_to_file env self1 dir_arg app_arg w2 = Ok (self2, w3)
    ∧ file_handler self2 = Present (Some fh2)
    ∧ h_stream fh1 = FileStream path ∧ h_stream fh2 = FileStream path
    ∧ handlers (ptyrad w3)
      = [console_handler self; buffer_handler self; fh1; fh2]
    ∧ logger_info env msg no_opts w3 = Ok (tt, w4)
    ∧ files (fs w4) !! path
      = (λ old, old
           ++ (format_record env (cfg_show_timestamp cfg) (clock w3) msg ++ nl)
           ++ (format_record env (cfg_show_timestamp cfg) (clock w3) msg ++ nl))
          <$> files (fs w3) !! path
    ∧ close self2 w3 = Ok (self3, w5)
    ∧ file_handler self3 = Present None
    ∧ handlers (ptyrad w5) = [console_handler self; buffer_handler self; fh1].
Proof.
  intros Hf Hroot Hday self dir path Hp.
  set (n := next_id w0) in *. set (ts := cfg_show_timestamp cfg).
  destruct (new_logger_flush_file cfg n base Hf) as [Hlf Hff].
  fold self in Hlf, Hff.
  assert (Hname : ∀ t, prefixed_name env self t base
                       = prefixed_name env self 0%nat base).
  { intros t. unfold prefixed_name. by rewrite (Hday t 0%nat). }
  (* the constructor *)
  destruct (init_clock env cfg w0) as (w1 & H1 & S1 & _).
  fold n self in H1.
  destruct S1 as (Hp1 & Hr1 & Hd1 & Hn1 & _).
  assert (Hpw1 : ptyrad w1
                 = Logger INFO [Handler n Stderr INFO ts;
                                Handler (S (S n)) (Buffer (S n)) INFO ts])
    by (by rewrite Hp1).
  assert (Hnw1 : next_id w1 = S (S (S n))) by (by rewrite Hn1).
  (* the first flush *)
  pose proof (flush_ok env self dir_arg app_arg w1 base Hlf Hff) as Hfl.
  cbv zeta in Hfl. rewrite Hname in Hfl. fold dir path in Hfl.
  destruct Hfl as (w2 & H2 & S2 & _); [by rewrite Hpw1|done|].
  set (fh1 := Handler (S (S (S n))) (FileStream path) NOTSET ts).
  assert (Hfh1 : new_file_handler self path w1 = fh1).
  { unfold new_file_handler. by rewrite Hnw1. }
  rewrite Hfh1 in H2.
  set (wf1 := flushed_world _ _ _ _ _) in *.
  assert (Hpwf1 : ptyrad wf1
                  = Logger INFO [Handler n Stderr INFO ts;
                                 Handler (S (S n)) (Buffer (S n)) INFO ts;
                                 fh1]).
  { unfold wf1, flushed_world; cbn [ptyrad]. rewrite Hfh1, Hpw1.
    unfold add_handler; simpl. rewrite bool_decide_eq_false_2; [done|].
    intros Hin. apply elem_of_cons in Hin as [[=]|Hin].
    apply list_elem_of_singleton in Hin. discriminate Hin. }
  destruct S2 as (Hp2 & Hr2 & Hd2 & Hn2 & _).
  assert (Hnw2 : next_id w2 = S (S (S (S n)))).
  { rewrite Hn2. unfold wf1, flushed_world; simpl. by rewrite Hnw1. }
  (* the second flush *)
  set (self1 := set_file_handler (Present (Some fh1)) self) in *.
  pose proof (flush_ok env self1 dir_arg app_arg w2 base Hlf Hff) as Hfl.
  cbv zeta in Hfl.
  change (effective_dir self1 dir_arg) with dir in Hfl.
  change (prefixed_name env self1 (clock w2) base)
    with (prefixed_name env self (clock w2) base) in Hfl.
  rewrite Hname in Hfl. fold path in Hfl.
  destruct Hfl as (w3 & H3 & S3 & _); [by rewrite Hp2, Hpwf1|done|].
  set (fh2 := Handler (S (S (S (S n)))) (FileStream path) NOTSET ts).
  assert (Hfh2 : new_file_handler self1 path w2 = fh2).
  { unfold new_file_handler. by rewrite Hnw2. }
  rewrite Hfh2 in H3.
  set (wf2 := flushed_world self1 _ _ _ _) in *.
  assert (Hpwf2 : ptyrad wf2
                  = Logger INFO [Handler n Stderr INFO ts;
                                 Handler (S (S n)) (Buffer (S n)) INFO ts;
                                 fh1; fh2]).
  { unfold wf2, flushed_world; cbn [ptyrad]. rewrite Hfh2, Hp2, Hpwf1.
    unfold add_handler; simpl. rewrite bool_decide_eq_false_2; [done|].
    intros Hin. apply elem_of_cons in Hin as [[=]|Hin].
    apply elem_of_cons in Hin as [[=]|Hin].
    apply list_elem_of_singleton in Hin. injection Hin as Hin. lia. }
  destruct S3 as (Hp3 & Hr3 & _).
  assert (Hrw3 : handlers (root w3) = handlers (root w0)).
  { rewrite Hr3. unfold wf2, flushed_world; simpl. rewrite Hr2.
    unfold wf1, flushed_world; simpl. by rewrite Hr1. }
  (* one more record *)
  set (ws := set_clock (S (clock w3)) w3).
  (* the close *)
  set (w5 := set_ptyrad (remove_handler fh2 (ptyrad w3)) w3).
  exists w1, self1, w2, (set_file_handler (Present (Some fh2)) self1), w3,
    fh1, fh2, (call_handlers env INFO (clock w3) msg ws),
    (set_file_handler (Present None) self1), w5.
  split; [exact H1|]. split; [exact H2|]. split; [reflexivity|].
  split; [exact H3|]. split; [reflexivity|]. split; [reflexivity|].
  split; [reflexivity|]. split; [by rewrite Hp3, Hpwf2|].
  split; [apply logger_info_enabled; by rewrite Hp3, Hpwf2|].
  split; [|split; [reflexivity|split; [reflexivity|]]].
  - rewrite call_handlers_file.
    change (files (fs ws)) with (files (fs w3)).
    change (handlers (ptyrad ws)) with (handlers (ptyrad w3)).
    change (handlers (root ws)) with (handlers (root w3)).
    rewrite Hp3, Hpwf2, Hrw3. simpl.
    rewrite !bool_decide_eq_true_2 by done.
    rewrite written_console_only by done. simpl.
    by rewrite string_app_nil_r.
  - unfold w5; simpl. rewrite Hp3, Hpwf2. unfold remove_handler; simpl.
    rewrite !bool_decide_eq_false_2
      by (first [discriminate | intros [=]; lia]).
    by rewrite bool_decide_eq_true_2.
Qed.

Lemma flush_twice_writes_twice_witness :
  ∃ w1 self1 w2 self2 w3 w4,
    init sample_env config_plain fresh_world
    = Ok (new_logger config_plain 0, w1)
    ∧ flush_to_file sample_env (new_logger config_plain 0) None None w1
      = Ok (self1, w2)
    ∧ flush_to_file sample_env self1 None None w2 = Ok (self2, w3)
    ∧ logger_info sample_env "once" no_opts w3 = Ok (tt, w4)
    ∧ files (fs w4) !! "logs/output.log"
      = (λ old, old ++ ("once" ++ nl) ++ ("once" ++ nl))
          <$> files (fs w3) !! "logs/output.log".
Proof.
  assert (Hp : permits sample_env
                 (effective_dir (new_logger config_plain 0) None)
                 (os_path_join (effective_dir (new_logger config_plain 0) None)
                    (prefixed_name sample_env (new_logger config_plain 0) 0
                       "output.log"))) by done.
  destruct (flush_twice_writes_twice sample_env config_plain fresh_world
              "output.log" None None "once" eq_refl eq_refl
              (λ _ _, eq_refl) Hp)
    as (w1 & self1 & w2 & self2 & w3 & fh1 & fh2 & w4 & self3 & w5 & H1 & H2
        & _ & H3 & _ & _ & _ & _ & H4 & H5 & _).
  exists w1, self1, w2, self2, w3, w4.
  split; [exact H1|]. split; [exact H2|]. split; [exact H3|].
  split; [exact H4|exact H5].
Defined.

(** X15. A second [CustomLogger]. Constructing an instance clears the handlers
    of the shared logger, so after a second construction the logger holds
    the two handlers of the second instance and no other: neither the
    notices of the second constructor nor any record logged afterwards
    reaches the buffer of the first instance. The root logger has console
    handlers only. *)
Theorem second_logger_detaches_first (env : Env) (cfg1 cfg2 : config)
    (w0 : World) (msgs : list string) :
  console_only (handlers (root w0)) = true →
  let self1 := new_logger cfg1 (next_id w0) in
  ∃ w1 self2 w2 w3,
    init env cfg1 w0 = Ok (self1, w1)
    ∧ init env cfg2 w1 = Ok (self2, w2)
    ∧ handlers (ptyrad w2) = [console_handler self2; buffer_handler self2]
    ∧ log_buffer self2 ≠ log_buffer self1
    ∧ buffers w2 !! log_buffer self1 = buffers w1 !! log_buffer self1
    ∧ log_all env msgs w2 = Ok (tt, w3)
    ∧ buffers w3 !! log_buffer self1 = buffers w1 !! log_buffer self1.
Proof.
  intros Hroot self1. set (n := next_id w0) in *.
  destruct (init_clock env cfg1 w0) as (w1 & H1 & S1 & _).
  fold n self1 in H1.
  destruct S1 as (_ & Hr1 & _ & Hn1 & _).
  assert (Hnw1 : next_id w1 = S (S (S n))) by (by rewrite Hn1).
  destruct (init_clock env cfg2 w1) as (w2 & H2 & S2 & _ & B2 & _).
  rewrite Hnw1 in H2, B2.
  set (m := S (S (S n))) in *.
  set (self2 := new_logger cfg2 m) in *.
  set (aw := attached_world cfg2 w1) in *.
  assert (Hraw : reached aw
                 = ([Handler m Stderr INFO (cfg_show_timestamp cfg2);
                     Handler (S (S m)) (Buffer (S m)) INFO
                       (cfg_show_timestamp cfg2)]
                    ++ handlers (root w0))%list).
  { unfold reached, aw, attached_world; simpl. by rewrite Hnw1, Hr1. }
  destruct S2 as (Hp2 & Hr2 & _).
  assert (Hb2 : buffers w2 !! S n = buffers w1 !! S n).
  { rewrite B2, Hraw.
    rewrite transcript_silent
      by (intros; apply written_buffer_other; [done | unfold m; lia]).
    rewrite fmap_app_nil. unfold aw, attached_world; simpl.
    rewrite Hnw1. apply lookup_insert_ne. lia. }
  destruct (log_all_run env msgs w2) as (w3 & H3 & _ & _ & B3 & _).
  { by rewrite Hp2. }
  assert (Hrw2 : reached w2 = reached aw).
  { unfold reached. by rewrite Hp2, Hr2. }
  exists w1, self2, w2, w3.
  split; [exact H1|]. split; [exact H2|].
  split; [by rewrite Hp2; unfold aw, attached_world; simpl; rewrite Hnw1|].
  split; [simpl; unfold m; lia|]. split; [exact Hb2|].
  split; [exact H3|].
  change (log_buffer self1) with (S n).
  rewrite B3, Hrw2, Hraw.
  rewrite transcript_silent
    by (intros; apply written_buffer_other; [done | unfold m; lia]).
  by rewrite fmap_app_nil.
Qed.

Lemma second_logger_detaches_first_witness :
  ∃ w1 self2 w2 w3,
    init sample_env default_config fresh_world
    = Ok (new_logger default_config 0, w1)
    ∧ init sample_env config_plain w1 = Ok (self2, w2)
    ∧ log_all sample_env ["one"; "two"] w2 = Ok (tt, w3)
    ∧ buffers w3 !! 1%nat = buffers w1 !! 1%nat.
Proof.
  destruct (second_logger_detaches_first sample_env default_config
              config_plain fresh_world ["one"; "two"] eq_refl)
    as (w1 & self2 & w2 & w3 & H1 & H2 & _ & _ & _ & H3 & H4).
  exists w1, self2, w2, w3.
  split; [exact H1|]. split; [exact H2|]. split; [exact H3|exact H4].
Defined.

(** ** [parse_sec_to_time_str] at the edges *)

(** X16. A negative [int] wraps around one day: the quotient by 86400 is
    negative, so no day is shown, and the other units are those of the
    remainder by 86400, which is not negative. [-1] reads
    ["23 hr 59 min 59.000 sec"]. *)
Theorem parse_sec_to_time_str_negative (n : Z) :
  n < 0 →
  parse_sec_to_time_str (VInt n) = parse_sec_to_time_str (VInt (n mod 86400)).
Proof.
  intros Hn.
  assert (H1 : (n mod 86400) mod 86400 = n mod 86400)
    by (apply Z.mod_mod; lia).
  assert (H2 : (n mod 86400) mod 3600 = n mod 3600).
  { apply Z.mod_mod_divide. by exists 24. }
  assert (H3 : (n mod 86400) mod 60 = n mod 60).
  { apply Z.mod_mod_divide. by exists 1440. }
  assert (H4 : (0 <? n / 86400) = false).
  { apply Z.ltb_ge. pose proof (Z.div_lt_upper_bound n 86400 0). lia. }
  assert (H5 : (0 <? n mod 86400 / 86400) = false).
  { apply Z.ltb_ge. rewrite Z.div_small; [lia|].
    apply Z.mod_pos_bound. lia. }
  unfold parse_sec_to_time_str.
  cbn [as_number py_floordiv py_mod result_bind py_gt0].
  by rewrite H1, H2, H3, H4, H5.
Qed.

Lemma parse_sec_to_time_str_negative_witness :
  parse_sec_to_time_str (VInt (-1)) = Ok "23 hr 59 min 59.000 sec".
Proof.
  etrans; [apply (parse_sec_to_time_str_negative (-1)); lia|].
  by vm_compute.
Defined.

(** The seconds of a whole number have the fraction [.000]. *)
Lemma fixed_text_whole (r : Z) :
  0 ≤ r → fixed_text 3 r 1 = pretty r ++ ".000".
Proof.
  intros Hr. unfold fixed_text.
  change (10 ^ Z.of_nat 3) with 1000.
  pose proof (round_half_even_exact (r * 1000) 1) as Hm.
  rewrite Z.mul_1_r in Hm. rewrite Hm by lia.
  rewrite Z.div_mul, Z.mod_mul by lia. reflexivity.
Qed.

(** X17. For an [int] that is not negative, of any size, the units are the
    quotients and remainders of integer arithmetic, and the seconds are the
    remainder by 60 with the fraction [.000]. *)
Theorem parse_sec_to_time_str_int (n : Z) :
  0 ≤ n →
  parse_sec_to_time_str (VInt n)
  = Ok (duration_text (n / 86400) (n mod 86400 / 3600) (n mod 3600 / 60)
          (pretty (n mod 60) ++ ".000")).
Proof.
  intros Hn.
  pose proof (parse_sec_to_time_str_units (NInt n)) as Hu.
  cbn [number_nonneg number_num number_den number_value] in Hu.
  cbv zeta in Hu. rewrite Hu by (by apply Z.leb_le).
  change (python_quotient (NInt n) 86400) with (n / 86400).
  change (1 * 86400) with 86400. change (1 * 3600) with 3600.
  change (1 * 60) with 60.
  rewrite fixed_text_whole; [reflexivity|].
  apply Z.mod_pos_bound. lia.
Qed.

Lemma parse_sec_to_time_str_int_witness :
  parse_sec_to_time_str (VInt (2 ^ 64))
  = Ok "213503982334601 day 7 hr 0 min 16.000 sec".
Proof.
  etrans; [apply (parse_sec_to_time_str_int (2 ^ 64)); lia|].
  by vm_compute.
Defined.

(** A fraction from 59.9995 up to 60 reads [60.000] to three places. *)
Lemma fixed_text_sixty (r d : Z) :
  0 < d → 119999 * d ≤ 2000 * r → r < 60 * d →
  fixed_text 3 r d = "60.000".
Proof.
  intros Hd Hlo Hhi. unfold fixed_text.
  change (10 ^ Z.of_nat 3) with 1000.
  assert (Hq : r * 1000 / d = 59999).
  { symmetry. apply (Z.div_unique_pos _ _ _ (r * 1000 - 59999 * d)); lia. }
  assert (Hr : (r * 1000) mod d = r * 1000 - 59999 * d).
  { rewrite Z.mod_eq by lia. rewrite Hq. lia. }
  assert (Hm : round_half_even (r * 1000) d = 60000).
  { unfold round_half_even. rewrite Hq, Hr.
    destruct (2 * (r * 1000 - 59999 * d) <? d) eqn:H1;
      [apply Z.ltb_lt in H1; lia|].
    destruct (d <? 2 * (r * 1000 - 59999 * d)); reflexivity. }
  rewrite Hm. reflexivity.
Qed.

(** X18. The seconds are rounded for display after the minutes have been taken
    out, and nothing is carried: for a float whose part beyond the last
    whole minute is 59.9995 seconds or more, the text reads [60.000 sec]
    after the minute it belongs to. *)
Theorem parse_sec_to_time_str_sixty (x : float) :
  0 ≤ f_mant x →
  let n := float_num x in
  let d := float_den x in
  119999 * d ≤ 2000 * (n mod (d * 60)) →
  parse_sec_to_time_str (VFloat x)
  = Ok (duration_text (python_quotient (NFloat x) 86400)
          (n mod (d * 86400) / (d * 3600))
          (n mod (d * 3600) / (d * 60)) "60.000").
Proof.
  intros Hx n d Hlo.
  pose proof (parse_sec_to_time_str_units (NFloat x)) as Hu.
  cbn [number_nonneg number_num number_den number_value] in Hu.
  cbv zeta in Hu. fold n d in Hu. rewrite Hu by (by apply Z.leb_le).
  pose proof (float_den_pos x) as Hd. fold d in Hd.
  rewrite fixed_text_sixty; [reflexivity|done|done|].
  replace (60 * d) with (d * 60) by lia. apply Z.mod_pos_bound. lia.
Qed.

Lemma parse_sec_to_time_str_sixty_witness :
  parse_sec_to_time_str (VFloat (Float 245759 (-11)))
  = Ok "1 min 60.000 sec".
Proof.
  etrans;
    [apply (parse_sec_to_time_str_sixty (Float 245759 (-11)));
     by vm_compute|].
  by vm_compute.
Defined.

(** ** [parse_hypertune_params_to_str]: composition and errors *)

(** The string built so far only stands in front. *)
Lemma hypertune_loop_acc (env : Env) (items : list (string * value)) :
  ∀ acc, hypertune_loop env items acc
         = result_bind (hypertune_loop env items EmptyString)
             (λ text, Ok (acc ++ text)).
Proof.
  induction items as [|[key v] items IH]; intros acc.
  - simpl. by rewrite string_app_nil_r.
  - cbn [hypertune_loop].
    destruct (hypertune_entry env key v) as [text|e]; [|reflexivity].
    cbn [result_bind]. rewrite (IH (acc ++ text)), (IH (EmptyString ++ text)).
    destruct (hypertune_loop env items EmptyString) as [rest|e];
      [|reflexivity].
    cbn [result_bind]. f_equal. change (EmptyString ++ text) with text.
    apply string_app_assoc.
Qed.

(** The loop over the entries of one list and then of another. *)
Lemma hypertune_loop_app (env : Env) (l1 l2 : list (string * value)) :
  ∀ acc, hypertune_loop env (l1 ++ l2)%list acc
         = result_bind (hypertune_loop env l1 acc) (λ s1,
             result_bind (hypertune_loop env l2 EmptyString) (λ s2,
               Ok (s1 ++ s2))).
Proof.
  induction l1 as [|[key v] l1 IH]; intros acc.
  - cbn [app hypertune_loop result_bind]. apply hypertune_loop_acc.
  - change (((key, v) :: l1) ++ l2)%list with ((key, v) :: (l1 ++ l2))%list.
    cbn [hypertune_loop].
    destruct (hypertune_entry env key v) as [text|e]; [|reflexivity].
    cbn [result_bind]. apply IH.
Qed.

(** X19. For two mappings that share no key, the label of the mapping
    with the entries of the first and then those of the second is the
    label of the first followed by the label of the second; and an error
    of the first comes before an error of the second. *)
Theorem parse_hypertune_params_to_str_app (env : Env)
    (l1 l2 : list (string * value)) :
  NoDup (map fst (l1 ++ l2)%list) →
  parse_hypertune_params_to_str env (VDict (l1 ++ l2)%list)
  = result_bind (parse_hypertune_params_to_str env (VDict l1)) (λ s1,
      result_bind (parse_hypertune_params_to_str env (VDict l2)) (λ s2,
        Ok (s1 ++ s2))).
Proof.
  intros _. cbn [parse_hypertune_params_to_str]. apply hypertune_loop_app.
Qed.

Lemma parse_hypertune_params_to_str_app_witness :
  parse_hypertune_params_to_str sample_env
    (VDict ([("lr", VFloat float_0_0001)] ++ [("batch", VInt 32)])%list)
  = Ok ("_lr_1.0e-04" ++ "_batch_32").
Proof.
  etrans.
  - apply (parse_hypertune_params_to_str_app sample_env
             [("lr", VFloat float_0_0001)] [("batch", VInt 32)]).
    apply (bool_decide_unpack _). by vm_compute.
  - by vm_compute.
Defined.

(** An entry that [format] has no text for raises. *)
Lemma hypertune_entry_raises (env : Env) (key : string) (v : value) :
  formattable (key, v) = false → ∃ e, hypertune_entry env key v = Raise e.
Proof.
  unfold formattable, hypertune_entry, ends_in_lr, is_numeric, py_format.
  cbn [fst snd].
  destruct (String.eqb (lower (last_two key)) "lr"); cbn [orb].
  - destruct (to_float v) as [x|e]; [done|]. intros _. by exists e.
  - destruct (bool_decide (is_Some (as_number v))); [|done].
    destruct (to_float v) as [x|e]; [done|]. intros _. by exists e.
Qed.

Lemma hypertune_loop_ok (env : Env) (items : list (string * value)) :
  ∀ acc text, hypertune_loop env items acc = Ok text →
              forallb formattable items = true.
Proof.
  induction items as [|[key v] items IH]; intros acc text Hok; [reflexivity|].
  cbn [hypertune_loop] in Hok. cbn [forallb].
  destruct (formattable (key, v)) eqn:Hf.
  - destruct (hypertune_entry env key v) as [t|e]; [|discriminate Hok].
    cbn [result_bind] in Hok. by rewrite (IH _ _ Hok).
  - destruct (hypertune_entry_raises env key v Hf) as [e He].
    rewrite He in Hok. discriminate Hok.
Qed.

(** X20. On a mapping, the function returns exactly when every entry can be
    formatted: a value under a name ending in "lr", and a number under any
    name, must convert to [float]. Otherwise it raises, and no label is
    produced. *)
Theorem parse_hypertune_params_to_str_ok_iff (env : Env)
    (items : list (string * value)) :
  (∃ text, parse_hypertune_params_to_str env (VDict items) = Ok text)
  ↔ forallb formattable items = true.
Proof.
  cbn [parse_hypertune_params_to_str]. split.
  - intros [text Hok]. by eapply hypertune_loop_ok.
  - intros Hall. eexists. by apply hypertune_loop_concat.
Qed.

(** [format(n, '.3g')] for the whole numbers of up to three digits, one by
    one. *)
Lemma format_small_int_table :
  forallb (λ n, match py_format FmtG 3 (VInt n) with
                | Ok text => String.eqb text (pretty n)
                | Raise _ => false
                end)
    (map (λ i, Z.of_nat i - 999) (seq 0 1999)) = true.
Proof. by vm_compute. Qed.

Lemma format_small_int (n : Z) :
  -1000 < n < 1000 → py_format FmtG 3 (VInt n) = Ok (pretty n).
Proof.
  intros Hn. pose proof format_small_int_table as Ht.
  rewrite forallb_forall in Ht. specialize (Ht n).
  assert (Hin : In n (map (λ i, Z.of_nat i - 999) (seq 0 1999))).
  { apply in_map_iff. exists (Z.to_nat (n + 999)).
    split; [lia|]. apply in_seq. lia. }
  specialize (Ht Hin).
  destruct (py_format FmtG 3 (VInt n)) as [text|e]; [|discriminate Ht].
  apply String.eqb_eq in Ht. by rewrite Ht.
Qed.

(** The text of a number under a name that does not end in "lr". *)
Lemma hypertune_entry_number (env : Env) (key : string) (v : value)
    (t : string) :
  ends_in_lr key = false → is_numeric v = true →
  py_format FmtG 3 v = Ok t →
  hypertune_entry env key v = Ok ("_" ++ key ++ "_" ++ t).
Proof.
  unfold hypertune_entry, ends_in_lr, is_numeric. by intros -> -> ->.
Qed.

(** X21. Under a name that does not end in "lr", an [int] of up to three digits
    is printed as it is, with no exponent and no decimal point, and a
    [bool], which is an [int], as [1] or [0]. *)
Theorem parse_hypertune_params_to_str_small (env : Env) (key : string) :
  ends_in_lr key = false →
  (∀ n, -1000 < n < 1000 →
        parse_hypertune_params_to_str env (VDict [(key, VInt n)])
        = Ok ("_" ++ key ++ "_" ++ pretty n))
  ∧ (∀ b : bool,
        parse_hypertune_params_to_str env (VDict [(key, VBool b)])
        = Ok ("_" ++ key ++ "_" ++ if b then "1" else "0")).
Proof.
  intros Hkey. split.
  - intros n Hn.
    cbn [parse_hypertune_params_to_str hypertune_loop].
    rewrite (hypertune_entry_number env key (VInt n) (pretty n) Hkey eq_refl
               (format_small_int n Hn)).
    reflexivity.
  - intros b. cbn [parse_hypertune_params_to_str hypertune_loop].
    rewrite (hypertune_entry_number env key (VBool b) (if b then "1" else "0")
               Hkey eq_refl); [reflexivity|].
    by destruct b; vm_compute.
Qed.

Lemma parse_hypertune_params_to_str_small_witness :
  parse_hypertune_params_to_str sample_env (VDict [("batch", VInt (-999))])
  = Ok "_batch_-999"
  ∧ parse_hypertune_params_to_str sample_env (VDict [("amp", VBool true)])
    = Ok "_amp_1"
  ∧ parse_hypertune_params_to_str sample_env (VDict [("batch", VInt 1000)])
    = Ok "_batch_1e+03".
Proof.
  destruct (parse_hypertune_params_to_str_small sample_env "batch" eq_refl)
    as [Hint _].
  destruct (parse_hypertune_params_to_str_small sample_env "amp" eq_refl)
    as [_ Hbool].
  split; [|split].
  - etrans; [apply (Hint (-999)); lia|]. by vm_compute.
  - exact (Hbool true).
  - by vm_compute.
Defined.

(** ** [set_gpu_device]: the device chosen *)

(** Two [vprint] calls and a result. *)
Lemma vprint1_then {A} (env : Env) (msg : string) (a : A) (w : World) :
  ∃ w', (vprint1 env msg >> ret a) w = Ok (a, w') ∧ same_shape w w'.
Proof.
  unfold bind, ret. destruct (vprint1_shape env msg w) as (w' & -> & S).
  by exists w'.
Qed.

(** X22. For every machine and every process, [set_gpu_device] returns a device
    and has made it the default device; what is printed changes no logger
    and no file name. The device is the CPU when [gpuid] is [None], even
    with a GPU there, and when there is neither CUDA nor MPS; a CUDA device
    with an index only when that index is the one asked for and is below
    the number of devices; CUDA without an index when the index asked for
    is not below that number; and MPS only where CUDA is not available. *)
Theorem set_gpu_device_choice (env : Env) (torch : Torch) (gpuid : option N)
    (default_device : device) (w : World) :
  ∃ d w',
    set_gpu_device env torch gpuid default_device w = Ok ((d, d), w')
    ∧ same_shape w w'
    ∧ (d = Cpu ↔ gpuid = None
                 ∨ (cuda_is_available torch = false
                    ∧ mps_is_available torch = false))
    ∧ (∀ i, d = Cuda (Some i)
            ↔ gpuid = Some i ∧ cuda_is_available torch = true
              ∧ (i < cuda_device_count torch)%N)
    ∧ (d = Cuda None
       ↔ ∃ g, gpuid = Some g ∧ cuda_is_available torch = true
              ∧ (cuda_device_count torch ≤ g)%N)
    ∧ (d = Mps ↔ is_Some gpuid ∧ cuda_is_available torch = false
                 ∧ mps_is_available torch = true).
Proof.
  unfold set_gpu_device.
  destruct (vprint1_shape env "### Setting GPU Device ###" w)
    as (w1 & H1 & S1).
  rewrite (bind_ok _ _ _ _ _ H1).
  assert (Hend : ∀ (d dd : device) (msg : string),
            ∃ w', (let! chosen := vprint1 env msg >> ret (d, dd) in
                   vprint1 env " " >> ret (fst chosen, fst chosen)) w1
                  = Ok ((d, d), w')
              ∧ same_shape w w').
  { intros d dd msg.
    destruct (vprint1_then env msg (d, dd) w1) as (w2 & H2 & S2).
    rewrite (bind_ok _ _ _ _ _ H2).
    destruct (vprint1_then env " " (d, d) w2) as (w3 & H3 & S3).
    exists w3. split; [exact H3|].
    eapply same_shape_trans; [exact S1|].
    eapply same_shape_trans; [exact S2|exact S3]. }
  destruct gpuid as [g|].
  - destruct (cuda_is_available torch) eqn:Hc.
    + destruct (g <? cuda_device_count torch)%N eqn:Hg.
      * apply N.ltb_lt in Hg.
        destruct (Hend (Cuda (Some g)) (Cuda (Some g))
                    ("Selected GPU device: " ++ device_str (Cuda (Some g))
                     ++ " (" ++ cuda_get_device_name torch g ++ ")"))
          as (w' & H & S).
        exists (Cuda (Some g)), w'. split; [exact H|]. split; [exact S|].
        split; [split; [done|intros [?|[? _]]; done]|].
        split; [intros i; split; [by intros [= <-]|by intros ([= <-] & _)]|].
        split; [split; [done|intros (g' & [= <-] & _ & Hle); lia]|].
        split; [done|intros (_ & ? & _); done].
      * apply N.ltb_ge in Hg.
        destruct (Hend (Cuda None) default_device
                    ("Requested CUDA device cuda:" ++ pretty g
                     ++ " is out of range (only "
                     ++ pretty (cuda_device_count torch) ++ " available)."
                     ++ "Fall back to GPU device: " ++ device_str (Cuda None)))
          as (w' & H & S).
        exists (Cuda None), w'. split; [exact H|]. split; [exact S|].
        split; [split; [done|intros [?|[? _]]; done]|].
        split; [intros i; split; [done|intros ([= <-] & _ & Hlt); lia]|].
        split; [split; [by exists g|done]|].
        split; [done|intros (_ & ? & _); done].
    + destruct (mps_is_available torch) eqn:Hm.
      * destruct (Hend Mps default_device
                    "Selected GPU device: MPS (Apple Silicon)")
          as (w' & H & S).
        exists Mps, w'. split; [exact H|]. split; [exact S|].
        split; [split; [done|intros [?|[_ ?]]; done]|].
        split; [intros i; split; [done|intros (_ & ? & _); done]|].
        split; [split; [done|intros (g' & _ & ? & _); done]|].
        split; [done|by eexists].
      * destruct (Hend Cpu default_device
                    ("GPU ID specifed as " ++ pretty g
                     ++ " but no GPU found. Using CPU instead."))
          as (w' & H & S).
        exists Cpu, w'. split; [exact H|]. split; [exact S|].
        split; [split; [by right|done]|].
        split; [intros i; split; [done|intros (_ & ? & _); done]|].
        split; [split; [done|intros (g' & _ & ? & _); done]|].
        split; [done|intros (_ & _ & ?); done].
  - destruct (Hend Cpu default_device "Specified to use CPU (gpuid=None).")
      as (w' & H & S).
    exists Cpu, w'. split; [exact H|]. split; [exact S|].
    split; [split; [by left|done]|].
    split; [intros i; split; [done|intros (? & _); done]|].
    split; [split; [done|intros (g' & ? & _); done]|].
    split; [done|intros ([? ?] & _); done].
Qed.

(** ** The printer through the logger *)

(** X23. After a [CustomLogger] has been constructed, in a process where
    [vprint] is let through and the root logger has console handlers only,
    [vprint_nested_dict] adds to the buffer of the instance the lines of
    the mapping, each in the format of the logger and at its own reading of
    the clock, in order; and it leaves the file system as it is. *)
Theorem vprint_nested_dict_logged (env : Env) (cfg : config) (w0 : World)
    (items : list (string * value)) (indent : nat) (t : Z) :
  console_only (handlers (root w0)) = true → vprint_on w0 = true →
  let self := new_logger cfg (next_id w0) in
  let lines := nested_lines env (VDict items) indent t in
  ∃ w1 w2,
    init env cfg w0 = Ok (self, w1)
    ∧ vprint_nested_dict env (VDict items) indent true t w1 = Ok (tt, w2)
    ∧ buffers w2 !! log_buffer self
      = (λ old, old ++ rendered env (cfg_show_timestamp cfg) (clock w1) lines)
          <$> buffers w1 !! log_buffer self
    ∧ clock w2 = (clock w1 + List.length lines)%nat
    ∧ fs w2 = fs w1.
Proof.
  intros Hroot Hon self lines.
  set (n := next_id w0) in *. set (ts := cfg_show_timestamp cfg).
  destruct (init_state env cfg w0) as (w1 & H1 & _ & Hp & Hr & Hd & _).
  fold n self in H1, Hp.
  destruct (vprint_all_run env lines w1) as (w2 & H2 & S2 & C2 & B2 & F2);
    [by rewrite Hp|by rewrite Hp|].
  assert (Hshown : shown w1 lines = lines).
  { unfold shown, vprint_on in *. by rewrite Hd, Hon. }
  assert (Hreach : reached w1
                   = ([Handler n Stderr INFO ts;
                       Handler (S (S n)) (Buffer (S n)) INFO ts]
                      ++ handlers (root w0))%list).
  { unfold reached. by rewrite Hp, Hr. }
  rewrite Hshown in C2.
  exists w1, w2. split; [exact H1|].
  split; [by rewrite nested_dict_as_lines|].
  split; [|split; [exact C2|]].
  - change (log_buffer self) with (S n).
    rewrite B2, Hreach, Hshown.
    by rewrite (transcript_rendered env _ _ ts)
      by (intros; by apply written_buffer_unflushed).
  - apply fs_eq.
    + by destruct S2 as (_ & _ & _ & _ & -> & _).
    + intros p. rewrite F2, Hreach.
      rewrite transcript_silent
        by (intros; by apply written_file_unflushed).
      apply fmap_app_nil.
Qed.

Lemma vprint_nested_dict_logged_witness :
  ∃ w1 w2,
    init sample_env config_job7 fresh_world
    = Ok (new_logger config_job7 0, w1)
    ∧ vprint_nested_dict sample_env dict_three_deep 0 true 6 w1 = Ok (tt, w2)
    ∧ buffers w2 !! 1%nat
      = (λ old, old ++ "outer:" ++ nl ++ "    inner: {x: 1, y: 2}" ++ nl)
          <$> buffers w1 !! 1%nat.
Proof.
  destruct (vprint_nested_dict_logged sample_env config_job7 fresh_world
              [("outer", VDict [("inner", VDict [("x", VInt 1);
                                                 ("y", VInt 2)])])]
              0 6 eq_refl eq_refl)
    as (w1 & w2 & H1 & H2 & H3 & _).
  exists w1, w2. split; [exact H1|]. split; [exact H2|exact H3].
Defined.

(** ** The threshold of [vprint_nested_dict] *)

(** X24. The threshold given by the caller is looked at for the values of
    the mapping itself and nowhere below: on a mapping none of whose values
    is a flat mapping, the printer does the same for every threshold,
    whatever lies deeper. *)
Theorem vprint_nested_dict_threshold_top_only (env : Env)
    (items : list (string * value)) (indent : nat) (verbose : bool)
    (t1 t2 : Z) (w : World) :
  no_flat_child items = true →
  vprint_nested_dict env (VDict items) indent verbose t1 w
  = vprint_nested_dict env (VDict items) indent verbose t2 w.
Proof.
  revert w. induction items as [|[key v] items IH]; intros w Hflat.
  - reflexivity.
  - unfold no_flat_child in Hflat. cbn [forallb snd] in Hflat.
    apply andb_true_iff in Hflat as [Hv Hflat].
    rewrite !vprint_nested_dict_cons. unfold bind.
    assert (Hitem : print_item env indent verbose t1 (key, v) w
                    = print_item env indent verbose t2 (key, v) w).
    { unfold print_item. destruct v as [| | | | | | |sub]; try reflexivity.
      apply negb_true_iff in Hv. by rewrite Hv. }
    rewrite Hitem.
    destruct (print_item env indent verbose t2 (key, v) w) as [[[] w1]|];
      [|reflexivity].
    by apply IH.
Qed.

Lemma vprint_nested_dict_threshold_top_only_witness :
  vprint_nested_dict sample_env dict_three_deep 0 true 1 fresh_world
  = vprint_nested_dict sample_env dict_three_deep 0 true 100 fresh_world.
Proof.
  apply (vprint_nested_dict_threshold_top_only sample_env
           [("outer", VDict [("inner", VDict [("x", VInt 1); ("y", VInt 2)])])]
           0 true 1 100 fresh_world).
  reflexivity.
Defined.

(** ** What a flush touches *)

Section FileStreams.
Variable env : Env.
Variables (a b k c : nat) (timestamp : bool) (path : string).
Variable root_handlers : list handler.
Hypothesis root_console : console_only root_handlers = true.

(** The three handlers of a flushed instance write to no file but the log
    file. *)
Lemma written_file_other (p : string) (t : nat) (msg : string) :
  p ≠ path →
  written env (FileStream p) INFO t msg
    ([Handler a Stderr INFO timestamp;
      Handler b (Buffer k) INFO timestamp;
      Handler c (FileStream path) NOTSET timestamp] ++ root_handlers)%list
  = EmptyString.
Proof.
  intros Hp. simpl. rewrite bool_decide_eq_false_2 by congruence.
  simpl. by rewrite written_console_only.
Qed.
End FileStreams.

(** *** The directories [os.makedirs] makes *)

Lemma split_after_last_slash_length (p : string) :
  (String.length (fst (split_after_last_slash p))
   + String.length (snd (split_after_last_slash p)))%nat
  = String.length p.
Proof.
  induction p as [|c rest IH]; [reflexivity|].
  cbn [split_after_last_slash].
  destruct (contains_char "/" rest).
  - destruct (split_after_last_slash rest) as [head tail].
    simpl in *. by rewrite IH.
  - destruct (Ascii.eqb c "/"); reflexivity.
Qed.

Lemma rstrip_slash_length (s : string) :
  (String.length (rstrip_slash s) ≤ String.length s)%nat.
Proof.
  induction s as [|c rest IH]; [reflexivity|].
  cbn [rstrip_slash].
  destruct (rstrip_slash rest) as [|c' rest'].
  - destruct (Ascii.eqb c "/"); simpl in *; lia.
  - simpl in *. lia.
Qed.

Lemma os_path_split_length (p : string) :
  (String.length (fst (os_path_split p))
   + String.length (snd (os_path_split p)) ≤ String.length p)%nat.
Proof.
  unfold os_path_split.
  pose proof (split_after_last_slash_length p) as Hl.
  destruct (split_after_last_slash p) as [head tail].
  pose proof (rstrip_slash_length head) as Hr.
  case_bool_decide; simpl in *; lia.
Qed.

(** The turns counted by the length of the name are enough: more of them
    make the same directories. *)
Lemma makedirs_names_fuel (f : FS) (fuel1 : nat) :
  ∀ (fuel2 : nat) (name : string),
    (String.length name ≤ fuel1)%nat → (String.length name ≤ fuel2)%nat →
    makedirs_names fuel1 f name = makedirs_names fuel2 f name.
Proof.
  induction fuel1 as [|fuel1 IH]; intros fuel2 name H1 H2.
  - destruct name; [|simpl in H1; lia].
    destruct fuel2; reflexivity.
  - destruct fuel2 as [|fuel2].
    { destruct name; [reflexivity|simpl in H2; lia]. }
    cbn [makedirs_names].
    pose proof (os_path_split_length name) as Hn.
    destruct (os_path_split name) as [head0 tail0].
    pose proof (os_path_split_length head0) as Hh.
    assert (Hlen : ∀ head tail,
              (if bool_decide (tail0 = EmptyString) then os_path_split head0
               else (head0, tail0)) = (head, tail) →
              tail ≠ EmptyString →
              (String.length head < String.length name)%nat).
    { intros head tail Heq Ht. case_bool_decide as Ht0.
      - rewrite Heq in Hh. simpl in *.
        destruct tail; [done|]. simpl in *. lia.
      - injection Heq as <- <-. destruct tail0; [done|]. simpl in *. lia. }
    destruct (if bool_decide (tail0 = EmptyString) then os_path_split head0
              else (head0, tail0)) as [head tail].
    specialize (Hlen head tail eq_refl).
    destruct (negb (bool_decide (head = EmptyString))
              && negb (bool_decide (tail = EmptyString))
              && negb (os_path_exists f head)) eqn:Hc; [|reflexivity].
    apply andb_true_iff in Hc as [Hc _].
    apply andb_true_iff in Hc as [_ Ht].
    apply negb_true_iff, bool_decide_eq_false_1 in Ht.
    specialize (Hlen Ht).
    by rewrite (IH fuel2 head) by lia.
Qed.

(** A name without a slash has no directory above it. *)
Lemma makedirs_names_plain (fuel : nat) (f : FS) (name : string) :
  contains_char "/" name = false → makedirs_names fuel f name = [name].
Proof.
  intros Hs.
  assert (Hsplit : split_after_last_slash name = (EmptyString, name)).
  { destruct name as [|c rest]; [reflexivity|].
    cbn [split_after_last_slash]. cbn [contains_char] in Hs.
    apply orb_false_iff in Hs as [Hc ->].
    rewrite Ascii.eqb_sym in Hc. by rewrite Hc. }
  assert (Hp : os_path_split name = (EmptyString, name)).
  { unfold os_path_split. by rewrite Hsplit. }
  destruct fuel; cbn [makedirs_names]; rewrite Hp;
    by case_bool_decide.
Qed.

(** On a file system with nothing in it, [mkdir] is called for each
    directory above, and a last component ['.'] is not made. *)
Lemma makedirs_names_examples :
  let made name := makedirs_names (String.length name) (MkFS ∅ ∅) name in
  made "logs" = ["logs"]
  ∧ made "a/b" = ["a"; "a/b"]
  ∧ made "/a/b" = ["/a"; "/a/b"]
  ∧ made "c//d" = ["c"; "c//d"]
  ∧ made "e/f/" = ["e"; "e/f/"]
  ∧ made "g/h/." = ["g"; "g/h"]
  ∧ made "i/./j" = ["i"; "i/./j"]
  ∧ made "k/l/m/" = ["k"; "k/l"; "k/l/m/"]
  ∧ made "n/" = ["n/"]
  ∧ makedirs_names 7 (MkFS {[ "a/b" ]} ∅) "a/b/x/y" = ["a/b/x"; "a/b/x/y"].
Proof. repeat split; by vm_compute. Qed.

(** X25. A flush touches one file. A logger is constructed with a log file
    in a process whose root logger has console handlers only, and flushed.
    Then every directory there was is still there; where the name of the
    log directory has no slash, as ['logs'] has none, that directory is
    the one added; and every file but the log file is as it was before the
    constructor ran: none is made, emptied or written to. *)
Theorem flush_changes_one_file (env : Env) (cfg : config) (w0 : World)
    (base : string) (dir_arg : option string) (app_arg : option bool) :
  cfg_log_file cfg = Some base →
  console_only (handlers (root w0)) = true →
  let self := new_logger cfg (next_id w0) in
  let t_flush :=
    (clock w0 + List.length (shown w0 (init_notices env self)))%nat in
  let dir := effective_dir self dir_arg in
  let path := os_path_join dir (prefixed_name env self t_flush base) in
  permits env dir path →
  ∃ w1 self1 w2,
    init env cfg w0 = Ok (self, w1)
    ∧ flush_to_file env self dir_arg app_arg w1 = Ok (self1, w2)
    ∧ dirs (fs w0) ⊆ dirs (fs w2)
    ∧ (contains_char "/" dir = false
       → dirs (fs w2) = {[ dir ]} ∪ dirs (fs w0))
    ∧ ∀ p, p ≠ path → files (fs w2) !! p = files (fs w0) !! p.
Proof.
  intros Hf Hroot self t_flush dir path Hp.
  set (n := next_id w0) in *. set (ts := cfg_show_timestamp cfg).
  destruct (new_logger_flush_file cfg n base Hf) as [Hlf Hff].
  fold self in Hlf, Hff.
  (* the constructor *)
  destruct (init_clock env cfg w0) as (w1 & H1 & S1 & C1 & _ & F1).
  fold n self t_flush in H1, C1, F1.
  destruct S1 as (Hp1 & Hr1 & Hd1 & Hn1 & Hdirs1 & _).
  assert (Hpw1 : ptyrad w1
                 = Logger INFO [Handler n Stderr INFO ts;
                                Handler (S (S n)) (Buffer (S n)) INFO ts])
    by (by rewrite Hp1).
  assert (Hfiles1 : ∀ p, files (fs w1) !! p = files (fs w0) !! p).
  { intros p. rewrite F1.
    change (reached (attached_world cfg w0))
      with ([Handler n Stderr INFO ts;
             Handler (S (S n)) (Buffer (S n)) INFO ts]
            ++ handlers (root w0))%list.
    rewrite transcript_silent
      by (intros; by apply written_file_unflushed).
    apply fmap_app_nil. }
  assert (Hfs1 : fs w1 = fs w0) by (by apply fs_eq).
  (* the flush *)
  pose proof (flush_ok env self dir_arg app_arg w1 base Hlf Hff) as Hfl.
  cbv zeta in Hfl. rewrite C1 in Hfl. fold dir path in Hfl.
  destruct Hfl as (w2 & H2 & S2 & _ & _ & F2); [by rewrite Hpw1|done|].
  set (fh := new_file_handler self path w1) in *.
  set (wf := flushed_world self _ _ _ _) in *.
  assert (Hrwf : reached wf
                 = ([Handler n Stderr INFO ts;
                     Handler (S (S n)) (Buffer (S n)) INFO ts;
                     Handler (next_id w1) (FileStream path) NOTSET ts]
                    ++ handlers (root w0))%list).
  { unfold reached, wf, flushed_world; cbn [ptyrad root]. rewrite Hpw1, Hr1.
    unfold add_handler; simpl. rewrite bool_decide_eq_false_2; [done|].
    intros Hin. apply elem_of_cons in Hin as [[=]|Hin].
    apply list_elem_of_singleton in Hin. discriminate Hin. }
  assert (Hdirs2 : dirs (fs w2) = dirs_after_makedirs (fs w0) dir).
  { destruct S2 as (_ & _ & _ & _ & -> & _).
    unfold wf, flushed_world; simpl. by rewrite Hfs1. }
  exists w1, (set_file_handler (Present (Some fh)) self), w2.
  split; [exact H1|]. split; [exact H2|]. split; [|split].
  - rewrite Hdirs2. unfold dirs_after_makedirs. apply union_subseteq_r.
  - intros Hs. rewrite Hdirs2. unfold dirs_after_makedirs.
    rewrite makedirs_names_plain by done. simpl.
    by rewrite (right_id_L ∅ (∪)).
  - intros p Hne. rewrite F2, Hrwf.
    rewrite transcript_silent
      by (intros; by apply written_file_other).
    rewrite fmap_app_nil. unfold wf, flushed_world; simpl.
    rewrite lookup_insert_ne by done. apply Hfiles1.
Qed.

Lemma flush_changes_one_file_witness :
  ∃ w1 self1 w2,
    init sample_env config_job7 fresh_world
    = Ok (new_logger config_job7 0, w1)
    ∧ flush_to_file sample_env (new_logger config_job7 0) None None w1
      = Ok (self1, w2)
    ∧ dirs (fs w2) = {[ "logs" ]} ∪ dirs (fs fresh_world)
    ∧ files (fs w2) !! "logs/output.log"
      = files (fs fresh_world) !! "logs/output.log".
Proof.
  assert (Hp : permits sample_env
                 (effective_dir (new_logger config_job7 0) None)
                 (os_path_join (effective_dir (new_logger config_job7 0) None)
                    (prefixed_name sample_env (new_logger config_job7 0)
                       (0 + List.length
                              (shown fresh_world
                                 (init_notices sample_env
                                    (new_logger config_job7 0))))%nat
                       "output.log"))) by done.
  destruct (flush_changes_one_file sample_env config_job7 fresh_world
              "output.log" None None eq_refl eq_refl Hp)
    as (w1 & self1 & w2 & H1 & H2 & _ & H3 & H4).
  exists w1, self1, w2.
  split; [exact H1|]. split; [exact H2|]. split; [by apply H3|].
  apply H4. discriminate.
Defined.

(** X26. [close] between two flushes. A logger is constructed with a log
    file in a process whose root logger has console handlers only, flushed,
    closed, and flushed again on the same day, the system permitting the
    directory and the file. Then one file handler is
    attached, the one of the second flush, and a record logged afterwards
    is written to the file once. *)
Theorem flush_after_close_writes_once (env : Env) (cfg : config)
    (w0 : World) (base : string) (dir_arg : option string)
    (app_arg : option bool) (msg : string) :
  cfg_log_file cfg = Some base →
  console_only (handlers (root w0)) = true →
  (∀ t t', today_at env t = today_at env t') →
  let self := new_logger cfg (next_id w0) in
  let dir := effective_dir self dir_arg in
  let path := os_path_join dir (prefixed_name env self 0 base) in
  permits env dir path →
  ∃ w1 self1 w2 self2 w3 self3 w4 fh w5,
    init env cfg w0 = Ok (self, w1)
    ∧ flush_to_file env self dir_arg app_arg w1 = Ok (self1, w2)
    ∧ close self1 w2 = Ok (self2, w3)
    ∧ flush_to_file env self2 dir_arg app_arg w3 = Ok (self3, w4)
    ∧ file_handler self3 = Present (Some fh)
    ∧ h_stream fh = FileStream path
    ∧ handlers (ptyrad w4)
      = [console_handler self; buffer_handler self; fh]
    ∧ logger_info env msg no_opts w4 = Ok (tt, w5)
    ∧ files (fs w5) !! path
      = (λ old, old ++ format_record env (cfg_show_timestamp cfg) (clock w4)
                         msg ++ nl) <$> files (fs w4) !! path.
Proof.
  intros Hf Hroot Hday self dir path Hp.
  set (n := next_id w0) in *. set (ts := cfg_show_timestamp cfg).
  destruct (new_logger_flush_file cfg n base Hf) as [Hlf Hff].
  fold self in Hlf, Hff.
  assert (Hname : ∀ t, prefixed_name env self t base
                       = prefixed_name env self 0%nat base).
  { intros t. unfold prefixed_name. by rewrite (Hday t 0%nat). }
  (* the constructor *)
  destruct (init_clock env cfg w0) as (w1 & H1 & S1 & _).
  fold n self in H1.
  destruct S1 as (Hp1 & Hr1 & Hd1 & Hn1 & _).
  assert (Hpw1 : ptyrad w1
                 = Logger INFO [Handler n Stderr INFO ts;
                                Handler (S (S n)) (Buffer (S n)) INFO ts])
    by (by rewrite Hp1).
  (* the first flush *)
  pose proof (flush_ok env self dir_arg app_arg w1 base Hlf Hff) as Hfl.
  cbv zeta in Hfl. rewrite Hname in Hfl. fold dir path in Hfl.
  destruct Hfl as (w2 & H2 & S2 & _); [by rewrite Hpw1|done|].
  set (fh1 := new_file_handler self path w1) in *.
  set (wf1 := flushed_world self _ _ _ w1) in *.
  assert (Hpwf1 : ptyrad wf1
                  = Logger INFO [Handler n Stderr INFO ts;
                                 Handler (S (S n)) (Buffer (S n)) INFO ts;
                                 fh1]).
  { unfold wf1, flushed_world; cbn [ptyrad]. fold fh1. rewrite Hpw1.
    unfold add_handler; simpl. rewrite bool_decide_eq_false_2; [done|].
    intros Hin. apply elem_of_cons in Hin as [[=]|Hin].
    apply list_elem_of_singleton in Hin. discriminate Hin. }
  destruct S2 as (Hp2 & Hr2 & _).
  (* the close *)
  set (self1 := set_file_handler (Present (Some fh1)) self) in *.
  set (self2 := set_file_handler (Present None) self1).
  set (w3 := set_ptyrad (remove_handler fh1 (ptyrad w2)) w2).
  assert (Hpw3 : ptyrad w3
                 = Logger INFO [Handler n Stderr INFO ts;
                                Handler (S (S n)) (Buffer (S n)) INFO ts]).
  { unfold w3; simpl. rewrite Hp2, Hpwf1. unfold remove_handler; simpl.
    rewrite !bool_decide_eq_false_2 by discriminate.
    by rewrite bool_decide_eq_true_2. }
  (* the second flush *)
  pose proof (flush_ok env self2 dir_arg app_arg w3 base Hlf Hff) as Hfl.
  cbv zeta in Hfl.
  change (effective_dir self2 dir_arg) with dir in Hfl.
  change (prefixed_name env self2 (clock w3) base)
    with (prefixed_name env self (clock w3) base) in Hfl.
  rewrite Hname in Hfl. fold path in Hfl.
  destruct Hfl as (w4 & H4 & S4 & _); [by rewrite Hpw3|done|].
  set (fh2 := new_file_handler self2 path w3) in *.
  set (wf2 := flushed_world self2 _ _ _ w3) in *.
  assert (Hpwf2 : ptyrad wf2
                  = Logger INFO [Handler n Stderr INFO ts;
                                 Handler (S (S n)) (Buffer (S n)) INFO ts;
                                 fh2]).
  { unfold wf2, flushed_world; cbn [ptyrad]. fold fh2. rewrite Hpw3.
    unfold add_handler; simpl. rewrite bool_decide_eq_false_2; [done|].
    intros Hin. apply elem_of_cons in Hin as [[=]|Hin].
    apply list_elem_of_singleton in Hin. discriminate Hin. }
  destruct S4 as (Hp4 & Hr4 & _).
  assert (Hrw4 : handlers (root w4) = handlers (root w0)).
  { rewrite Hr4. unfold wf2, flushed_world; cbn [root].
    change (root w3) with (root w2). rewrite Hr2.
    unfold wf1, flushed_world; cbn [root]. by rewrite Hr1. }
  set (ws := set_clock (S (clock w4)) w4).
  exists w1, self1, w2, self2, w3,
    (set_file_handler (Present (Some fh2)) self2), w4, fh2,
    (call_handlers env INFO (clock w4) msg ws).
  split; [exact H1|]. split; [exact H2|]. split; [reflexivity|].
  split; [exact H4|]. split; [reflexivity|]. split; [reflexivity|].
  split; [by rewrite Hp4, Hpwf2|].
  split; [apply logger_info_enabled; by rewrite Hp4, Hpwf2|].
  rewrite call_handlers_file.
  change (files (fs ws)) with (files (fs w4)).
  change (handlers (ptyrad ws)) with (handlers (ptyrad w4)).
  change (handlers (root ws)) with (handlers (root w4)).
  rewrite Hp4, Hpwf2, Hrw4. simpl.
  rewrite bool_decide_eq_true_2 by done.
  rewrite written_console_only by done. simpl.
  by rewrite string_app_nil_r.
Qed.

Lemma flush_after_close_writes_once_witness :
  ∃ w1 self1 w2 self2 w3 self3 w4 w5,
    init sample_env config_plain fresh_world
    = Ok (new_logger config_plain 0, w1)
    ∧ flush_to_file sample_env (new_logger config_plain 0) None None w1
      = Ok (self1, w2)
    ∧ close self1 w2 = Ok (self2, w3)
    ∧ flush_to_file sample_env self2 None None w3 = Ok (self3, w4)
    ∧ logger_info sample_env "once" no_opts w4 = Ok (tt, w5)
    ∧ files (fs w5) !! "logs/output.log"
      = (λ old, old ++ "once" ++ nl) <$> files (fs w4) !! "logs/output.log".
Proof.
  assert (Hp : permits sample_env
                 (effective_dir (new_logger config_plain 0) None)
                 (os_path_join (effective_dir (new_logger config_plain 0) None)
                    (prefixed_name sample_env (new_logger config_plain 0) 0
                       "output.log"))) by done.
  destruct (flush_after_close_writes_once sample_env config_plain fresh_world
              "output.log" None None "once" eq_refl eq_refl
              (λ _ _, eq_refl) Hp)
    as (w1 & self1 & w2 & self2 & w3 & self3 & w4 & fh & w5 & H1 & H2 & H3
        & H4 & _ & _ & _ & H5 & H6).
  exists w1, self1, w2, self2, w3, self3, w4, w5.
  split; [exact H1|]. split; [exact H2|]. split; [exact H3|].
  split; [exact H4|]. split; [exact H5|exact H6].
Defined.

(** X27. Where [vprint] is silent, as on every rank but 0 of a distributed
    run, the constructor and the flush print nothing, and the flush still
    opens the log file: the buffer is empty, so in append mode the file
    keeps what it held, or is made empty if it was not there, and in
    truncate mode it is emptied. *)
Theorem flush_on_silent_rank (env : Env) (cfg : config) (w0 : World)
    (base : string) (dir_arg : option string) (app_arg : option bool) :
  vprint_on w0 = false →
  cfg_log_file cfg = Some base →
  let self := new_logger cfg (next_id w0) in
  let dir := effective_dir self dir_arg in
  let path := os_path_join dir (prefixed_name env self (clock w0) base) in
  let append := default (cfg_append_to_file cfg) app_arg in
  permits env dir path →
  ∃ w1 self1 w2,
    init env cfg w0 = Ok (self, w1)
    ∧ buffers w1 !! log_buffer self = Some EmptyString
    ∧ flush_to_file env self dir_arg app_arg w1 = Ok (self1, w2)
    ∧ stdout w2 = stdout w0 ∧ stderr w2 = stderr w0
    ∧ buffers w2 !! log_buffer self = Some EmptyString
    ∧ files (fs w2) !! path
      = Some (if append then default EmptyString (files (fs w0) !! path)
              else EmptyString).
Proof.
  intros Hoff Hf self dir path append Hp.
  set (n := next_id w0) in *.
  destruct (new_logger_flush_file cfg n base Hf) as [Hlf Hff].
  fold self in Hlf, Hff.
  set (w1 := attached_world cfg w0).
  assert (H1 : init env cfg w0 = Ok (self, w1)).
  { rewrite init_run. fold n self w1. by rewrite vprint_all_off. }
  pose proof (flush_run env self dir_arg app_arg w1 base Hlf Hff) as Hrun.
  cbv zeta in Hrun. change (clock w1) with (clock w0) in Hrun.
  fold dir path in Hrun. specialize (Hrun Hp).
  change (default (append_to_file self) app_arg) with append in Hrun.
  set (w2 := flushed_world self dir path append w1) in *.
  unfold bind, ret in Hrun.
  rewrite !vprint1_off in Hrun by done.
  exists w1, (set_file_handler (Present (Some (new_file_handler self path w1)))
                self), w2.
  split; [exact H1|].
  split; [unfold w1, attached_world; simpl; apply lookup_insert_eq|].
  split; [exact Hrun|]. split; [reflexivity|]. split; [reflexivity|].
  split.
  - unfold w2, flushed_world; simpl. rewrite lookup_alter.
    rewrite decide_True by done. by rewrite lookup_insert_eq.
  - unfold w2, flushed_world; simpl. rewrite lookup_insert_eq.
    rewrite (lookup_insert_eq (buffers w0)). simpl.
    by rewrite string_app_nil_r.
Qed.

Lemma flush_on_silent_rank_witness :
  ∃ w1 self1 w2,
    init sample_env config_plain rank1_world
    = Ok (new_logger config_plain 0, w1)
    ∧ flush_to_file sample_env (new_logger config_plain 0) None (Some false) w1
      = Ok (self1, w2)
    ∧ stderr w2 = EmptyString
    ∧ files (fs w2) !! "logs/output.log" = Some EmptyString.
Proof.
  assert (Hp : permits sample_env
                 (effective_dir (new_logger config_plain 0) None)
                 (os_path_join (effective_dir (new_logger config_plain 0) None)
                    (prefixed_name sample_env (new_logger config_plain 0)
                       (clock rank1_world) "output.log"))) by done.
  destruct (flush_on_silent_rank sample_env config_plain rank1_world
              "output.log" None (Some false) eq_refl eq_refl Hp)
    as (w1 & self1 & w2 & H1 & _ & H2 & _ & H3 & _ & H4).
  exists w1, self1, w2.
  split; [exact H1|]. split; [exact H2|]. split; [exact H3|exact H4].
Defined.

(** ** Characters above ASCII *)

(** [repr] writes the characters that are not printable as [\xhh], the
    no-break space and the soft hyphen among them, and keeps a letter;
    [lower] knows the capital letters above ASCII, and leaves the
    multiplication sign. *)
Lemma repr_and_lower_above_ascii :
  repr_str (String (ascii_of_nat 160) EmptyString) = "'\xa0'"
  ∧ repr_str (String (ascii_of_nat 133) EmptyString) = "'\x85'"
  ∧ repr_str (String (ascii_of_nat 173) EmptyString) = "'\xad'"
  ∧ repr_str (String (ascii_of_nat 233) EmptyString)
    = String "'" (String (ascii_of_nat 233) "'")
  ∧ lower (String (ascii_of_nat 192) "LR") = String (ascii_of_nat 224) "lr"
  ∧ lower (String (ascii_of_nat 215) EmptyString)
    = String (ascii_of_nat 215) EmptyString.
Proof. repeat split; by vm_compute. Qed.
